(** * png-to-ico: the folder-icon reconciler and the favicon assembler

    A shallow embedding of [set_folder_icon.py] (the command-line tool) and of
    the folder-icon and favicon methods of [png_to_ico.py] (the GUI), with the
    properties the specification states about them.

    The Python code is imperative: it reads and writes the file system, calls
    the imaging library (Pillow) and runs the external [attrib] program.  It
    is embedded in a state-and-exception monad over a [world] that holds the
    file system, what is installed on the machine, and a trace of the calls
    made to the imaging library and to [attrib]. *)

From Stdlib Require Import ZArith String Ascii List Bool Lia.
From stdpp Require Import base option gmap strings list pretty sorting.

Set Warnings "-register-all,-clear-no-such-hyp".

Local Open Scope Z_scope.
Local Open Scope string_scope.

(** ** The world the programs run in *)

Module Env.

(** A [pathlib.Path], as the tuple of its [parts]. *)
Abbreviation path := (list string).

(** [p / name] for a [name] that is one part: it holds no separator and no
    drive.  (With a separator in it [name] would name a path of several
    parts, or one outside of [p]; where the name is not a constant of the
    program, the theorems assume [is_anchor name = false].) *)
Definition joinpath (p : path) (name : string) : path := (p ++ [name])%list.

Infix "//" := joinpath (at level 40, left associativity).

Definition has_char (c : ascii) (s : string) : bool :=
  existsb (fun x => bool_decide (x = c)) (list_ascii_of_string s).

(** The anchor (drive and root, as in [C:\ ]) is the only part that holds a
    separator or a colon. *)
Definition is_anchor (s : string) : bool :=
  has_char "\" s || has_char "/" s || has_char ":" s.

(** [p.name]: the final part, empty when the path is only an anchor. *)
Definition name (p : path) : string :=
  match reverse p with
  | [] => ""
  | s :: _ => if is_anchor s then "" else s
  end.

Fixpoint join (sep : string) (l : list string) : string :=
  match l with
  | [] => ""
  | [s] => s
  | s :: l' => s +:+ sep +:+ join sep l'
  end.

(** [str(p)] on Windows. *)
Definition path_str (p : path) : string :=
  match p with
  | [] => "."
  | a :: rest => if is_anchor a then a +:+ join "\" rest else join "\" p
  end.

(** File attributes that [attrib] sets and clears. *)
Record attrs := { a_system : bool; a_hidden : bool; a_readonly : bool }.

Definition no_attrs : attrs :=
  {| a_system := false; a_hidden := false; a_readonly := false |}.

Definition any_attr (a : attrs) : bool :=
  a_system a || a_hidden a || a_readonly a.

(** An image: its mode, the size of the frame it starts at, and the sizes
    of the further frames that [seek] reaches; [im_more] is [None] for an
    object without an [n_frames] attribute, which has its one frame only.
    The same record lists what an image file holds: the frames of the file,
    which for an icon file are the entries of the container. *)
Record image := {
  im_mode : string;
  im_size : Z * Z;
  im_more : option (list (Z * Z))
}.

(** The sizes of all frames of an image, in [seek] order. *)
Definition frame_sizes (im : image) : list (Z * Z) :=
  im_size im :: default [] (im_more im).

(** The value handed to [json.dump]. *)
Inductive json :=
| JStr (s : string)
| JList (l : list json)
| JDict (l : list (string * json)).

(** Contents of a file: text, an image file of format [fmt] that holds the
    frames of [im] (for ["ICO"], the entries of the icon), the dump of a
    JSON value, or bytes that are none of these. *)
Inductive data :=
| Text (s : string)
| Picture (fmt : string) (im : image)
| JsonDump (indent : Z) (j : json)
| Junk.

Inductive kind :=
| Dir
| File (d : data).

Record node := { n_kind : kind; n_attrs : attrs }.

(** Calls that leave the process: into the imaging library and to the
    [attrib] program. *)
Inductive call :=
| Image_open_call (p : path)
| Image_save_call (p : path) (fmt : string) (sizes : option (list (Z * Z)))
| attrib_call (args : list string).

(** What the GUI does to its widgets and dialogs. *)
Inductive ui :=
| messagebox (level title text : string)
| config (widget text fg : string)
| config_fg (widget fg : string)
| after_config_fg (ms : Z) (widget fg : string)
| preview (ico : path) (folder_name : string)
| pack (widget : string).

(** The fields of the [PngToIcoConverter] object and the state of its
    widgets that the modelled methods read and write. *)
Record gui := {
  bg_color : string;
  theme_color : string;
  manifest_bg_color : string;
  selected_file : option path;
  prefix_entry : string;          (* text of the prefix entry *)
  prefix_insert : Z;              (* its insertion cursor *)
  process_subfolders : bool;      (* the checkbox *)
  last_html_snippet : string
}.

Record world := {
  w_fs : gmap path node;
  w_pillow : bool;             (* [Image is not None] *)
  w_platform : string;         (* [sys.platform] *)
  w_attrib : bool;             (* [attrib] is found on PATH *)
  w_resolve : path -> path;    (* [Path.resolve] *)
  w_calls : list call;
  w_stdout : list string;
  w_stderr : list string;
  w_ui : list ui;
  w_gui : gui
}.

Definition set_fs (f : gmap path node -> gmap path node) (w : world) : world :=
  {| w_fs := f (w_fs w);
     w_pillow := w_pillow w;
     w_platform := w_platform w;
     w_attrib := w_attrib w;
     w_resolve := w_resolve w;
     w_calls := w_calls w;
     w_stdout := w_stdout w;
     w_stderr := w_stderr w;
     w_ui := w_ui w;
     w_gui := w_gui w |}.

Definition log_call (c : call) (w : world) : world :=
  {| w_fs := w_fs w;
     w_pillow := w_pillow w;
     w_platform := w_platform w;
     w_attrib := w_attrib w;
     w_resolve := w_resolve w;
     w_calls := (w_calls w ++ [c])%list;
     w_stdout := w_stdout w;
     w_stderr := w_stderr w;
     w_ui := w_ui w;
     w_gui := w_gui w |}.

Definition log_stdout (s : string) (w : world) : world :=
  {| w_fs := w_fs w;
     w_pillow := w_pillow w;
     w_platform := w_platform w;
     w_attrib := w_attrib w;
     w_resolve := w_resolve w;
     w_calls := w_calls w;
     w_stdout := (w_stdout w ++ [s])%list;
     w_stderr := w_stderr w;
     w_ui := w_ui w;
     w_gui := w_gui w |}.

Definition log_stderr (s : string) (w : world) : world :=
  {| w_fs := w_fs w;
     w_pillow := w_pillow w;
     w_platform := w_platform w;
     w_attrib := w_attrib w;
     w_resolve := w_resolve w;
     w_calls := w_calls w;
     w_stdout := w_stdout w;
     w_stderr := (w_stderr w ++ [s])%list;
     w_ui := w_ui w;
     w_gui := w_gui w |}.

Definition log_ui (u : ui) (w : world) : world :=
  {| w_fs := w_fs w;
     w_pillow := w_pillow w;
     w_platform := w_platform w;
     w_attrib := w_attrib w;
     w_resolve := w_resolve w;
     w_calls := w_calls w;
     w_stdout := w_stdout w;
     w_stderr := w_stderr w;
     w_ui := (w_ui w ++ [u])%list;
     w_gui := w_gui w |}.

Definition set_gui (f : gui -> gui) (w : world) : world :=
  {| w_fs := w_fs w;
     w_pillow := w_pillow w;
     w_platform := w_platform w;
     w_attrib := w_attrib w;
     w_resolve := w_resolve w;
     w_calls := w_calls w;
     w_stdout := w_stdout w;
     w_stderr := w_stderr w;
     w_ui := w_ui w;
     w_gui := f (w_gui w) |}.

(** Python exceptions: the class that [except] clauses look at, and the
    text [str(e)] gives. *)
Inductive exn_class :=
| PermissionError
| FileNotFoundError
| UnidentifiedImageError
| AttributeError
| ValueError.

Record exn := { e_class : exn_class; e_str : string }.

Inductive outcome (A : Type) :=
| Ret (a : A)
| Raise (e : exn).

Arguments Ret {A} a.
Arguments Raise {A} e.

(** A computation reads and changes the world and returns or raises. *)
Definition M (A : Type) : Type := world -> outcome A * world.

Definition ret {A} (a : A) : M A := fun w => (Ret a, w).

Definition bind {A B} (m : M A) (k : A -> M B) : M B :=
  fun w => match m w with
           | (Ret a, w') => k a w'
           | (Raise e, w') => (Raise e, w')
           end.

Definition raise {A} (c : exn_class) (msg : string) : M A :=
  fun w => (Raise {| e_class := c; e_str := msg |}, w).

(** [try: m  except Exception as e: h e] *)
Definition try_except {A} (m : M A) (h : exn -> M A) : M A :=
  fun w => match m w with
           | (Ret a, w') => (Ret a, w')
           | (Raise e, w') => h e w'
           end.

Definition get {A} (f : world -> A) : M A := fun w => (Ret (f w), w).

Definition modify (f : world -> world) : M unit := fun w => (Ret tt, f w).

Definition when (b : bool) (m : M unit) : M unit := if b then m else ret tt.

Declare Scope py_scope.
Delimit Scope py_scope with py.

Notation "x <- m ;; k" := (bind m (fun x => k))
  (at level 100, m at next level, right associativity) : py_scope.
Notation "m ;; k" := (bind m (fun _ => k))
  (at level 100, right associativity) : py_scope.

Local Open Scope py_scope.

(** [print(s)] and [print(s, file=sys.stderr)] *)
Definition print (s : string) : M unit := modify (log_stdout s).
Definition eprint (s : string) : M unit := modify (log_stderr s).

(** [p.exists()], [p.is_dir()] *)
Definition lookup_kind (w : world) (p : path) : option kind :=
  n_kind <$> w_fs w !! p.

Definition path_exists (p : path) : M bool :=
  get (fun w => bool_decide (is_Some (w_fs w !! p))).

Definition kind_is_dir (k : option kind) : bool :=
  match k with
  | Some Dir => true
  | _ => false
  end.

Definition is_dir (p : path) : M bool :=
  get (fun w => kind_is_dir (lookup_kind w p)).

Definition parent (p : path) : path := removelast p.

(** [p.iterdir()]: the entries directly under [p], in the order the
    file system lists them. *)
Definition children (m : gmap path node) (p : path) : list path :=
  filter (fun q => q ≠ [] ∧ parent q = p) (map_to_list m).*1.

Definition iterdir (p : path) : M (list path) :=
  d <- is_dir p ;;
  if d then get (fun w => children (w_fs w) p)
  else raise FileNotFoundError ("[WinError 3] The system cannot find the path specified: " +:+ path_str p).

(** Opening [p] for writing and storing [d]: refused on a directory and on
    a file that is read-only, hidden or system, and when the parent
    directory is missing. *)
Definition write_file (p : path) (d : data) : M unit :=
  fun w =>
    if negb (bool_decide (p ≠ []) && kind_is_dir (lookup_kind w (parent p))) then
      raise FileNotFoundError ("[Errno 2] No such file or directory: " +:+ path_str p) w
    else
      match w_fs w !! p with
      | None => (Ret tt, set_fs <[p := {| n_kind := File d; n_attrs := no_attrs |}]> w)
      | Some {| n_kind := File _; n_attrs := a |} =>
          if any_attr a then
            raise PermissionError ("[Errno 13] Permission denied: " +:+ path_str p) w
          else (Ret tt, set_fs <[p := {| n_kind := File d; n_attrs := a |}]> w)
      | Some {| n_kind := Dir |} =>
          raise PermissionError ("[Errno 13] Permission denied: " +:+ path_str p) w
      end.

(** [p.write_text(content, encoding='utf-8')] *)
Definition write_text (p : path) (content : string) : M unit :=
  write_file p (Text content).

(** [width * height] *)
Definition area (s : Z * Z) : Z := s.1 * s.2.

(** The entry of greatest area, the first of them in the list.  (Of
    several entries of that area Pillow takes the one of least colour
    depth; an image here has no colour depth, and entries of one size do
    not differ in what follows.) *)
Fixpoint largest (best : Z * Z) (l : list (Z * Z)) : Z * Z :=
  match l with
  | [] => best
  | s :: l' => largest (if (area best <? area s)%Z then s else best) l'
  end.

(** What [Image.open] shows of a file of format [fmt] that holds [im].
    An icon file opens as Pillow's [IcoImageFile]: one image, of the
    largest entry of the file, without an [n_frames] attribute; its other
    entries are not frames that [seek] reaches.  A file of another format
    opens with the frames it holds. *)
Definition shown (fmt : string) (im : image) : image :=
  if String.eqb fmt "ICO" then
    {| im_mode := im_mode im;
       im_size := largest (im_size im) (default [] (im_more im));
       im_more := None |}
  else im.

(** [Image.open(p)]: an [AttributeError] when Pillow is not installed
    ([Image] is [None]); otherwise the image the library shows of the
    file, or the library's error. *)
Definition Image_open (p : path) : M image :=
  pillow <- get w_pillow ;;
  if negb pillow then
    raise AttributeError "'NoneType' object has no attribute 'open'"
  else
    modify (log_call (Image_open_call p)) ;;
    n <- get (fun w => w_fs w !! p) ;;
    match n with
    | None => raise FileNotFoundError ("[Errno 2] No such file or directory: " +:+ path_str p)
    | Some {| n_kind := Dir |} => raise PermissionError ("[Errno 13] Permission denied: " +:+ path_str p)
    | Some {| n_kind := File (Picture fmt im) |} => ret (shown fmt im)
    | Some {| n_kind := File _ |} => raise UnidentifiedImageError ("cannot identify image file " +:+ path_str p)
    end.

(** Modelled from the spec: the imaging library is an external capability,
    [save(Image, path, format, sizes)]; an icon container saved with [sizes]
    embeds exactly the requested sizes, one frame each, and any other save
    stores the current frame alone.  (Pillow itself leaves out of an icon
    the requested sizes that exceed the source image: what is taken from
    the code is the [sizes] that the program asks for, and a theorem that
    reads the sizes of a saved icon back rests on this contract.) *)
Definition encode (im : image) (sizes : option (list (Z * Z))) : image :=
  match sizes with
  | Some (s :: more) => {| im_mode := im_mode im; im_size := s; im_more := Some more |}
  | _ => {| im_mode := im_mode im; im_size := im_size im; im_more := Some [] |}
  end.

(** [img.save(p, format=fmt, sizes=sizes)] *)
Definition Image_save (img : image) (p : path) (fmt : string)
    (sizes : option (list (Z * Z))) : M unit :=
  modify (log_call (Image_save_call p fmt sizes)) ;;
  write_file p (Picture fmt (encode img sizes)).

(** [img.resize((w, h), Image.LANCZOS)]: a new image of one frame. *)
Definition resize (img : image) (size : Z * Z) : image :=
  {| im_mode := im_mode img; im_size := size; im_more := None |}.

(** [img.convert(mode)]: a new image of one frame. *)
Definition convert (img : image) (mode : string) : image :=
  {| im_mode := mode; im_size := im_size img; im_more := None |}.

Definition apply_flag (a : attrs) (flag : string) : attrs :=
  if String.eqb flag "+s" then
    {| a_system := true; a_hidden := a_hidden a; a_readonly := a_readonly a |}
  else if String.eqb flag "-s" then
    {| a_system := false; a_hidden := a_hidden a; a_readonly := a_readonly a |}
  else if String.eqb flag "+h" then
    {| a_system := a_system a; a_hidden := true; a_readonly := a_readonly a |}
  else if String.eqb flag "-h" then
    {| a_system := a_system a; a_hidden := false; a_readonly := a_readonly a |}
  else if String.eqb flag "+r" then
    {| a_system := a_system a; a_hidden := a_hidden a; a_readonly := true |}
  else if String.eqb flag "-r" then
    {| a_system := a_system a; a_hidden := a_hidden a; a_readonly := false |}
  else a.

Definition set_attrs (flags : list string) (n : node) : node :=
  {| n_kind := n_kind n; n_attrs := fold_left apply_flag flags (n_attrs n) |}.

(** [subprocess.run(['attrib', *flags, str(p)], capture_output=True,
    text=True)]: raises when the program cannot be started; its exit code
    and output are dropped by the callers.  The program is taken to apply
    the flags whenever it starts.  The real one can refuse (access denied,
    [+s] on a hidden folder) and the callers do not see it, so that [True]
    from [set_folder_icon] says that [attrib] was run, not that the
    attributes are set. *)
Definition attrib (flags : list string) (p : path) : M unit :=
  modify (log_call (attrib_call (flags ++ [path_str p])%list)) ;;
  found <- get w_attrib ;;
  if negb found then
    raise FileNotFoundError "[WinError 2] The system cannot find the file specified"
  else modify (set_fs (alter (set_attrs flags) p)).

(** The line feed of Python's ["\n"]. *)
Definition nl : string := String "010"%char "".

(** What the folder-icon functions return as [result]: [True], an error
    message, or [None]. *)
Inductive pyval :=
| PyTrue
| PyStr (msg : string)
| PyNone.

Definition is_True (r : pyval) : bool :=
  match r with
  | PyTrue => true
  | _ => false
  end.

Definition is_None (r : pyval) : bool :=
  match r with
  | PyNone => true
  | _ => false
  end.

End Env.

Import Env.
Local Open Scope py_scope.

(** ** [set_folder_icon.py], the command-line tool *)

Module Cli.

(** Required sizes that a folder ICO must contain *)
Definition REQUIRED_FOLDER_ICO_SIZES : gset Z := {[16; 32; 48; 256]}.

(** Full set of sizes to generate when creating/regenerating folder ICOs *)
Definition FOLDER_ICO_SIZES : list (Z * Z) :=
  [(16, 16); (32, 32); (48, 48); (64, 64); (128, 128); (256, 256)].

(** [img.n_frames], [None] when the attribute is missing. *)
Definition n_frames (img : image) : option nat :=
  (fun more => S (length more)) <$> im_more img.

(** [img.seek(i); img.size] *)
Definition size_at (img : image) (i : nat) : Z * Z :=
  nth i (frame_sizes img) (im_size img).

(** The widths collected from an opened image. *)
Definition widths (img : image) : gset Z :=
  match n_frames img with
  | Some n =>
      if (1 <? n)%nat then
        fold_left (fun sizes i => sizes ∪ {[ (size_at img i).1 ]}) (seq 0 n) ∅
      else {[ (im_size img).1 ]}
  | None => {[ (im_size img).1 ]}
  end.

Definition get_ico_sizes (ico_path : path) : M (gset Z) :=
  pillow <- get w_pillow ;;
  if negb pillow then ret ∅
  else
    try_except
      (img <- Image_open ico_path ;;
       ret (widths img))
      (fun _ => ret ∅).

Definition set_folder_icon (folder_path ico_path : path) (use_absolute_path : bool)
    : M pyval :=
  let desktop_ini := folder_path // "desktop.ini" in
  try_except
    (e <- path_exists desktop_ini ;;
     when e (attrib ["-s"; "-h"; "-r"] desktop_ini) ;;
     icon_ref <- (if use_absolute_path
                  then get (fun w => path_str (w_resolve w ico_path))
                  else ret (name ico_path)) ;;
     let content := "[.ShellClassInfo]" +:+ nl +:+ "IconResource=" +:+ icon_ref +:+ ",0" +:+ nl in
     write_text desktop_ini content ;;
     attrib ["+s"] folder_path ;;
     attrib ["+s"; "+h"] desktop_ini ;;
     ret PyTrue)
    (fun e =>
       match e_class e with
       | PermissionError => ret (PyStr "Permission denied (try running as administrator)")
       | _ => ret (PyStr (e_str e))
       end).

(** [(result, ico_path) if result is True else (result, None)] *)
Definition with_ico (result : pyval) (ico_path : path) : pyval * option path :=
  if is_True result then (result, Some ico_path) else (result, None).

(** [str(sorted(sizes))] *)
Definition repr_sorted (sizes : gset Z) : string :=
  "[" +:+ join ", " (map pretty (merge_sort Z.le (elements sizes))) +:+ "]".

Definition process_single_folder (folder_path : path)
    (use_absolute_path verbose : bool) : M (pyval * option path) :=
  pillow <- get w_pillow ;;
  if negb pillow then
    ret (PyStr "Pillow is not installed. Please run: pip install Pillow", None)
  else
    let ico_path := folder_path // "folder.ico" in
    let png_path := folder_path // "folder.png" in
    ico_exists <- path_exists ico_path ;;
    if ico_exists then
      when verbose (print "  Found existing folder.ico") ;;
      existing_sizes <- get_ico_sizes ico_path ;;
      let missing_sizes := REQUIRED_FOLDER_ICO_SIZES ∖ existing_sizes in
      regenerate <- (if bool_decide (missing_sizes ≠ ∅) then path_exists png_path
                     else ret false) ;;
      failed <- (if regenerate then
                   when verbose
                     (print ("  ICO missing required sizes: " +:+ repr_sorted missing_sizes) ;;
                      print "  Regenerating from folder.png...") ;;
                   try_except
                     (img <- Image_open png_path ;;
                      Image_save img ico_path "ICO" (Some FOLDER_ICO_SIZES) ;;
                      when verbose (print "  Regenerated folder.ico with all sizes") ;;
                      ret None)
                     (fun e => ret (Some ("Failed to regenerate ICO: " +:+ e_str e)))
                 else ret None) ;;
      match failed with
      | Some msg => ret (PyStr msg, None)
      | None =>
          result <- set_folder_icon folder_path ico_path use_absolute_path ;;
          ret (with_ico result ico_path)
      end
    else
      png_exists <- path_exists png_path ;;
      if png_exists then
        when verbose (print "  Found folder.png, converting to ICO...") ;;
        try_except
          (img <- Image_open png_path ;;
           Image_save img ico_path "ICO" (Some FOLDER_ICO_SIZES) ;;
           when verbose (print "  Created folder.ico") ;;
           result <- set_folder_icon folder_path ico_path use_absolute_path ;;
           ret (with_ico result ico_path))
          (fun e => ret (PyStr ("Failed to convert PNG: " +:+ e_str e), None))
      else
        ret (PyStr "No folder.ico or folder.png found", None).

(** [for x in l: body], threading the local variables [st]. *)
Fixpoint for_each {A S : Type} (l : list A) (body : A -> S -> M S) (st : S) : M S :=
  match l with
  | [] => ret st
  | x :: l' => st' <- body x st ;; for_each l' body st'
  end.

(** The branch on [result] that follows each call of
    [process_single_folder]; [st] is [(processed, errors)]. *)
Definition count_result (folder : path) (result : pyval) (verbose : bool)
    (st : nat * list string) : M (nat * list string) :=
  let '(processed, errors) := st in
  match result with
  | PyTrue =>
      when verbose (print "  ✓ Icon applied successfully") ;;
      ret (S processed, errors)
  | PyStr msg =>
      when verbose (print ("  ✗ " +:+ msg)) ;;
      ret (processed, (errors ++ [name folder +:+ ": " +:+ msg])%list)
  | PyNone => ret (processed, errors)
  end.

(** Body of [for subfolder in path.iterdir()]. *)
Definition process_subfolder (use_absolute_path verbose : bool) (subfolder : path)
    (st : nat * list string) : M (nat * list string) :=
  d <- is_dir subfolder ;;
  if d then
    when verbose (print (nl +:+ "Processing subfolder: " +:+ name subfolder)) ;;
    r <- process_single_folder subfolder use_absolute_path verbose ;;
    count_result subfolder r.1 verbose st
  else ret st.

(** [apply_folder_icon] from [processed = 0] up to the summary: the values
    of [processed] and [errors] when the loop is over. *)
Definition tally (folder : path) (recursive use_absolute_path verbose : bool)
    : M (nat * list string) :=
  when verbose (print (nl +:+ "Processing: " +:+ path_str folder)) ;;
  r <- process_single_folder folder use_absolute_path verbose ;;
  st <- count_result folder r.1 verbose (0%nat, []) ;;
  if recursive then
    subfolders <- iterdir folder ;;
    for_each subfolders (process_subfolder use_absolute_path verbose) st
  else ret st.

(** The summary that [apply_folder_icon] prints, and its return value. *)
Definition summary (st : nat * list string) : M bool :=
  let '(processed, errors) := st in
  print "" ;;
  if (0 <? processed)%nat && bool_decide (errors = []) then
    print ("✓ Successfully set icon for " +:+ pretty processed +:+ " folder(s).") ;;
    print "  Refresh Windows Explorer (F5) to see the changes." ;;
    ret true
  else if (0 <? processed)%nat then
    print ("⚠ Set icon for " +:+ pretty processed +:+ " folder(s), but "
           +:+ pretty (length errors) +:+ " failed:") ;;
    for_each (take 5 errors) (fun error _ => print ("  • " +:+ error)) tt ;;
    when (5 <? length errors)%nat
      (print ("  ... and " +:+ pretty (length errors - 5)%nat +:+ " more")) ;;
    ret false
  else
    print "✗ No folders were processed." ;;
    match errors with
    | e :: _ => print ("Error: " +:+ e)
    | [] => ret tt
    end ;;
    ret false.

(** [folder] stands for [Path(folder_path)]; the messages print its [str]. *)
Definition apply_folder_icon (folder : path) (recursive use_absolute_path verbose : bool)
    : M bool :=
  platform <- get w_platform ;;
  if negb (String.eqb platform "win32") then
    eprint "Error: This tool only works on Windows." ;;
    ret false
  else
    pillow <- get w_pillow ;;
    if negb pillow then
      eprint "Error: Pillow is not installed. Please run: pip install Pillow" ;;
      ret false
    else
      e <- path_exists folder ;;
      if negb e then
        eprint ("Error: Folder not found: " +:+ path_str folder) ;;
        ret false
      else
        d <- is_dir folder ;;
        if negb d then
          eprint ("Error: Path is not a folder: " +:+ path_str folder) ;;
          ret false
        else
          st <- tally folder recursive use_absolute_path verbose ;;
          summary st.

End Cli.

(** ** [png_to_ico.py], the methods of [PngToIcoConverter] *)

Module Gui.

(** *** Prefix entry *)

(** The class [[a-zA-Z0-9\-_]] of the regular expression. *)
Definition prefix_char_ok (c : ascii) : bool :=
  let n := nat_of_ascii c in
  ((97 <=? n) && (n <=? 122) || (65 <=? n) && (n <=? 90) || (48 <=? n) && (n <=? 57)
   || (n =? 45) || (n =? 95))%nat.

(** [re.sub(r'[^a-zA-Z0-9\-_]', '', s)].  A string is the UTF-8 form of the
    Python string: every byte of a character beyond ASCII lies outside the
    class, so dropping bytes drops exactly the characters that do not
    match. *)
Definition re_sub_invalid (s : string) : string :=
  string_of_list_ascii (filter (fun c => prefix_char_ok c = true) (list_ascii_of_string s)).

(** [len(s)]: the characters of the UTF-8 string, its bytes that are no
    continuation bytes. *)
Definition py_len (s : string) : Z :=
  Z.of_nat (length (filter (fun c => (nat_of_ascii c <? 128)%nat || (191 <? nat_of_ascii c)%nat = true)
                           (list_ascii_of_string s))).

Definition set_prefix_entry (text : string) (insert : Z) (g : gui) : gui :=
  {| bg_color := bg_color g; theme_color := theme_color g;
     manifest_bg_color := manifest_bg_color g; selected_file := selected_file g;
     prefix_entry := text; prefix_insert := insert;
     process_subfolders := process_subfolders g;
     last_html_snippet := last_html_snippet g |}.

Definition set_last_html_snippet (snippet : string) (g : gui) : gui :=
  {| bg_color := bg_color g; theme_color := theme_color g;
     manifest_bg_color := manifest_bg_color g; selected_file := selected_file g;
     prefix_entry := prefix_entry g; prefix_insert := prefix_insert g;
     process_subfolders := process_subfolders g;
     last_html_snippet := snippet |}.

(** The handler bound to [<KeyRelease>] on the prefix entry. *)
Definition validate_prefix : M unit :=
  current <- get (fun w => prefix_entry (w_gui w)) ;;
  let valid := re_sub_invalid current in
  if negb (String.eqb current valid) then
    pos <- get (fun w => prefix_insert (w_gui w)) ;;
    let new_pos := Z.max 0 (pos - (py_len current - py_len valid)) in
    modify (set_gui (set_prefix_entry valid new_pos)) ;;
    modify (log_ui (config_fg "prefix_hint" "#cc0000")) ;;
    modify (log_ui (after_config_fg 500 "prefix_hint" "#888888"))
  else ret tt.

(** *** Folder icons *)

Definition set_folder_icon (folder_path ico_path : path) : M pyval :=
  let desktop_ini := folder_path // "desktop.ini" in
  try_except
    (e <- path_exists desktop_ini ;;
     when e (attrib ["-s"; "-h"; "-r"] desktop_ini) ;;
     let content := "[.ShellClassInfo]" +:+ nl +:+ "IconResource=" +:+ name ico_path +:+ ",0" +:+ nl in
     write_text desktop_ini content ;;
     attrib ["+s"] folder_path ;;
     attrib ["+s"; "+h"] desktop_ini ;;
     ret PyTrue)
    (fun e =>
       match e_class e with
       | PermissionError => ret (PyStr "Permission denied (try running as administrator)")
       | _ => ret (PyStr (e_str e))
       end).

Definition process_single_folder (folder_path : path) : M (pyval * option path) :=
  let ico_path := folder_path // "folder.ico" in
  let png_path := folder_path // "folder.png" in
  ico_exists <- path_exists ico_path ;;
  if ico_exists then
    result <- set_folder_icon folder_path ico_path ;;
    ret (Cli.with_ico result ico_path)
  else
    png_exists <- path_exists png_path ;;
    if png_exists then
      try_except
        (img <- Image_open png_path ;;
         let sizes := [(16, 16); (32, 32); (48, 48); (64, 64); (128, 128); (256, 256)] in
         Image_save img ico_path "ICO" (Some sizes) ;;
         result <- set_folder_icon folder_path ico_path ;;
         ret (Cli.with_ico result ico_path))
        (fun e => ret (PyStr ("Failed to convert PNG: " +:+ e_str e), None))
    else
      ret (PyStr "No folder.ico or folder.png found", None).

(** [update_folder_icon_preview]: the icon is opened and drawn; the drawing
    itself (largest frame, thumbnail, shortened label) is one [preview]
    event. *)
Definition update_folder_icon_preview (ico_path : path) (folder_name : string) : M unit :=
  pillow <- get w_pillow ;;
  if negb pillow then ret tt
  else
    try_except
      (_ <- Image_open ico_path ;;
       modify (log_ui (preview ico_path folder_name)) ;;
       modify (log_ui (config "folder_preview_info" "Icon applied!" "#228B22")))
      (fun _ => modify (log_ui (config "folder_preview_info" "Preview error" "#cc0000"))).

(** The locals [processed], [errors] and [last_ico_path]. *)
Record counts := {
  processed : nat;
  errors : list string;
  last_ico_path : option path
}.

(** The branch on [result] after [process_single_folder]; [first] tells the
    main folder, which always takes over [last_ico_path], from a subfolder,
    which sets it only when it is still [None]. *)
Definition count_result (first : bool) (folder : path) (r : pyval * option path)
    (st : counts) : counts :=
  match r.1 with
  | PyTrue =>
      {| processed := S (processed st); errors := errors st;
         last_ico_path := if first then r.2
                          else match last_ico_path st with
                               | None => r.2
                               | Some p => Some p
                               end |}
  | PyStr msg =>
      {| processed := processed st;
         errors := (errors st ++ [name folder +:+ ": " +:+ msg])%list;
         last_ico_path := last_ico_path st |}
  | PyNone => st
  end.

Definition process_subfolder (subfolder : path) (st : counts) : M counts :=
  d <- is_dir subfolder ;;
  if d then
    r <- process_single_folder subfolder ;;
    ret (count_result false subfolder r st)
  else ret st.

(** [apply_folder_icon] from [processed = 0] up to "Show results". *)
Definition tally (folder : path) : M counts :=
  r <- process_single_folder folder ;;
  let st := count_result true folder r
              {| processed := 0; errors := []; last_ico_path := None |} in
  subfolders_too <- get (fun w => process_subfolders (w_gui w)) ;;
  if subfolders_too then
    subfolders <- iterdir folder ;;
    Cli.for_each subfolders process_subfolder st
  else ret st.

(** ["\n".join(errors[:5])], with the count of the rest when there are more. *)
Definition error_list (errors : list string) : string :=
  join nl (take 5 errors)
  +:+ (if (5 <? length errors)%nat
       then nl +:+ "... and " +:+ pretty (length errors - 5)%nat +:+ " more"
       else "").

Definition show_results (folder : path) (st : counts) : M unit :=
  if (0 <? processed st)%nat && bool_decide (errors st = []) then
    modify (log_ui (config "folder_status"
      ("Set icon for " +:+ pretty (processed st) +:+ " folder(s). Refresh Explorer (F5).") "green")) ;;
    modify (log_ui (config "folder_drop_label" "âœ“ Icon applied!" "#228B22")) ;;
    match last_ico_path st with
    | Some ico => update_folder_icon_preview ico (name folder)
    | None => ret tt
    end ;;
    modify (log_ui (messagebox "info" "Success"
      ("Folder icon set for " +:+ pretty (processed st) +:+ " folder(s)." +:+ nl +:+ nl
       +:+ "You may need to refresh Windows Explorer (F5) to see the changes.")))
  else if (0 <? processed st)%nat then
    modify (log_ui (config "folder_status"
      ("Set " +:+ pretty (processed st) +:+ " icon(s), " +:+ pretty (length (errors st))
       +:+ " error(s)") "orange")) ;;
    match last_ico_path st with
    | Some ico => update_folder_icon_preview ico (name folder)
    | None => ret tt
    end ;;
    modify (log_ui (messagebox "warning" "Partial Success"
      ("Set icon for " +:+ pretty (processed st) +:+ " folder(s)." +:+ nl +:+ nl
       +:+ "Errors:" +:+ nl +:+ error_list (errors st))))
  else
    modify (log_ui (config "folder_status" "No folders processed" "red")) ;;
    match errors st with
    | e :: _ => modify (log_ui (messagebox "error" "Error" e))
    | [] => ret tt
    end.

(** [folder] stands for [Path(folder_path)]. *)
Definition apply_folder_icon (folder : path) : M unit :=
  pillow <- get w_pillow ;;
  if negb pillow then
    modify (log_ui (messagebox "error" "Error"
      ("Pillow is not installed. Please run:" +:+ nl +:+ "pip install Pillow")))
  else
    e <- path_exists folder ;;
    if negb e then
      modify (log_ui (messagebox "error" "Error" ("Folder not found: " +:+ path_str folder)))
    else
      d <- is_dir folder ;;
      if negb d then
        modify (log_ui (messagebox "error" "Error" "Please select a folder, not a file."))
      else
        modify (log_ui (config "folder_status" "Processing..." "blue")) ;;
        st <- tally folder ;;
        show_results folder st.

(** *** Favicon set *)

(** White space, what [str.strip()] removes at both ends.  A string is the
    UTF-8 form of the Python string, so a white-space character is one
    byte (U+0009 to U+000D, U+001C to U+0020), two bytes (U+0085, U+00A0)
    or three bytes (U+1680, U+2000 to U+200A, U+2028, U+2029, U+202F,
    U+205F, U+3000). *)
Definition is_space (c : ascii) : bool :=
  let n := nat_of_ascii c in
  ((9 <=? n) && (n <=? 13) || (28 <=? n) && (n <=? 32))%nat.

Definition is_space2 (a b : ascii) : bool :=
  let x := nat_of_ascii a in
  let y := nat_of_ascii b in
  ((x =? 194) && ((y =? 133) || (y =? 160)))%nat.

Definition is_space3 (a b c : ascii) : bool :=
  let x := nat_of_ascii a in
  let y := nat_of_ascii b in
  let z := nat_of_ascii c in
  ((x =? 225) && (y =? 154) && (z =? 128)
   || (x =? 226) && (y =? 128)
      && ((128 <=? z) && (z <=? 138) || (z =? 168) || (z =? 169) || (z =? 175))
   || (x =? 226) && (y =? 129) && (z =? 159)
   || (x =? 227) && (y =? 128) && (z =? 128))%nat.

(** Drops the white space that [l] starts with; [two] and [three] tell the
    characters of two and of three bytes, in the order the bytes have in
    [l]. *)
Fixpoint drop_space (two : ascii -> ascii -> bool) (three : ascii -> ascii -> ascii -> bool)
    (l : list ascii) : list ascii :=
  match l with
  | a :: l1 =>
      if is_space a then drop_space two three l1
      else
        match l1 with
        | b :: l2 =>
            if two a b then drop_space two three l2
            else
              match l2 with
              | c :: l3 => if three a b c then drop_space two three l3 else l
              | [] => l
              end
        | [] => l
        end
  | [] => []
  end.

(** [s.lstrip()] *)
Definition lstrip (l : list ascii) : list ascii := drop_space is_space2 is_space3 l.

(** [s.rstrip()], on the bytes in reverse *)
Definition rstrip_rev (l : list ascii) : list ascii :=
  drop_space (fun b a => is_space2 a b) (fun c b a => is_space3 a b c) l.

(** [s.strip()] *)
Definition strip (s : string) : string :=
  string_of_list_ascii (rev (rstrip_rev (rev (lstrip (list_ascii_of_string s))))).

(** [s.lstrip('#')] *)
Fixpoint lstrip_hash (s : string) : string :=
  match s with
  | String c s' => if Ascii.eqb c "#" then lstrip_hash s' else s
  | EmptyString => EmptyString
  end.

Definition hex_digit (c : ascii) : option Z :=
  let n := nat_of_ascii c in
  if ((48 <=? n) && (n <=? 57))%nat then Some (Z.of_nat n - 48)
  else if ((97 <=? n) && (n <=? 102))%nat then Some (Z.of_nat n - 87)
  else if ((65 <=? n) && (n <=? 70))%nat then Some (Z.of_nat n - 55)
  else None.

Fixpoint hex_value (acc : Z) (s : string) : option Z :=
  match s with
  | EmptyString => Some acc
  | String c s' =>
      match hex_digit c with
      | Some d => hex_value (16 * acc + d) s'
      | None => None
      end
  end.

(** [int(s, 16)] on a run of hexadecimal digits; anything else is a
    [ValueError] (the sign, prefix, blanks and underscores that [int] also
    takes do not occur in the ["#rrggbb"] strings of the colour chooser). *)
Definition int16 (s : string) : M Z :=
  match s with
  | EmptyString => raise ValueError "invalid literal for int() with base 16: ''"
  | _ =>
      match hex_value 0 s with
      | Some z => ret z
      | None => raise ValueError ("invalid literal for int() with base 16: '" +:+ s +:+ "'")
      end
  end.

(** [s[a:b]] *)
Definition slice (s : string) (a b : nat) : string := substring a (b - a) s.

(** Create apple-touch-icon with solid background (no transparency).  Pixels
    are not part of [image]: both ways of pasting leave the background's
    mode and size. *)
Definition create_apple_touch_icon (img : image) (size : Z) : M image :=
  bg <- get (fun w => lstrip_hash (bg_color (w_gui w))) ;;
  r <- int16 (slice bg 0 2) ;;
  g <- int16 (slice bg 2 4) ;;
  b <- int16 (slice bg 4 6) ;;
  let background := {| im_mode := "RGB"; im_size := (size, size); im_more := None |} in
  let resized := resize img (size, size) in
  ret background.

Definition png_sizes : list (string * Z) :=
  [("favicon-16x16.png", 16); ("favicon-32x32.png", 32);
   ("android-chrome-192x192.png", 192); ("android-chrome-512x512.png", 512)].

Definition manifest (prefix theme background : string) : json :=
  JDict
    [("name", JStr "");
     ("short_name", JStr "");
     ("icons", JList
        [JDict [("src", JStr ("/" +:+ prefix +:+ "android-chrome-192x192.png"));
                ("sizes", JStr "192x192");
                ("type", JStr "image/png")];
         JDict [("src", JStr ("/" +:+ prefix +:+ "android-chrome-512x512.png"));
                ("sizes", JStr "512x512");
                ("type", JStr "image/png")]]);
     ("theme_color", JStr theme);
     ("background_color", JStr background);
     ("display", JStr "standalone")].

(** The double quote. *)
Definition dq : string := String "034"%char "".

(** [<name k1="v1" k2="v2">] *)
Definition tag (name : string) (attributes : list (string * string)) : string :=
  "<" +:+ name
  +:+ fold_right (fun kv rest => " " +:+ kv.1 +:+ "=" +:+ dq +:+ kv.2 +:+ dq +:+ rest)
        "" attributes
  +:+ ">".

Definition html_snippet (prefix theme : string) : string :=
  "<!-- Favicon -->" +:+ nl
  +:+ tag "link" [("rel", "icon"); ("type", "image/x-icon");
                  ("href", "/" +:+ prefix +:+ "favicon.ico")] +:+ nl
  +:+ tag "link" [("rel", "icon"); ("type", "image/png"); ("sizes", "32x32");
                  ("href", "/" +:+ prefix +:+ "favicon-32x32.png")] +:+ nl
  +:+ tag "link" [("rel", "icon"); ("type", "image/png"); ("sizes", "16x16");
                  ("href", "/" +:+ prefix +:+ "favicon-16x16.png")] +:+ nl
  +:+ nl
  +:+ "<!-- Apple Touch Icon -->" +:+ nl
  +:+ tag "link" [("rel", "apple-touch-icon"); ("sizes", "180x180");
                  ("href", "/" +:+ prefix +:+ "apple-touch-icon.png")] +:+ nl
  +:+ nl
  +:+ "<!-- Android Chrome -->" +:+ nl
  +:+ tag "link" [("rel", "manifest"); ("href", "/" +:+ prefix +:+ "manifest.json")] +:+ nl
  +:+ tag "meta" [("name", "theme-color"); ("content", theme)] +:+ nl.

(** Body of [for base_filename, size in png_sizes.items()]. *)
Definition save_png (img : image) (output_path : path) (prefix : string)
    (entry : string * Z) (generated_files : list string) : M (list string) :=
  let filename := prefix +:+ entry.1 in
  let resized := resize img (entry.2, entry.2) in
  Image_save resized (output_path // filename) "PNG" None ;;
  ret (generated_files ++ [filename])%list.

(** The [try] block of [generate_favicon_set] down to the last
    [generated_files.append]; returns [generated_files]. *)
Definition write_favicon_set (source output_path : path) : M (list string) :=
  modify (log_ui (config "favicon_status" "Generating..." "blue")) ;;
  prefix <- get (fun w => strip (prefix_entry (w_gui w))) ;;
  img <- Image_open source ;;
  let img := if negb (String.eqb (im_mode img) "RGBA") then convert img "RGBA" else img in
  let generated_files := [] in
  let ico_filename := prefix +:+ "favicon.ico" in
  let ico_path := output_path // ico_filename in
  Image_save img ico_path "ICO" (Some [(16, 16); (32, 32); (48, 48)]) ;;
  let generated_files := (generated_files ++ [ico_filename])%list in
  generated_files <- Cli.for_each png_sizes (save_png img output_path prefix) generated_files ;;
  let apple_size := 180 in
  let apple_filename := prefix +:+ "apple-touch-icon.png" in
  apple_icon <- create_apple_touch_icon img apple_size ;;
  Image_save apple_icon (output_path // apple_filename) "PNG" None ;;
  let generated_files := (generated_files ++ [apple_filename])%list in
  let manifest_filename := prefix +:+ "manifest.json" in
  theme <- get (fun w => theme_color (w_gui w)) ;;
  background <- get (fun w => manifest_bg_color (w_gui w)) ;;
  write_file (output_path // manifest_filename) (JsonDump 2 (manifest prefix theme background)) ;;
  let generated_files := (generated_files ++ [manifest_filename])%list in
  let html_filename := prefix +:+ "favicon.html" in
  modify (set_gui (set_last_html_snippet (html_snippet prefix theme))) ;;
  snippet <- get (fun w => last_html_snippet (w_gui w)) ;;
  write_file (output_path // html_filename) (Text snippet) ;;
  ret (generated_files ++ [html_filename])%list.

(** [output_dir] is the answer of the directory dialog, [None] when it is
    cancelled. *)
Definition generate_favicon_set (output_dir : option path) : M unit :=
  pillow <- get w_pillow ;;
  if negb pillow then
    modify (log_ui (messagebox "error" "Error"
      ("Pillow is not installed. Please run:" +:+ nl +:+ "pip install Pillow")))
  else
    source <- get (fun w => selected_file (w_gui w)) ;;
    match source, output_dir with
    | None, _ =>
        modify (log_ui (messagebox "error" "Error" "Please select a source PNG file first."))
    | Some _, None => ret tt
    | Some source, Some output_path =>
        try_except
          (generated_files <- write_favicon_set source output_path ;;
           modify (log_ui (config "favicon_status"
             ("Generated " +:+ pretty (length generated_files) +:+ " files!") "green")) ;;
           modify (log_ui (pack "copy_html_btn")) ;;
           let files_list := join nl (map (fun f => "  â€¢ " +:+ f) generated_files) in
           modify (log_ui (messagebox "info" "Success"
             ("Favicon set generated in:" +:+ nl +:+ path_str output_path +:+ nl +:+ nl
              +:+ "Files created:" +:+ nl +:+ files_list))))
          (fun e =>
             modify (log_ui (messagebox "error" "Error"
               ("Generation failed:" +:+ nl +:+ e_str e))) ;;
             modify (log_ui (config "favicon_status" "Generation failed" "red")))
    end.

End Gui.

(** ** Paths *)

Lemma joinpath_inj (p : path) (a b : string) : p // a = p // b → a = b.
Proof.
  unfold joinpath. intros H. apply app_inv_head in H. congruence.
Qed.

Lemma joinpath_ne_self (p : path) (a : string) : p // a ≠ p.
Proof.
  unfold joinpath. intros H. apply (f_equal length) in H.
  rewrite length_app in H. simpl in H. lia.
Qed.

Lemma joinpath_ne_nil (p : path) (a : string) : p // a ≠ [].
Proof. unfold joinpath. destruct p; discriminate. Qed.

Lemma parent_joinpath (p : path) (a : string) : parent (p // a) = p.
Proof. unfold parent, joinpath. apply removelast_last. Qed.

Lemma name_joinpath (p : path) (a : string) :
  is_anchor a = false → name (p // a) = a.
Proof.
  intros H. unfold name, joinpath. rewrite reverse_snoc. by rewrite H.
Qed.

Lemma joinpath_ne (p : path) (a b : string) : a ≠ b → p // a ≠ p // b.
Proof. intros Hab H. by apply Hab, (joinpath_inj p). Qed.

(** ** Relations between the world before and after a computation *)

Section Preserves.

Context (P : world → world → Prop) `{!PreOrder P}.

(** [m] takes every world to one that is [P]-related to it, whether it
    returns or raises. *)
Definition preserves {A} (m : M A) : Prop := ∀ w, P w (m w).2.

Lemma preserves_ret {A} (a : A) : preserves (ret a).
Proof. intros w. reflexivity. Qed.

Lemma preserves_get {A} (f : world → A) : preserves (get f).
Proof. intros w. reflexivity. Qed.

Lemma preserves_raise {A} c msg : preserves (@raise A c msg).
Proof. intros w. reflexivity. Qed.

Lemma preserves_modify f : (∀ w, P w (f w)) → preserves (modify f).
Proof. intros H w. apply H. Qed.

Lemma preserves_bind {A B} (m : M A) (k : A → M B) :
  preserves m → (∀ a, preserves (k a)) → preserves (bind m k).
Proof.
  intros Hm Hk w. unfold bind. specialize (Hm w).
  destruct (m w) as [[a|e] w1]; simpl in *; [|done].
  etransitivity; [exact Hm | apply Hk].
Qed.

Lemma preserves_try_except {A} (m : M A) (h : exn → M A) :
  preserves m → (∀ e, preserves (h e)) → preserves (try_except m h).
Proof.
  intros Hm Hh w. unfold try_except. specialize (Hm w).
  destruct (m w) as [[a|e] w1]; simpl in *; [done|].
  etransitivity; [exact Hm | apply Hh].
Qed.

Lemma preserves_when b (m : M unit) : preserves m → preserves (when b m).
Proof. intros Hm. destruct b; [exact Hm | apply preserves_ret]. Qed.

Lemma preserves_for_each {A S} (l : list A) (body : A → S → M S) (st : S) :
  (∀ x s, preserves (body x s)) → preserves (Cli.for_each l body st).
Proof.
  intros Hbody. revert st.
  induction l as [|x l IH]; intros st; simpl.
  - apply preserves_ret.
  - apply preserves_bind; [apply Hbody | intros s; apply IH].
Qed.

End Preserves.

(** ** What a computation may change *)

(** [effect written flagged ok w w']: from [w] to [w'] file contents changed
    only at paths in [written], attributes only at paths in [written] or
    [flagged], no directory appeared or went away, no entry went away, the
    machine and the GUI's fields are the same, and the calls made are all
    in [ok]. *)
Record effect (written flagged : path → Prop) (ok : call → Prop) (w w' : world) : Prop := {
  eff_kind q : ¬ written q → lookup_kind w' q = lookup_kind w q;
  eff_node q : ¬ written q → ¬ flagged q → w_fs w' !! q = w_fs w !! q;
  eff_dirs q : kind_is_dir (lookup_kind w' q) = kind_is_dir (lookup_kind w q);
  eff_exists q : is_Some (w_fs w !! q) → is_Some (w_fs w' !! q);
  eff_pillow : w_pillow w' = w_pillow w;
  eff_platform : w_platform w' = w_platform w;
  eff_attrib : w_attrib w' = w_attrib w;
  eff_resolve : w_resolve w' = w_resolve w;
  eff_gui : w_gui w' = w_gui w;
  eff_calls : ∃ new, w_calls w' = (w_calls w ++ new)%list ∧ Forall ok new
}.

#[global] Instance effect_preorder W F ok : PreOrder (effect W F ok).
Proof.
  split.
  - intros w. split; try done. exists []. by rewrite app_nil_r.
  - intros w1 w2 w3 [K1 N1 D1 X1 P1 L1 A1 R1 G1 C1] [K2 N2 D2 X2 P2 L2 A2 R2 G2 C2].
    split.
    + intros q Hq. by rewrite K2, K1.
    + intros q Hq Hf. by rewrite N2, N1.
    + intros q. by rewrite D2, D1.
    + intros q Hq. auto.
    + by rewrite P2.
    + by rewrite L2.
    + by rewrite A2.
    + by rewrite R2.
    + by rewrite G2.
    + destruct C1 as (n1 & E1 & F1), C2 as (n2 & E2 & F2).
      exists (n1 ++ n2)%list. split.
      * by rewrite E2, E1, app_assoc.
      * by apply Forall_app.
Qed.

Lemma effect_mono (W W' F F' : path → Prop) (ok ok' : call → Prop) w w' :
  (∀ q, W q → W' q) → (∀ q, F q → W' q ∨ F' q) → (∀ c, ok c → ok' c) →
  effect W F ok w w' → effect W' F' ok' w w'.
Proof.
  intros HW HF Hok [K N D X P L A R G C]. split; try done.
  - intros q Hq. apply K. intros Hw. apply Hq, HW, Hw.
  - intros q Hq Hf. apply N.
    + intros Hw. apply Hq, HW, Hw.
    + intros Hf'. destruct (HF q Hf'); tauto.
  - destruct C as (n & E & Hn). exists n. split; [done|].
    eapply Forall_impl; eauto.
Qed.

(** Changes that leave files, machine and calls alone. *)
Lemma effect_silent W F ok (f : world → world) :
  (∀ w, w_fs (f w) = w_fs w) → (∀ w, w_pillow (f w) = w_pillow w) →
  (∀ w, w_platform (f w) = w_platform w) → (∀ w, w_attrib (f w) = w_attrib w) →
  (∀ w, w_resolve (f w) = w_resolve w) → (∀ w, w_gui (f w) = w_gui w) →
  (∀ w, w_calls (f w) = w_calls w) →
  preserves (effect W F ok) (modify f).
Proof.
  intros Hfs Hp Hpl Ha Hr Hg Hc w. unfold modify; simpl.
  split; unfold lookup_kind; rewrite ?Hfs; try done.
  exists []. by rewrite app_nil_r, Hc.
Qed.

Lemma effect_print W F ok s : preserves (effect W F ok) (print s).
Proof. by apply effect_silent. Qed.

Lemma effect_eprint W F ok s : preserves (effect W F ok) (eprint s).
Proof. by apply effect_silent. Qed.

Lemma effect_log_ui W F ok u : preserves (effect W F ok) (modify (log_ui u)).
Proof. by apply effect_silent. Qed.

Lemma effect_log_call (W F : path → Prop) (ok : call → Prop) c :
  ok c → preserves (effect W F ok) (modify (log_call c)).
Proof.
  intros Hc w. unfold modify; simpl. split; try done.
  exists [c]. split; [done | by constructor].
Qed.

Lemma effect_write_file (W F : path → Prop) (ok : call → Prop) p d :
  W p → preserves (effect W F ok) (write_file p d).
Proof.
  intros Hp w. unfold write_file, raise.
  destruct (negb _); [reflexivity|].
  destruct (w_fs w !! p) as [[[|d0] a]|] eqn:E; simpl; try reflexivity.
  - destruct (any_attr a); simpl; [reflexivity|].
    split; simpl; try done; unfold lookup_kind; simpl.
    + intros q Hq. rewrite lookup_insert_ne; [done | congruence].
    + intros q Hq _. rewrite lookup_insert_ne; [done | congruence].
    + intros q. destruct (decide (p = q)) as [<-|].
      * by rewrite lookup_insert_eq, E.
      * by rewrite lookup_insert_ne.
    + intros q Hq. destruct (decide (p = q)) as [<-|].
      * by rewrite lookup_insert_eq.
      * by rewrite lookup_insert_ne.
    + exists []. by rewrite app_nil_r.
  - split; simpl; try done; unfold lookup_kind; simpl.
    + intros q Hq. rewrite lookup_insert_ne; [done | congruence].
    + intros q Hq _. rewrite lookup_insert_ne; [done | congruence].
    + intros q. destruct (decide (p = q)) as [<-|].
      * by rewrite lookup_insert_eq, E.
      * by rewrite lookup_insert_ne.
    + intros q Hq. destruct (decide (p = q)) as [<-|].
      * by rewrite lookup_insert_eq.
      * by rewrite lookup_insert_ne.
    + exists []. by rewrite app_nil_r.
Qed.

Lemma effect_set_attrs (W F : path → Prop) (ok : call → Prop) flags p :
  W p ∨ F p → preserves (effect W F ok) (modify (set_fs (alter (set_attrs flags) p))).
Proof.
  intros Hp w. unfold modify; simpl.
  split; simpl; try done; unfold lookup_kind; simpl.
  - intros q Hq. destruct (decide (p = q)) as [<-|].
    + rewrite lookup_alter_eq. by destruct (w_fs w !! p).
    + by rewrite lookup_alter_ne.
  - intros q Hq Hf. rewrite lookup_alter_ne; [done|]. intros <-. tauto.
  - intros q. destruct (decide (p = q)) as [<-|].
    + rewrite lookup_alter_eq. by destruct (w_fs w !! p).
    + by rewrite lookup_alter_ne.
  - intros q Hq. destruct (decide (p = q)) as [<-|].
    + rewrite lookup_alter_eq. by apply fmap_is_Some.
    + by rewrite lookup_alter_ne.
  - exists []. by rewrite app_nil_r.
Qed.

(** Applies a lemma of the section above and finds its preorder. *)
Ltac papply lem :=
  apply lem;
  lazymatch goal with
  | |- PreOrder _ => apply _
  | _ => idtac
  end.

Lemma effect_attrib (W F : path → Prop) (ok : call → Prop) flags p :
  W p ∨ F p → ok (attrib_call (flags ++ [path_str p])%list) →
  preserves (effect W F ok) (attrib flags p).
Proof.
  intros Hp Hc. unfold attrib.
  papply preserves_bind; [by apply effect_log_call | intros _].
  papply preserves_bind; [papply preserves_get | intros found].
  destruct (negb found); [papply preserves_raise | by apply effect_set_attrs].
Qed.

Lemma effect_Image_open (W F : path → Prop) (ok : call → Prop) p :
  ok (Image_open_call p) → preserves (effect W F ok) (Image_open p).
Proof.
  intros Hc. unfold Image_open.
  papply preserves_bind; [papply preserves_get | intros pillow].
  destruct (negb pillow); [papply preserves_raise|].
  papply preserves_bind; [by apply effect_log_call | intros _].
  papply preserves_bind; [papply preserves_get | intros n].
  destruct n as [[[|[]] ?]|]; first [papply preserves_raise | papply preserves_ret].
Qed.

Lemma effect_Image_save (W F : path → Prop) (ok : call → Prop) img p fmt sizes :
  W p → ok (Image_save_call p fmt sizes) →
  preserves (effect W F ok) (Image_save img p fmt sizes).
Proof.
  intros Hp Hc. unfold Image_save.
  papply preserves_bind; [by apply effect_log_call | intros _].
  by apply effect_write_file.
Qed.

(** Takes a computation apart along its control structure; what is left
    are the side conditions of the calls it makes. *)
Ltac effect_step :=
  lazymatch goal with
  | |- preserves _ (bind _ _) => papply preserves_bind; [|intros ?]
  | |- preserves _ (try_except _ _) => papply preserves_try_except; [|intros ?]
  | |- preserves _ (when _ _) => papply preserves_when
  | |- preserves _ (ret _) => papply preserves_ret
  | |- preserves _ (get _) => papply preserves_get
  | |- preserves _ (raise _ _) => papply preserves_raise
  | |- preserves _ (Cli.for_each _ _ _) => papply preserves_for_each; intros ? ?
  | |- preserves _ (print _) => apply effect_print
  | |- preserves _ (eprint _) => apply effect_eprint
  | |- preserves _ (modify (log_ui _)) => apply effect_log_ui
  | |- preserves _ (write_text _ _) => apply effect_write_file
  | |- preserves _ (write_file _ _) => apply effect_write_file
  | |- preserves _ (attrib _ _) => apply effect_attrib
  | |- preserves _ (Image_open _) => apply effect_Image_open
  | |- preserves _ (Image_save _ _ _ _) => apply effect_Image_save
  | |- preserves _ (path_exists _) => papply preserves_get
  | |- preserves _ (is_dir _) => papply preserves_get
  | |- preserves _ (if ?b then _ else _) => destruct b
  | |- preserves _ (match ?x with _ => _ end) => destruct x
  | |- preserves _ (let _ := _ in _) => cbv zeta
  end.

Ltac effect_tac := repeat effect_step.

Definition is_attrib_call (c : call) : Prop :=
  match c with
  | attrib_call _ => True
  | _ => False
  end.

Definition is_open_call (c : call) : Prop :=
  match c with
  | Image_open_call _ => True
  | _ => False
  end.

Definition is_save_call (c : call) : Prop :=
  match c with
  | Image_save_call _ _ _ => True
  | _ => False
  end.

(** ** [set_folder_icon] *)

Section SetFolderIcon.

Context (folder_path ico_path : path) (use_absolute_path : bool).

Let desktop_ini := folder_path // "desktop.ini".

(** [set_folder_icon] writes [desktop.ini] and nothing else, changes
    attributes of the folder and of [desktop.ini] only, and calls
    [attrib] only. *)
Lemma set_folder_icon_effect :
  preserves (effect (λ q, q = desktop_ini) (λ q, q = folder_path) is_attrib_call)
    (Cli.set_folder_icon folder_path ico_path use_absolute_path).
Proof.
  unfold Cli.set_folder_icon. effect_tac; simpl; auto.
Qed.

Lemma Gui_set_folder_icon_effect :
  preserves (effect (λ q, q = desktop_ini) (λ q, q = folder_path) is_attrib_call)
    (Gui.set_folder_icon folder_path ico_path).
Proof.
  unfold Gui.set_folder_icon. effect_tac; simpl; auto.
Qed.

End SetFolderIcon.

(** ** Inspecting the widths of an icon *)

(** The widths of all frames of an image. *)
Definition frame_widths (im : image) : gset Z :=
  list_to_set ((frame_sizes im).*1).

(** The widths embedded in the file at [p]: those of the frames the file
    holds, for an icon file of all its entries; none when [p] is no
    image. *)
Definition embedded_widths (w : world) (p : path) : gset Z :=
  match w_fs w !! p with
  | Some {| n_kind := File (Picture _ im) |} => frame_widths im
  | _ => ∅
  end.

(** The image the library opens at [p], if any. *)
Definition image_at (w : world) (p : path) : option image :=
  match w_fs w !! p with
  | Some {| n_kind := File (Picture fmt im) |} => Some (shown fmt im)
  | _ => None
  end.

(** The widths that [get_ico_sizes] finds at [p]: those of the frames of
    the image that the library opens there.  Of an icon file this is the
    width of its largest entry alone. *)
Definition seen_widths (w : world) (p : path) : gset Z :=
  match image_at w p with
  | Some img => frame_widths img
  | None => ∅
  end.

Lemma fold_widths (d : Z * Z) (l pre : list (Z * Z)) (acc : gset Z) :
  fold_left (λ sizes i, sizes ∪ {[ (nth i (pre ++ l) d).1 ]})
    (seq (length pre) (length l)) acc
  = acc ∪ list_to_set (l.*1).
Proof.
  revert pre acc. induction l as [|x l IH]; intros pre acc; simpl.
  - set_solver.
  - rewrite app_nth2, Nat.sub_diag by lia. simpl.
    specialize (IH (pre ++ [x])%list (acc ∪ {[x.1]})).
    rewrite length_app, Nat.add_1_r, <- app_assoc in IH. simpl in IH.
    rewrite IH. set_solver.
Qed.

(** The loop of [get_ico_sizes] collects the width of every frame. *)
Lemma widths_frame_widths (img : image) : Cli.widths img = frame_widths img.
Proof.
  unfold Cli.widths, frame_widths, Cli.n_frames, Cli.size_at, frame_sizes.
  destruct img as [mode size [more|]]; simpl; [|set_solver].
  destruct more as [|s more]; simpl; [set_solver|].
  pose proof (fold_widths size (size :: s :: more) [] ∅) as H.
  simpl in H. rewrite H. set_solver.
Qed.

(** [get_ico_sizes] never raises; it returns the widths of the frames of
    the opened image, and the empty set when Pillow is missing. *)
Lemma get_ico_sizes_run (p : path) (w : world) :
  Cli.get_ico_sizes p w
  = if w_pillow w
    then (Ret (seen_widths w p), log_call (Image_open_call p) w)
    else (Ret ∅, w).
Proof.
  unfold seen_widths, image_at.
  cbv beta iota zeta delta [Cli.get_ico_sizes bind get try_except Image_open modify ret raise].
  destruct (w_pillow w) eqn:Hp; cbn [negb]; [|done].
  cbn [w_pillow w_fs log_call]. rewrite ?Hp. cbn [negb].
  destruct (w_fs w !! p) as [[[|[]] a]|]; try done.
  by rewrite widths_frame_widths.
Qed.

(** ** What [set_folder_icon] leaves in [desktop.ini] *)

(** The descriptor of the specification:
    [[.ShellClassInfo]\nIconResource=<ref>,0\n]. *)
Definition desktop_ini_content (ref : string) : string :=
  "[.ShellClassInfo]" +:+ nl +:+ "IconResource=" +:+ ref +:+ ",0" +:+ nl.

(** The reference to the icon: its bare file name, or its resolved path in
    absolute mode. *)
Definition icon_ref (w : world) (ico_path : path) (use_absolute_path : bool) : string :=
  if use_absolute_path then path_str (w_resolve w ico_path) else name ico_path.

(** [desktop.ini] cannot be rewritten: it is there and [attrib] cannot be
    started to clear its attributes, or the folder is no directory, or
    [desktop.ini] is itself a directory. *)
Definition blocked (w : world) (folder_path : path) : bool :=
  bool_decide (is_Some (w_fs w !! (folder_path // "desktop.ini"))) && negb (w_attrib w)
  || negb (kind_is_dir (lookup_kind w folder_path))
  || kind_is_dir (lookup_kind w (folder_path // "desktop.ini")).

Lemma clear_attrs (a : attrs) : any_attr (fold_left apply_flag ["-s"; "-h"; "-r"] a) = false.
Proof. by destruct a as [[] [] []]. Qed.

Lemma Gui_set_folder_icon_eq (folder_path ico_path : path) :
  Gui.set_folder_icon folder_path ico_path = Cli.set_folder_icon folder_path ico_path false.
Proof. reflexivity. Qed.

(** [set_folder_icon] always returns, with [True] or a message; it
    succeeds exactly when [desktop.ini] can be rewritten and [attrib] runs,
    and [desktop.ini] then holds the descriptor. *)
Lemma set_folder_icon_run (folder_path ico_path : path) (use_absolute_path : bool) (w : world) :
  ∃ r w', Cli.set_folder_icon folder_path ico_path use_absolute_path w = (Ret r, w')
    ∧ r ≠ PyNone
    ∧ is_True r = negb (blocked w folder_path) && w_attrib w
    ∧ lookup_kind w' (folder_path // "desktop.ini")
      = if blocked w folder_path then lookup_kind w (folder_path // "desktop.ini")
        else Some (File (Text (desktop_ini_content (icon_ref w ico_path use_absolute_path)))).
Proof.
  pose proof (joinpath_ne_self folder_path "desktop.ini") as Hne.
  pose proof (joinpath_ne_nil folder_path "desktop.ini") as Hnil.
  unfold blocked, desktop_ini_content, icon_ref.
  cbv beta iota zeta delta [Cli.set_folder_icon try_except bind path_exists when attrib
    write_text write_file get modify ret raise lookup_kind].
  rewrite parent_joinpath.
  destruct (w_fs w !! (folder_path // "desktop.ini")) as [[[|d] a]|] eqn:Ed;
  destruct (w_attrib w) eqn:Ea;
  destruct (w_fs w !! folder_path) as [[[|d'] a']|] eqn:Ef;
  destruct use_absolute_path;
  repeat (progress (simpl;
    rewrite ?lookup_alter_eq, ?lookup_insert_eq;
    rewrite ?lookup_alter_ne, ?lookup_insert_ne by done;
    rewrite ?Ea, ?Ed, ?Ef, ?clear_attrs;
    rewrite ?bool_decide_eq_true_2 by done));
  (eexists _, _; split; [reflexivity|]; simpl;
   rewrite ?lookup_alter_eq, ?lookup_insert_eq;
   rewrite ?lookup_alter_ne, ?lookup_insert_ne by done;
   rewrite ?lookup_alter_eq, ?lookup_insert_eq, ?Ed; done).
Qed.

(** ** Stepping through a computation *)

(** [wp m Q w]: run from [w], [m] ends in an outcome and a world that
    satisfy [Q]. *)
Definition wp {A} (m : M A) (Q : outcome A → world → Prop) (w : world) : Prop :=
  Q (m w).1 (m w).2.

Lemma wp_run {A} (m : M A) Q w o w' : m w = (o, w') → Q o w' → wp m Q w.
Proof. unfold wp. by intros ->. Qed.

Lemma wp_bind {A B} (m : M A) (k : A → M B) Q w :
  wp m (λ (o : outcome A) (w' : world),
          match o with
          | Ret a => wp (k a) Q w'
          | Raise e => Q (Raise e) w'
          end) w →
  wp (bind m k) Q w.
Proof. unfold wp, bind. by destruct (m w) as [[a|e] w']. Qed.

Lemma wp_try_except {A} (m : M A) (h : exn → M A) Q w :
  wp m (λ (o : outcome A) (w' : world),
          match o with
          | Ret a => Q (Ret a) w'
          | Raise e => wp (h e) Q w'
          end) w →
  wp (try_except m h) Q w.
Proof. unfold wp, try_except. by destruct (m w) as [[a|e] w']. Qed.

Lemma wp_ret {A} (a : A) Q w : Q (Ret a) w → wp (ret a) Q w.
Proof. done. Qed.

Lemma wp_get {A} (f : world → A) Q w : Q (Ret (f w)) w → wp (get f) Q w.
Proof. done. Qed.

Lemma wp_modify f Q w : Q (Ret tt) (f w) → wp (modify f) Q w.
Proof. done. Qed.

Lemma wp_raise {A} c msg Q w :
  Q (Raise {| e_class := c; e_str := msg |}) w → wp (@raise A c msg) Q w.
Proof. done. Qed.

Lemma wp_when (b : bool) (m : M unit) (Q : outcome unit → world → Prop) w :
  (if b then wp m Q w else Q (Ret tt) w) → wp (when b m) Q w.
Proof. by destruct b. Qed.

Lemma wp_mono {A} (m : M A) (Q Q' : outcome A → world → Prop) w :
  wp m Q w → (∀ o w', Q o w' → Q' o w') → wp m Q' w.
Proof. unfold wp. auto. Qed.

(** Whatever [m] does. *)
Lemma wp_any {A} (m : M A) (Q : outcome A → world → Prop) w :
  (∀ o w', Q o w') → wp m Q w.
Proof. unfold wp. auto. Qed.

(** Whatever [m] does within what [P] allows. *)
Lemma wp_preserves {A} (P : world → world → Prop) (m : M A) Q w :
  preserves P m → (∀ o w', P w w' → Q o w') → wp m Q w.
Proof. unfold wp, preserves. auto. Qed.

Ltac wp_step :=
  lazymatch goal with
  | |- wp (bind _ _) _ _ => apply wp_bind
  | |- wp (try_except _ _) _ _ => apply wp_try_except
  | |- wp (ret _) _ _ => apply wp_ret
  | |- wp (get _) _ _ => apply wp_get
  | |- wp (path_exists _) _ _ => apply wp_get
  | |- wp (is_dir _) _ _ => apply wp_get
  | |- wp (modify _) _ _ => apply wp_modify
  | |- wp (print _) _ _ => apply wp_modify
  | |- wp (eprint _) _ _ => apply wp_modify
  | |- wp (raise _ _) _ _ => apply wp_raise
  | |- wp (when _ _) _ _ => apply wp_when
  end; cbn beta iota.

Ltac wp_steps := repeat wp_step.

(** *** The file system calls *)

(** [p] can be written: its parent is a directory and [p] is missing or a
    plain file without attributes. *)
Definition writable (w : world) (p : path) : bool :=
  bool_decide (p ≠ []) && kind_is_dir (lookup_kind w (parent p))
  && match w_fs w !! p with
     | None => true
     | Some {| n_kind := File _; n_attrs := a |} => negb (any_attr a)
     | Some {| n_kind := Dir |} => false
     end.

Definition put (p : path) (d : data) : world → world :=
  set_fs <[p := {| n_kind := File d; n_attrs := no_attrs |}]>.

Lemma any_attr_false (a : attrs) : any_attr a = false → a = no_attrs.
Proof. destruct a as [[] [] []]; simpl; by try discriminate. Qed.

Lemma write_file_ok (p : path) (d : data) (w : world) :
  writable w p = true → write_file p d w = (Ret tt, put p d w).
Proof.
  unfold writable, write_file, put.
  intros [Hp Hn]%andb_prop. rewrite Hp. simpl.
  destruct (w_fs w !! p) as [[[|d0] a]|]; try done.
  apply negb_true_iff in Hn. rewrite Hn.
  by rewrite (any_attr_false a Hn).
Qed.

Lemma write_file_refused (p : path) (d : data) (w : world) :
  writable w p = false → ∃ e, write_file p d w = (Raise e, w).
Proof.
  unfold writable, write_file, raise.
  destruct (bool_decide (p ≠ []) && kind_is_dir (lookup_kind w (parent p))); simpl;
    [|by eexists].
  destruct (w_fs w !! p) as [[[|d0] a]|]; try done; try by eexists.
  intros Hn. apply negb_false_iff in Hn. rewrite Hn. by eexists.
Qed.

Lemma Image_open_ok (p : path) (img : image) (w : world) :
  w_pillow w = true → image_at w p = Some img →
  Image_open p w = (Ret img, log_call (Image_open_call p) w).
Proof.
  unfold image_at. intros Hp Hi.
  cbv beta iota zeta delta [Image_open bind get modify ret raise].
  rewrite Hp. cbn [negb w_fs log_call].
  destruct (w_fs w !! p) as [[[|[]] a]|]; by simplify_eq.
Qed.

Lemma Image_open_fails (p : path) (w : world) :
  w_pillow w = true → image_at w p = None →
  ∃ e, Image_open p w = (Raise e, log_call (Image_open_call p) w).
Proof.
  unfold image_at. intros Hp Hi.
  cbv beta iota zeta delta [Image_open bind get modify ret raise].
  rewrite Hp. cbn [negb w_fs log_call].
  destruct (w_fs w !! p) as [[[|[]] a]|]; simplify_eq; by eexists.
Qed.

Lemma Image_save_ok (img : image) (p : path) fmt sizes (w : world) :
  writable w p = true →
  Image_save img p fmt sizes w
  = (Ret tt, put p (Picture fmt (encode img sizes)) (log_call (Image_save_call p fmt sizes) w)).
Proof.
  intros Hw. cbv beta iota zeta delta [Image_save bind modify].
  by rewrite write_file_ok.
Qed.

Lemma Image_save_refused (img : image) (p : path) fmt sizes (w : world) :
  writable w p = false →
  ∃ e, Image_save img p fmt sizes w = (Raise e, log_call (Image_save_call p fmt sizes) w).
Proof.
  intros Hw. cbv beta iota zeta delta [Image_save bind modify].
  destruct (write_file_refused p (Picture fmt (encode img sizes))
              (log_call (Image_save_call p fmt sizes) w) Hw) as [e ->].
  by eexists.
Qed.


(** ** [process_single_folder], branch by branch *)

Lemma Cli_process_single_folder_effect folder abs v :
  preserves (effect (λ q, q = folder // "desktop.ini" ∨ q = folder // "folder.ico")
                    (λ q, q = folder) (λ _, True))
    (Cli.process_single_folder folder abs v).
Proof.
  unfold Cli.process_single_folder, Cli.get_ico_sizes, Cli.set_folder_icon.
  effect_tac; simpl; auto.
Qed.

Lemma Gui_process_single_folder_effect folder :
  preserves (effect (λ q, q = folder // "desktop.ini" ∨ q = folder // "folder.ico")
                    (λ q, q = folder) (λ _, True))
    (Gui.process_single_folder folder).
Proof.
  unfold Gui.process_single_folder, Gui.set_folder_icon.
  effect_tac; simpl; auto.
Qed.

(** [print(s)] under [if verbose]. *)
Definition say (verbose : bool) (s : string) (w : world) : world :=
  if verbose then log_stdout s w else w.

(** What [process_single_folder] makes of the result of [set_folder_icon]. *)
Definition lift_with_ico (ico : path) (x : outcome pyval * world)
    : outcome (pyval * option path) * world :=
  match x with
  | (Ret r, w') => (Ret (Cli.with_ico r ico), w')
  | (Raise e, w') => (Raise e, w')
  end.

Lemma seen_widths_log_stdout s w p :
  seen_widths (log_stdout s w) p = seen_widths w p.
Proof. reflexivity. Qed.

(** Some required width is missing from the file of the icon. *)
Definition incomplete (w : world) (ico : path) : Prop :=
  ¬ Cli.REQUIRED_FOLDER_ICO_SIZES ⊆ embedded_widths w ico.

Lemma largest_in (best : Z * Z) (l : list (Z * Z)) : largest best l ∈ best :: l.
Proof.
  revert best. induction l as [|s l IH]; intros best; simpl; [set_solver|].
  specialize (IH (if (area best <? area s)%Z then s else best)).
  destruct (area best <? area s)%Z; set_solver.
Qed.

(** The opened image shows frames of the file, not others. *)
Lemma seen_widths_embedded (w : world) (p : path) : seen_widths w p ⊆ embedded_widths w p.
Proof.
  unfold seen_widths, image_at, embedded_widths, shown.
  destruct (w_fs w !! p) as [[[|[]] a]|]; try done.
  destruct (String.eqb fmt "ICO"); [|done].
  unfold frame_widths, frame_sizes. cbn [im_size im_more default].
  pose proof (largest_in (im_size im) (default [] (im_more im))) as Hin.
  intros x Hx. apply elem_of_list_to_set in Hx. apply elem_of_list_to_set.
  apply list_elem_of_fmap in Hx as (s & -> & Hs). apply list_elem_of_fmap.
  exists s. split; [done|]. apply list_elem_of_singleton in Hs. by subst s.
Qed.

(** Of an icon file [get_ico_sizes] finds one width. *)
Lemma seen_widths_ico (w : world) (p : path) (im : image) :
  lookup_kind w p = Some (File (Picture "ICO" im)) →
  seen_widths w p = {[ (largest (im_size im) (default [] (im_more im))).1 ]}.
Proof.
  unfold lookup_kind, seen_widths, image_at. intros H.
  destruct (w_fs w !! p) as [[k a]|]; simplify_eq/=.
  unfold frame_widths, frame_sizes. simpl. set_solver.
Qed.

(** So an icon file never shows the four required widths. *)
Lemma ico_not_seen_complete (w : world) (p : path) (im : image) :
  lookup_kind w p = Some (File (Picture "ICO" im)) →
  ¬ Cli.REQUIRED_FOLDER_ICO_SIZES ⊆ seen_widths w p.
Proof.
  intros H Hsub. rewrite (seen_widths_ico w p im H) in Hsub.
  assert (H16 : (16 : Z) ∈ Cli.REQUIRED_FOLDER_ICO_SIZES)
    by (unfold Cli.REQUIRED_FOLDER_ICO_SIZES; set_solver).
  assert (H32 : (32 : Z) ∈ Cli.REQUIRED_FOLDER_ICO_SIZES)
    by (unfold Cli.REQUIRED_FOLDER_ICO_SIZES; set_solver).
  apply Hsub, elem_of_singleton in H16. apply Hsub, elem_of_singleton in H32. lia.
Qed.

(** What misses in the file misses in what [get_ico_sizes] finds. *)
Lemma incomplete_seen (w : world) (ico : path) :
  incomplete w ico → ¬ Cli.REQUIRED_FOLDER_ICO_SIZES ⊆ seen_widths w ico.
Proof.
  intros Hc Hs. apply Hc. etransitivity; [exact Hs | apply seen_widths_embedded].
Qed.

Section CliBranches.

Context (folder : path) (abs v : bool) (w : world).

Local Abbreviation ico := (folder // "folder.ico").
Local Abbreviation png := (folder // "folder.png").

(** Without Pillow nothing is looked at. *)
Lemma Cli_psf_no_pillow :
  w_pillow w = false →
  Cli.process_single_folder folder abs v w
  = (Ret (PyStr "Pillow is not installed. Please run: pip install Pillow", None), w).
Proof.
  intros Hp.
  cbv beta iota zeta delta [Cli.process_single_folder bind get ret].
  by rewrite Hp.
Qed.

(** Neither source. *)
Lemma Cli_psf_no_source :
  w_pillow w = true → w_fs w !! ico = None → w_fs w !! png = None →
  Cli.process_single_folder folder abs v w
  = (Ret (PyStr "No folder.ico or folder.png found", None), w).
Proof.
  intros Hp Hi Hg.
  cbv beta iota zeta delta [Cli.process_single_folder bind get ret path_exists].
  rewrite Hp. cbn [negb]. rewrite Hi.
  rewrite (bool_decide_eq_false_2 (is_Some None)) by (by intros [? ?]).
  cbn beta iota. rewrite Hg.
  by rewrite (bool_decide_eq_false_2 (is_Some None)) by (by intros [? ?]).
Qed.

(** The icon is kept: the required widths are found, or there is no PNG. *)
Lemma Cli_psf_keep :
  w_pillow w = true → is_Some (w_fs w !! ico) →
  Cli.REQUIRED_FOLDER_ICO_SIZES ⊆ seen_widths w ico ∨ w_fs w !! png = None →
  Cli.process_single_folder folder abs v w
  = lift_with_ico ico
      (Cli.set_folder_icon folder ico abs
         (log_call (Image_open_call ico) (say v "  Found existing folder.ico" w))).
Proof.
  intros Hp Hi Hc. unfold lift_with_ico, say.
  cbv beta iota zeta delta [Cli.process_single_folder bind get ret when print modify path_exists].
  rewrite Hp. cbn [negb]. rewrite (bool_decide_eq_true_2 _ Hi).
  assert (Hregen :
    bool_decide (Cli.REQUIRED_FOLDER_ICO_SIZES ∖ seen_widths w ico ≠ ∅)
    && bool_decide (is_Some (w_fs w !! png)) = false).
  { destruct Hc as [Hc|Hc].
    - rewrite bool_decide_eq_false_2; [done|]. intros H. apply H. set_solver.
    - rewrite Hc, (bool_decide_eq_false_2 (is_Some None)) by (by intros [? ?]).
      apply andb_false_r. }
  destruct v; rewrite get_ico_sizes_run; cbn [w_pillow log_stdout]; rewrite Hp;
    rewrite ?seen_widths_log_stdout;
    destruct (bool_decide (_ ≠ ∅)); cbn [w_fs log_call log_stdout andb] in *;
    rewrite ?Hregen; reflexivity.
Qed.

(** The world after the PNG was saved as the icon. *)
Definition regenerated (img : image) (w0 : world) : world :=
  put ico (Picture "ICO" (encode img (Some Cli.FOLDER_ICO_SIZES)))
    (log_call (Image_save_call ico "ICO" (Some Cli.FOLDER_ICO_SIZES))
       (log_call (Image_open_call png) w0)).

(** The world once the icon was opened and a required width was not
    found. *)
Definition inspected : world :=
  say v "  Regenerating from folder.png..."
    (say v ("  ICO missing required sizes: "
            +:+ Cli.repr_sorted (Cli.REQUIRED_FOLDER_ICO_SIZES ∖ seen_widths w ico))
       (log_call (Image_open_call ico) (say v "  Found existing folder.ico" w))).

(** An icon in which a required width is not found is regenerated from
    the PNG. *)
Lemma Cli_psf_regenerate_run (img : image) :
  w_pillow w = true → is_Some (w_fs w !! ico) →
  ¬ Cli.REQUIRED_FOLDER_ICO_SIZES ⊆ seen_widths w ico →
  image_at w png = Some img → writable w ico = true →
  Cli.process_single_folder folder abs v w
  = lift_with_ico ico
      (Cli.set_folder_icon folder ico abs
         (say v "  Regenerated folder.ico with all sizes" (regenerated img inspected))).
Proof.
  intros Hp Hi Hc Hg Hw. unfold lift_with_ico, regenerated, inspected.
  cbv beta iota zeta delta [Cli.process_single_folder bind get ret when print modify
    path_exists try_except].
  rewrite Hp. cbn [negb]. rewrite (bool_decide_eq_true_2 _ Hi).
  assert (Hm : bool_decide (Cli.REQUIRED_FOLDER_ICO_SIZES ∖ seen_widths w ico ≠ ∅) = true).
  { apply bool_decide_eq_true_2. intros H. apply Hc. intros x Hx.
    destruct (decide (x ∈ seen_widths w ico)) as [|Hn]; [done|].
    assert (x ∈ Cli.REQUIRED_FOLDER_ICO_SIZES ∖ seen_widths w ico) as Hd
      by (apply elem_of_difference; done).
    rewrite H in Hd. by apply not_elem_of_empty in Hd. }
  assert (Hgx : bool_decide (is_Some (w_fs w !! png)) = true).
  { apply bool_decide_eq_true_2. unfold image_at in Hg.
    destruct (w_fs w !! png); [by eexists | done]. }
  destruct v; rewrite get_ico_sizes_run; cbn [w_pillow log_stdout]; rewrite Hp;
    rewrite ?seen_widths_log_stdout, Hm; cbn [w_fs log_call log_stdout]; rewrite Hgx;
    unfold say; cbn beta iota.
  - erewrite Image_open_ok; [|done|done].
    erewrite Image_save_ok; [|done]. done.
  - erewrite Image_open_ok; [|done|done].
    erewrite Image_save_ok; [|done]. done.
Qed.

Lemma Cli_psf_regenerate (img : image) :
  w_pillow w = true → is_Some (w_fs w !! ico) →
  ¬ Cli.REQUIRED_FOLDER_ICO_SIZES ⊆ seen_widths w ico →
  image_at w png = Some img → writable w ico = true →
  ∃ w0, w_fs w0 = w_fs w ∧ w_attrib w0 = w_attrib w ∧ w_resolve w0 = w_resolve w ∧
    Cli.process_single_folder folder abs v w
    = lift_with_ico ico
        (Cli.set_folder_icon folder ico abs
           (say v "  Regenerated folder.ico with all sizes" (regenerated img w0))).
Proof.
  intros Hp Hi Hc Hg Hw. exists inspected. unfold inspected.
  split; [destruct v; reflexivity|]. split; [destruct v; reflexivity|].
  split; [destruct v; reflexivity|].
  by apply Cli_psf_regenerate_run.
Qed.

(** The regeneration fails: the PNG does not open or the icon cannot be
    overwritten.  No file is touched. *)
Lemma Cli_psf_regenerate_fails :
  w_pillow w = true → is_Some (w_fs w !! ico) → ¬ Cli.REQUIRED_FOLDER_ICO_SIZES ⊆ seen_widths w ico →
  is_Some (w_fs w !! png) →
  image_at w png = None ∨ writable w ico = false →
  ∃ e w', w_fs w' = w_fs w ∧
    Cli.process_single_folder folder abs v w
    = (Ret (PyStr ("Failed to regenerate ICO: " +:+ e_str e), None), w').
Proof.
  intros Hp Hi Hc Hgx Hf.
  cbv beta iota zeta delta [Cli.process_single_folder bind get ret when print modify
    path_exists try_except].
  rewrite Hp. cbn [negb]. rewrite (bool_decide_eq_true_2 _ Hi).
  assert (Hm : bool_decide (Cli.REQUIRED_FOLDER_ICO_SIZES ∖ seen_widths w ico ≠ ∅) = true).
  { apply bool_decide_eq_true_2. intros H. apply Hc. intros x Hx.
    destruct (decide (x ∈ seen_widths w ico)) as [|Hn]; [done|].
    assert (x ∈ Cli.REQUIRED_FOLDER_ICO_SIZES ∖ seen_widths w ico) as Hd
      by (apply elem_of_difference; done).
    rewrite H in Hd. by apply not_elem_of_empty in Hd. }
  destruct (image_at w png) as [img|] eqn:Hg.
  - destruct Hf as [|Hw]; [done|].
    destruct v; rewrite get_ico_sizes_run; cbn [w_pillow log_stdout]; rewrite Hp;
      rewrite ?seen_widths_log_stdout, Hm; cbn [w_fs log_call log_stdout];
      rewrite (bool_decide_eq_true_2 _ Hgx); cbn beta iota;
      (erewrite Image_open_ok; [|done|done]);
      match goal with
      | |- context [Image_save ?i ?p ?f ?s ?w0] =>
          destruct (Image_save_refused i p f s w0 Hw) as [e ->]
      end; eexists _, _; (split; [|reflexivity]); reflexivity.
  - destruct v; rewrite get_ico_sizes_run; cbn [w_pillow log_stdout]; rewrite Hp;
      rewrite ?seen_widths_log_stdout, Hm; cbn [w_fs log_call log_stdout];
      rewrite (bool_decide_eq_true_2 _ Hgx); cbn beta iota;
      match goal with
      | |- context [Image_open ?p ?w0] =>
          destruct (Image_open_fails p w0 Hp Hg) as [e ->]
      end; eexists _, _; (split; [|reflexivity]); reflexivity.
Qed.

(** No icon yet: the PNG is converted. *)
Lemma Cli_psf_convert (img : image) :
  w_pillow w = true → w_fs w !! ico = None →
  image_at w png = Some img → writable w ico = true →
  Cli.process_single_folder folder abs v w
  = lift_with_ico ico
      (Cli.set_folder_icon folder ico abs
         (say v "  Created folder.ico"
            (regenerated img (say v "  Found folder.png, converting to ICO..." w)))).
Proof.
  intros Hp Hi Hg Hw. unfold lift_with_ico, regenerated.
  assert (Hgx : bool_decide (is_Some (w_fs w !! png)) = true).
  { apply bool_decide_eq_true_2. unfold image_at in Hg.
    destruct (w_fs w !! png); [by eexists | done]. }
  cbv beta iota zeta delta [Cli.process_single_folder bind get ret when print modify
    path_exists try_except].
  rewrite Hp. cbn [negb]. rewrite Hi.
  rewrite (bool_decide_eq_false_2 (is_Some None)) by (by intros [? ?]).
  cbn beta iota. rewrite Hgx.
  destruct v; unfold say; cbn beta iota;
    (erewrite Image_open_ok; [|done|done]);
    (erewrite Image_save_ok; [|done]);
    match goal with
    | |- context [Cli.set_folder_icon ?f ?i ?a ?w0] =>
        destruct (set_folder_icon_run f i a w0) as (r & w' & -> & _)
    end; done.
Qed.

(** The conversion fails.  No file is touched. *)
Lemma Cli_psf_convert_fails :
  w_pillow w = true → w_fs w !! ico = None → is_Some (w_fs w !! png) →
  image_at w png = None ∨ writable w ico = false →
  ∃ e w', w_fs w' = w_fs w ∧
    Cli.process_single_folder folder abs v w
    = (Ret (PyStr ("Failed to convert PNG: " +:+ e_str e), None), w').
Proof.
  intros Hp Hi Hgx Hf.
  cbv beta iota zeta delta [Cli.process_single_folder bind get ret when print modify
    path_exists try_except].
  rewrite Hp. cbn [negb]. rewrite Hi.
  rewrite (bool_decide_eq_false_2 (is_Some None)) by (by intros [? ?]).
  cbn beta iota. rewrite (bool_decide_eq_true_2 _ Hgx).
  destruct (image_at w png) as [img|] eqn:Hg.
  - destruct Hf as [|Hw]; [done|].
    destruct v; cbn beta iota;
      (erewrite Image_open_ok; [|done|done]);
      match goal with
      | |- context [Image_save ?i ?p ?f ?s ?w0] =>
          destruct (Image_save_refused i p f s w0 Hw) as [e ->]
      end; eexists _, _; (split; [|reflexivity]); reflexivity.
  - destruct v; cbn beta iota;
      match goal with
      | |- context [Image_open ?p ?w0] =>
          destruct (Image_open_fails p w0 Hp Hg) as [e ->]
      end; eexists _, _; (split; [|reflexivity]); reflexivity.
Qed.

(** [process_single_folder] never raises and never returns [None] as its
    result. *)
Lemma Cli_psf_returns :
  ∃ r o w', Cli.process_single_folder folder abs v w = (Ret (r, o), w') ∧ r ≠ PyNone.
Proof.
  assert (Hlift : ∀ w0, ∃ r o w',
    lift_with_ico ico (Cli.set_folder_icon folder ico abs w0) = (Ret (r, o), w') ∧ r ≠ PyNone).
  { intros w0. destruct (set_folder_icon_run folder ico abs w0) as (r & w' & -> & Hr & _).
    unfold lift_with_ico, Cli.with_ico. destruct (is_True r); by eexists _, _, _. }
  destruct (w_pillow w) eqn:Hp.
  2: { rewrite Cli_psf_no_pillow by done. by eexists _, _, _. }
  destruct (w_fs w !! ico) as [n|] eqn:Hi.
  - assert (HiS : is_Some (w_fs w !! ico)) by (by rewrite Hi).
    destruct (decide (Cli.REQUIRED_FOLDER_ICO_SIZES ⊆ seen_widths w ico)) as [Hc|Hc].
    { rewrite Cli_psf_keep; [apply Hlift | done | done | by left]. }
    destruct (w_fs w !! png) as [g|] eqn:Hg.
    2: { rewrite Cli_psf_keep; [apply Hlift | done | done | by right]. }
    assert (HgS : is_Some (w_fs w !! png)) by (by rewrite Hg).
    destruct (image_at w png) as [img|] eqn:Him; [destruct (writable w ico) eqn:Hw|].
    + destruct (Cli_psf_regenerate img Hp HiS Hc Him Hw) as (w0 & _ & _ & _ & ->).
      apply Hlift.
    + destruct (Cli_psf_regenerate_fails Hp HiS Hc HgS) as (e & w' & _ & ->);
        [by right | by eexists _, _, _].
    + destruct (Cli_psf_regenerate_fails Hp HiS Hc HgS) as (e & w' & _ & ->);
        [by left | by eexists _, _, _].
  - destruct (w_fs w !! png) as [g|] eqn:Hg.
    2: { rewrite Cli_psf_no_source by done. by eexists _, _, _. }
    assert (HgS : is_Some (w_fs w !! png)) by (by rewrite Hg).
    destruct (image_at w png) as [img|] eqn:Him; [destruct (writable w ico) eqn:Hw|].
    + rewrite (Cli_psf_convert img) by done. apply Hlift.
    + destruct (Cli_psf_convert_fails Hp Hi HgS) as (e & w' & _ & ->);
        [by right | by eexists _, _, _].
    + destruct (Cli_psf_convert_fails Hp Hi HgS) as (e & w' & _ & ->);
        [by left | by eexists _, _, _].
Qed.

End CliBranches.

Lemma Image_open_no_pillow (p : path) (w : world) :
  w_pillow w = false → ∃ e, Image_open p w = (Raise e, w).
Proof.
  intros Hp. cbv beta iota zeta delta [Image_open bind get raise].
  rewrite Hp. by eexists.
Qed.

Section GuiBranches.

Context (folder : path) (w : world).

Local Abbreviation ico := (folder // "folder.ico").
Local Abbreviation png := (folder // "folder.png").

(** An icon that is there is used as it is. *)
Lemma Gui_psf_keep :
  is_Some (w_fs w !! ico) →
  Gui.process_single_folder folder w
  = lift_with_ico ico (Cli.set_folder_icon folder ico false w).
Proof.
  intros Hi. unfold lift_with_ico.
  cbv beta iota zeta delta [Gui.process_single_folder bind get ret path_exists].
  rewrite (bool_decide_eq_true_2 _ Hi). reflexivity.
Qed.

Lemma Gui_psf_no_source :
  w_fs w !! ico = None → w_fs w !! png = None →
  Gui.process_single_folder folder w
  = (Ret (PyStr "No folder.ico or folder.png found", None), w).
Proof.
  intros Hi Hg.
  cbv beta iota zeta delta [Gui.process_single_folder bind get ret path_exists].
  rewrite Hi.
  rewrite (bool_decide_eq_false_2 (is_Some None)) by (by intros [? ?]).
  cbn beta iota. rewrite Hg.
  by rewrite (bool_decide_eq_false_2 (is_Some None)) by (by intros [? ?]).
Qed.

Lemma Gui_psf_convert (img : image) :
  w_pillow w = true → w_fs w !! ico = None →
  image_at w png = Some img → writable w ico = true →
  Gui.process_single_folder folder w
  = lift_with_ico ico (Cli.set_folder_icon folder ico false (regenerated folder img w)).
Proof.
  intros Hp Hi Hg Hw. unfold lift_with_ico, regenerated.
  assert (Hgx : bool_decide (is_Some (w_fs w !! png)) = true).
  { apply bool_decide_eq_true_2. unfold image_at in Hg.
    destruct (w_fs w !! png); [by eexists | done]. }
  cbv beta iota zeta delta [Gui.process_single_folder bind get ret path_exists try_except].
  rewrite Hi.
  rewrite (bool_decide_eq_false_2 (is_Some None)) by (by intros [? ?]).
  cbn beta iota. rewrite Hgx.
  erewrite Image_open_ok; [|done|done].
  erewrite Image_save_ok; [|done].
  rewrite Gui_set_folder_icon_eq. unfold Cli.FOLDER_ICO_SIZES.
  match goal with
  | |- context [Cli.set_folder_icon ?f ?i ?a ?w0] =>
      destruct (set_folder_icon_run f i a w0) as (r & w' & -> & _)
  end. done.
Qed.

Lemma Gui_psf_convert_fails :
  w_fs w !! ico = None → is_Some (w_fs w !! png) →
  w_pillow w = false ∨ image_at w png = None ∨ writable w ico = false →
  ∃ e w', w_fs w' = w_fs w ∧
    Gui.process_single_folder folder w
    = (Ret (PyStr ("Failed to convert PNG: " +:+ e_str e), None), w').
Proof.
  intros Hi Hgx Hf.
  cbv beta iota zeta delta [Gui.process_single_folder bind get ret path_exists try_except].
  rewrite Hi.
  rewrite (bool_decide_eq_false_2 (is_Some None)) by (by intros [? ?]).
  cbn beta iota. rewrite (bool_decide_eq_true_2 _ Hgx).
  destruct (w_pillow w) eqn:Hp.
  2: { destruct (Image_open_no_pillow png w Hp) as [e ->]. by eexists _, _. }
  destruct (image_at w png) as [img|] eqn:Hg.
  - destruct Hf as [|[|Hw]]; [done|done|].
    erewrite Image_open_ok; [|done|done].
    match goal with
    | |- context [Image_save ?i ?p ?f ?s ?w0] =>
        destruct (Image_save_refused i p f s w0 Hw) as [e ->]
    end. eexists _, _; (split; [|reflexivity]); reflexivity.
  - destruct (Image_open_fails png w Hp Hg) as [e ->].
    eexists _, _; (split; [|reflexivity]); reflexivity.
Qed.

Lemma Gui_psf_returns :
  ∃ r o w', Gui.process_single_folder folder w = (Ret (r, o), w') ∧ r ≠ PyNone.
Proof.
  assert (Hlift : ∀ w0, ∃ r o w',
    lift_with_ico ico (Cli.set_folder_icon folder ico false w0) = (Ret (r, o), w') ∧ r ≠ PyNone).
  { intros w0. destruct (set_folder_icon_run folder ico false w0) as (r & w' & -> & Hr & _).
    unfold lift_with_ico, Cli.with_ico. destruct (is_True r); by eexists _, _, _. }
  destruct (w_fs w !! ico) as [n|] eqn:Hi.
  { rewrite Gui_psf_keep by (by rewrite Hi). apply Hlift. }
  destruct (w_fs w !! png) as [g|] eqn:Hg.
  2: { rewrite Gui_psf_no_source by done. by eexists _, _, _. }
  assert (HgS : is_Some (w_fs w !! png)) by (by rewrite Hg).
  destruct (w_pillow w) eqn:Hp;
    [destruct (image_at w png) as [img|] eqn:Him; [destruct (writable w ico) eqn:Hw|]|].
  - rewrite (Gui_psf_convert img) by done. apply Hlift.
  - destruct (Gui_psf_convert_fails Hi HgS) as (e & w' & _ & ->); [auto | by eexists _, _, _].
  - destruct (Gui_psf_convert_fails Hi HgS) as (e & w' & _ & ->); [auto | by eexists _, _, _].
  - destruct (Gui_psf_convert_fails Hi HgS) as (e & w' & _ & ->); [auto | by eexists _, _, _].
Qed.

End GuiBranches.


Lemma lift_with_ico_world ico x : (lift_with_ico ico x).2 = x.2.
Proof. by destruct x as [[r|e] w']. Qed.

Lemma desktop_ini_ne_ico (folder : path) : folder // "folder.ico" ≠ folder // "desktop.ini".
Proof. by apply joinpath_ne. Qed.

Lemma required_not_in_empty : ¬ Cli.REQUIRED_FOLDER_ICO_SIZES ⊆ (∅ : gset Z).
Proof.
  intros H. assert (16 ∈ (∅ : gset Z)) as Hin by (apply H; set_solver).
  by apply not_elem_of_empty in Hin.
Qed.

Lemma embedded_widths_same w w' p :
  w_fs w' !! p = w_fs w !! p → embedded_widths w' p = embedded_widths w p.
Proof. unfold embedded_widths. by intros ->. Qed.

(** The full generation size set. *)
Definition FULL_WIDTHS : gset Z := {[16; 32; 48; 64; 128; 256]}.

Lemma embedded_widths_regenerated folder img w0 w' :
  w_fs w' !! (folder // "folder.ico") = w_fs (regenerated folder img w0) !! (folder // "folder.ico") →
  embedded_widths w' (folder // "folder.ico") = FULL_WIDTHS.
Proof.
  intros H. unfold embedded_widths. rewrite H.
  unfold regenerated, put. cbn [w_fs set_fs]. rewrite lookup_insert_eq.
  unfold FULL_WIDTHS, frame_widths, frame_sizes. simpl. set_solver.
Qed.

Definition only_attrib (w w' : world) : Prop :=
  ∃ new, w_calls w' = (w_calls w ++ new)%list ∧ Forall is_attrib_call new.

(** After [set_folder_icon] the icon is as before, and so is every file
    but [desktop.ini]; the calls are calls of [attrib]. *)
Lemma set_folder_icon_frame folder abs (w0 : world) :
  let w' := (Cli.set_folder_icon folder (folder // "folder.ico") abs w0).2 in
  w_fs w' !! (folder // "folder.ico") = w_fs w0 !! (folder // "folder.ico")
  ∧ only_attrib w0 w'
  ∧ (∀ q, q ≠ folder // "desktop.ini" → lookup_kind w' q = lookup_kind w0 q)
  ∧ w_pillow w' = w_pillow w0 ∧ w_attrib w' = w_attrib w0 ∧ w_resolve w' = w_resolve w0
  ∧ (∀ q, kind_is_dir (lookup_kind w' q) = kind_is_dir (lookup_kind w0 q)).
Proof.
  intros w'.
  destruct (set_folder_icon_effect folder (folder // "folder.ico") abs w0)
    as [K N D X P L A R G C].
  fold w' in K, N, D, X, P, L, A, R, G, C.
  repeat split; try done.
  - apply N; [apply desktop_ini_ne_ico | apply joinpath_ne_self].
Qed.

Lemma image_at_kind (w w' : world) (p : path) :
  lookup_kind w' p = lookup_kind w p → image_at w' p = image_at w p.
Proof.
  unfold lookup_kind, image_at.
  destruct (w_fs w' !! p) as [[k' a']|], (w_fs w !! p) as [[k a]|]; intros; by simplify_eq/=.
Qed.

(** [desktop.ini] can be rewritten: [attrib] starts, the folder is a
    directory and [desktop.ini] is none. *)
Lemma not_blocked (w : world) (folder : path) :
  w_attrib w = true → kind_is_dir (lookup_kind w folder) = true →
  kind_is_dir (lookup_kind w (folder // "desktop.ini")) = false →
  blocked w folder = false.
Proof. unfold blocked. intros -> -> ->. by rewrite andb_false_r. Qed.

(** The run that regenerates the icon, in full: the icon is opened, the
    PNG is opened and saved over the icon with the generation sizes, and
    [set_folder_icon] does the rest. *)
Lemma Cli_psf_regenerated (folder : path) (abs v : bool) (w : world) (img : image) :
  w_pillow w = true → is_Some (w_fs w !! (folder // "folder.ico")) →
  ¬ Cli.REQUIRED_FOLDER_ICO_SIZES ⊆ seen_widths w (folder // "folder.ico") →
  image_at w (folder // "folder.png") = Some img →
  writable w (folder // "folder.ico") = true →
  ∃ r w',
    Cli.process_single_folder folder abs v w
    = (Ret (Cli.with_ico r (folder // "folder.ico")), w')
    ∧ is_True r = negb (blocked w folder) && w_attrib w
    ∧ lookup_kind w' (folder // "desktop.ini")
      = (if blocked w folder then lookup_kind w (folder // "desktop.ini")
         else Some (File (Text (desktop_ini_content
                                  (icon_ref w (folder // "folder.ico") abs)))))
    ∧ w_fs w' !! (folder // "folder.ico")
      = Some {| n_kind := File (Picture "ICO" (encode img (Some Cli.FOLDER_ICO_SIZES)));
                n_attrs := no_attrs |}
    ∧ (∃ post,
         w_calls w'
         = (w_calls w
            ++ [Image_open_call (folder // "folder.ico");
                Image_open_call (folder // "folder.png");
                Image_save_call (folder // "folder.ico") "ICO" (Some Cli.FOLDER_ICO_SIZES)]
            ++ post)%list
         ∧ Forall is_attrib_call post)
    ∧ (∀ q, q ≠ folder // "desktop.ini" → q ≠ folder // "folder.ico" →
            lookup_kind w' q = lookup_kind w q)
    ∧ w_pillow w' = w_pillow w ∧ w_attrib w' = w_attrib w ∧ w_resolve w' = w_resolve w
    ∧ (∀ q, q ≠ folder // "folder.ico" →
            kind_is_dir (lookup_kind w' q) = kind_is_dir (lookup_kind w q)).
Proof.
  intros Hp Hi Hc Hg Hw.
  rewrite (Cli_psf_regenerate_run folder abs v w img Hp Hi Hc Hg Hw).
  set (w0 := say v "  Regenerated folder.ico with all sizes"
               (regenerated folder img (inspected folder v w))).
  assert (F0 : w_fs w0 = <[folder // "folder.ico" :=
                 {| n_kind := File (Picture "ICO" (encode img (Some Cli.FOLDER_ICO_SIZES)));
                    n_attrs := no_attrs |}]> (w_fs w)) by (by destruct v).
  assert (A0 : w_attrib w0 = w_attrib w) by (by destruct v).
  assert (R0 : w_resolve w0 = w_resolve w) by (by destruct v).
  assert (P0 : w_pillow w0 = w_pillow w) by (by destruct v).
  assert (C0 : w_calls w0
               = (w_calls w
                  ++ [Image_open_call (folder // "folder.ico");
                      Image_open_call (folder // "folder.png");
                      Image_save_call (folder // "folder.ico") "ICO"
                        (Some Cli.FOLDER_ICO_SIZES)])%list).
  { destruct v; cbn; by rewrite <- !app_assoc. }
  assert (L0 : ∀ q, q ≠ folder // "folder.ico" → lookup_kind w0 q = lookup_kind w q).
  { intros q Hq. unfold lookup_kind. by rewrite F0, lookup_insert_ne. }
  assert (Hdi : folder // "desktop.ini" ≠ folder // "folder.ico").
  { intros H. symmetry in H. by apply desktop_ini_ne_ico in H. }
  assert (Hfo : folder ≠ folder // "folder.ico").
  { intros H. symmetry in H. by apply joinpath_ne_self in H. }
  assert (B0 : blocked w0 folder = blocked w folder).
  { unfold blocked. rewrite A0, !L0 by done.
    by rewrite F0, lookup_insert_ne by done. }
  destruct (set_folder_icon_run folder (folder // "folder.ico") abs w0)
    as (r & w' & Hr & _ & Ht & Hk).
  destruct (set_folder_icon_frame folder abs w0)
    as (I1 & (post & Hpost & Fpost) & K1 & P1 & A1 & R1 & D1).
  rewrite Hr in I1, Hpost, K1, P1, A1, R1, D1. simpl in I1, Hpost, K1, P1, A1, R1, D1.
  exists r, w'. rewrite Hr. split; [reflexivity|].
  split; [by rewrite Ht, B0, A0|].
  split.
  { rewrite Hk, B0. unfold icon_ref. rewrite R0.
    by rewrite (L0 _ Hdi). }
  split; [by rewrite I1, F0, lookup_insert_eq|].
  split; [exists post; split; [by rewrite Hpost, C0, <- app_assoc | done]|].
  split; [intros q Hq1 Hq2; by rewrite K1, L0|].
  split; [congruence|]. split; [congruence|]. split; [congruence|].
  intros q Hq. by rewrite D1, L0.
Qed.

(** ** Sample machines *)

Module Examples.

Definition plain (k : kind) : node := {| n_kind := k; n_attrs := no_attrs |}.

Definition png64 : image :=
  {| im_mode := "RGBA"; im_size := (64, 64); im_more := Some [] |}.

(** Four frames, of 16, 32, 48 and 256 pixels: the entries of a complete
    icon file (the library opens such a file as its entry of 256 pixels
    alone), or the pages of an image of several pages. *)
Definition icon_full : image :=
  {| im_mode := "RGBA"; im_size := (16, 16);
     im_more := Some [(32, 32); (48, 48); (256, 256)] |}.

(** The one entry of an icon file of 32 pixels. *)
Definition icon_32 : image :=
  {| im_mode := "RGBA"; im_size := (32, 32); im_more := Some [] |}.

Definition proj : path := ["C:\"; "proj"].

Definition window : gui :=
  {| bg_color := "#ffffff"; theme_color := "#ffffff"; manifest_bg_color := "#ffffff";
     selected_file := None; prefix_entry := ""; prefix_insert := 0;
     process_subfolders := true; last_html_snippet := "" |}.

(** A Windows machine with Pillow and [attrib], holding [files]. *)
Definition machine (files : list (path * node)) : world :=
  {| w_fs := list_to_map files; w_pillow := true; w_platform := "win32";
     w_attrib := true; w_resolve := λ p, p; w_calls := []; w_stdout := [];
     w_stderr := []; w_ui := []; w_gui := window |}.

Definition without_pillow (w : world) : world :=
  {| w_fs := w_fs w; w_pillow := false; w_platform := w_platform w;
     w_attrib := w_attrib w; w_resolve := w_resolve w; w_calls := w_calls w;
     w_stdout := w_stdout w; w_stderr := w_stderr w; w_ui := w_ui w;
     w_gui := w_gui w |}.

(** [C:\proj] with a [folder.ico] that embeds 16, 32, 48 and 256, and a
    [folder.png] of 64 pixels. *)
Definition complete_icon : world :=
  machine [(["C:\"], plain Dir); (proj, plain Dir);
           (proj // "folder.ico", plain (File (Picture "ICO" icon_full)));
           (proj // "folder.png", plain (File (Picture "PNG" png64)))].

(** [C:\proj] with a [folder.png] only. *)
Definition png_only : world :=
  machine [(["C:\"], plain Dir); (proj, plain Dir);
           (proj // "folder.png", plain (File (Picture "PNG" png64)))].

(** [C:\proj] with a [folder.png] that is no image. *)
Definition corrupt_png : world :=
  machine [(["C:\"], plain Dir); (proj, plain Dir);
           (proj // "folder.png", plain (File Junk))].

(** [C:\proj] with neither source. *)
Definition no_sources : world :=
  machine [(["C:\"], plain Dir); (proj, plain Dir)].

(** [C:\proj] with a [folder.ico] of the one size 32 and a [folder.png]. *)
Definition small_icon : world :=
  machine [(["C:\"], plain Dir); (proj, plain Dir);
           (proj // "folder.ico", plain (File (Picture "ICO" icon_32)));
           (proj // "folder.png", plain (File (Picture "PNG" png64)))].

(** [C:\proj] with a [folder.ico] that is no image and a [folder.png]. *)
Definition corrupt_icon : world :=
  machine [(["C:\"], plain Dir); (proj, plain Dir);
           (proj // "folder.ico", plain (File Junk));
           (proj // "folder.png", plain (File (Picture "PNG" png64)))].

(** [C:\proj] where neither [folder.ico] nor [folder.png] is an image. *)
Definition corrupt_both : world :=
  machine [(["C:\"], plain Dir); (proj, plain Dir);
           (proj // "folder.ico", plain (File Junk));
           (proj // "folder.png", plain (File Junk))].

(** [C:\proj] with a complete icon, and a subfolder [sub] without any. *)
Definition one_subfolder : world :=
  machine [(["C:\"], plain Dir); (proj, plain Dir);
           (proj // "folder.ico", plain (File (Picture "ICO" icon_full)));
           (proj // "sub", plain Dir)].

End Examples.

(** ** The claims about the reconciler *)

(** C1.  The command-line reconciler does not keep a complete icon that
    has a [folder.png] beside it.  Whatever the icon file [folder.ico]
    embeds, be it 16, 32, 48 and 256, [get_ico_sizes] finds one width in it,
    that of its largest entry; so with Pillow, a [folder.png] that opens and
    a [folder.ico] that can be overwritten, the reconciler opens the icon,
    opens the PNG and saves it over the icon with the generation sizes:
    [folder.ico] is then the file saved from the PNG. *)
Theorem C1_complete_icon_is_regenerated (folder : path) (use_absolute_path verbose : bool)
    (w : world) (im img : image) :
  w_pillow w = true →
  lookup_kind w (folder // "folder.ico") = Some (File (Picture "ICO" im)) →
  image_at w (folder // "folder.png") = Some img →
  writable w (folder // "folder.ico") = true →
  let w1 := (Cli.process_single_folder folder use_absolute_path verbose w).2 in
  (Cli.get_ico_sizes (folder // "folder.ico") w).1
  = Ret {[ (largest (im_size im) (default [] (im_more im))).1 ]}
  ∧ (∃ post,
       w_calls w1
       = (w_calls w
          ++ [Image_open_call (folder // "folder.ico");
              Image_open_call (folder // "folder.png");
              Image_save_call (folder // "folder.ico") "ICO" (Some [(16, 16); (32, 32); (48, 48); (64, 64); (128, 128); (256, 256)])]
          ++ post)%list
       ∧ Forall is_attrib_call post)
  ∧ lookup_kind w1 (folder // "folder.ico")
    = Some (File (Picture "ICO" (encode img (Some Cli.FOLDER_ICO_SIZES)))).
Proof.
  intros Hp Hi Hg Hw w1. split.
  { rewrite get_ico_sizes_run, Hp. simpl. f_equal. by apply seen_widths_ico. }
  assert (HiS : is_Some (w_fs w !! (folder // "folder.ico"))).
  { unfold lookup_kind in Hi. destruct (w_fs w !! (folder // "folder.ico")); [by eexists | done]. }
  destruct (Cli_psf_regenerated folder use_absolute_path verbose w img Hp HiS
              (ico_not_seen_complete _ _ _ Hi) Hg Hw)
    as (r & w' & Hrun & _ & _ & Hico & Hcalls & _).
  subst w1. rewrite Hrun. simpl. split; [exact Hcalls|].
  unfold lookup_kind. by rewrite Hico.
Qed.

Lemma C1_complete_icon_is_regenerated_witness :
  let w := Examples.complete_icon in
  let w1 := (Cli.process_single_folder Examples.proj false false w).2 in
  Cli.REQUIRED_FOLDER_ICO_SIZES ⊆ embedded_widths w (Examples.proj // "folder.ico")
  ∧ (Cli.get_ico_sizes (Examples.proj // "folder.ico") w).1 = Ret {[ 256 ]}
  ∧ (∃ post,
       w_calls w1
       = (w_calls w
          ++ [Image_open_call (Examples.proj // "folder.ico");
              Image_open_call (Examples.proj // "folder.png");
              Image_save_call (Examples.proj // "folder.ico") "ICO" (Some [(16, 16); (32, 32); (48, 48); (64, 64); (128, 128); (256, 256)])]
          ++ post)%list
       ∧ Forall is_attrib_call post)
  ∧ lookup_kind w1 (Examples.proj // "folder.ico")
    = Some (File (Picture "ICO" (encode Examples.png64 (Some Cli.FOLDER_ICO_SIZES)))).
Proof.
  split; [refine (bool_decide_unpack _ _); vm_compute; exact I|].
  apply (C1_complete_icon_is_regenerated Examples.proj false false Examples.complete_icon
           Examples.icon_full Examples.png64); reflexivity.
Defined.



(** Either [process_single_folder] ends in [set_folder_icon], or it gives
    up with a message and has touched no file. *)
Lemma Cli_psf_cases (folder : path) (abs v : bool) (w : world) :
  (∃ w0, w_resolve w0 = w_resolve w ∧
     Cli.process_single_folder folder abs v w
     = lift_with_ico (folder // "folder.ico")
         (Cli.set_folder_icon folder (folder // "folder.ico") abs w0))
  ∨ (∃ msg w', w_fs w' = w_fs w ∧
       Cli.process_single_folder folder abs v w = (Ret (PyStr msg, None), w')).
Proof.
  destruct (w_pillow w) eqn:Hp.
  2: { right. rewrite Cli_psf_no_pillow by done. by eexists _, _. }
  destruct (w_fs w !! (folder // "folder.ico")) as [n|] eqn:Hi.
  - assert (HiS : is_Some (w_fs w !! (folder // "folder.ico"))) by (by rewrite Hi).
    destruct (decide (Cli.REQUIRED_FOLDER_ICO_SIZES ⊆ seen_widths w (folder // "folder.ico")))
      as [Hc|Hc].
    { left. eexists. split; [|apply Cli_psf_keep; auto]. by destruct v. }
    destruct (w_fs w !! (folder // "folder.png")) as [g|] eqn:Hg.
    2: { left. eexists. split; [|apply Cli_psf_keep; auto]. by destruct v. }
    assert (HgS : is_Some (w_fs w !! (folder // "folder.png"))) by (by rewrite Hg).
    destruct (image_at w (folder // "folder.png")) as [img|] eqn:Him;
      [destruct (writable w (folder // "folder.ico")) eqn:Hw|].
    + left. destruct (Cli_psf_regenerate folder abs v w img Hp HiS Hc Him Hw)
        as (w0 & _ & _ & Hr & ->).
      eexists. split; [|reflexivity]. by destruct v.
    + right. destruct (Cli_psf_regenerate_fails folder abs v w Hp HiS Hc HgS)
        as (e & w' & Hfs & ->); [by right | by eexists _, _].
    + right. destruct (Cli_psf_regenerate_fails folder abs v w Hp HiS Hc HgS)
        as (e & w' & Hfs & ->); [by left | by eexists _, _].
  - destruct (w_fs w !! (folder // "folder.png")) as [g|] eqn:Hg.
    2: { right. rewrite Cli_psf_no_source by done. by eexists _, _. }
    assert (HgS : is_Some (w_fs w !! (folder // "folder.png"))) by (by rewrite Hg).
    destruct (image_at w (folder // "folder.png")) as [img|] eqn:Him;
      [destruct (writable w (folder // "folder.ico")) eqn:Hw|].
    + left. eexists. split; [|by apply (Cli_psf_convert folder abs v w img)].
      by destruct v.
    + right. destruct (Cli_psf_convert_fails folder abs v w Hp Hi HgS)
        as (e & w' & Hfs & ->); [by right | by eexists _, _].
    + right. destruct (Cli_psf_convert_fails folder abs v w Hp Hi HgS)
        as (e & w' & Hfs & ->); [by left | by eexists _, _].
Qed.

(** When [set_folder_icon] returns [True], [desktop.ini] holds the
    descriptor with the reference of the mode asked for. *)
Lemma set_folder_icon_True (folder ico_path : path) (abs : bool) (w w' : world) :
  Cli.set_folder_icon folder ico_path abs w = (Ret PyTrue, w') →
  lookup_kind w' (folder // "desktop.ini")
  = Some (File (Text (desktop_ini_content (icon_ref w ico_path abs)))).
Proof.
  intros Hrun.
  destruct (set_folder_icon_run folder ico_path abs w) as (r & w'' & Hr & _ & Ht & Hk).
  rewrite Hrun in Hr. simplify_eq. simpl in Ht.
  destruct (blocked w folder); [done | exact Hk].
Qed.

(** C6.  After a successful reconciliation [desktop.ini] holds exactly
    [[.ShellClassInfo]\nIconResource=<ref>,0\n], with [<ref>] the bare name
    [folder.ico] in relative mode and the resolved path of the icon in
    absolute mode. *)
Theorem C6_desktop_ini_content (folder : path) (use_absolute_path verbose : bool)
    (w w' : world) (ico : option path) :
  Cli.process_single_folder folder use_absolute_path verbose w = (Ret (PyTrue, ico), w') →
  lookup_kind w' (folder // "desktop.ini")
  = Some (File (Text
      ("[.ShellClassInfo]" +:+ nl +:+ "IconResource="
       +:+ (if use_absolute_path then path_str (w_resolve w (folder // "folder.ico"))
            else "folder.ico")
       +:+ ",0" +:+ nl))).
Proof.
  intros Hrun.
  destruct (Cli_psf_cases folder use_absolute_path verbose w)
    as [(w0 & Hres & Heq) | (msg & w'' & _ & Heq)]; rewrite Heq in Hrun; [|done].
  destruct (Cli.set_folder_icon folder (folder // "folder.ico") use_absolute_path w0)
    as [[r|e] w''] eqn:Hs; simpl in Hrun; [|done].
  assert (r = PyTrue ∧ w'' = w') as [-> ->].
  { unfold Cli.with_ico in Hrun. destruct (is_True r); by simplify_eq. }
  rewrite (set_folder_icon_True _ _ _ _ _ Hs).
  unfold desktop_ini_content, icon_ref. rewrite Hres.
  by rewrite name_joinpath by reflexivity.
Qed.

Lemma C6_desktop_ini_content_witness :
  lookup_kind (Cli.process_single_folder Examples.proj true false Examples.complete_icon).2
    (Examples.proj // "desktop.ini")
  = Some (File (Text
      ("[.ShellClassInfo]" +:+ nl +:+ "IconResource="
       +:+ path_str (w_resolve Examples.complete_icon (Examples.proj // "folder.ico"))
       +:+ ",0" +:+ nl))).
Proof.
  apply (C6_desktop_ini_content Examples.proj true false Examples.complete_icon _
           (Some (Examples.proj // "folder.ico"))).
  vm_compute. reflexivity.
Defined.

(** C7.  Reconciling twice is not idle on a complete folder.  With Pillow
    and [attrib] at hand, a directory whose [desktop.ini] is no directory,
    an icon file [folder.ico] (whatever it embeds) that can be overwritten
    and a [folder.png] that opens, both runs succeed and leave the same
    [desktop.ini], which holds the descriptor; but each of them saves the
    PNG over [folder.ico], so that after the first run the icon is the file
    saved from the PNG and no longer the one that was there. *)
Theorem C7_reconcile_twice_regenerates (folder : path) (use_absolute_path verbose : bool)
    (w : world) (im img : image) :
  w_pillow w = true → w_attrib w = true →
  kind_is_dir (lookup_kind w folder) = true →
  kind_is_dir (lookup_kind w (folder // "desktop.ini")) = false →
  lookup_kind w (folder // "folder.ico") = Some (File (Picture "ICO" im)) →
  image_at w (folder // "folder.png") = Some img →
  writable w (folder // "folder.ico") = true →
  let r1 := Cli.process_single_folder folder use_absolute_path verbose w in
  let r2 := Cli.process_single_folder folder use_absolute_path verbose r1.2 in
  let save := Image_save_call (folder // "folder.ico") "ICO" (Some [(16, 16); (32, 32); (48, 48); (64, 64); (128, 128); (256, 256)]) in
  r1.1 = Ret (PyTrue, Some (folder // "folder.ico"))
  ∧ r2.1 = Ret (PyTrue, Some (folder // "folder.ico"))
  ∧ lookup_kind r1.2 (folder // "desktop.ini")
    = Some (File (Text
        ("[.ShellClassInfo]" +:+ nl +:+ "IconResource="
         +:+ (if use_absolute_path then path_str (w_resolve w (folder // "folder.ico"))
              else "folder.ico")
         +:+ ",0" +:+ nl)))
  ∧ lookup_kind r2.2 (folder // "desktop.ini") = lookup_kind r1.2 (folder // "desktop.ini")
  ∧ lookup_kind r1.2 (folder // "folder.ico")
    = Some (File (Picture "ICO" (encode img (Some Cli.FOLDER_ICO_SIZES))))
  ∧ lookup_kind r2.2 (folder // "folder.ico") = lookup_kind r1.2 (folder // "folder.ico")
  ∧ (∃ pre post, w_calls r1.2 = (w_calls w ++ pre ++ save :: post)%list)
  ∧ (∃ pre post, w_calls r2.2 = (w_calls r1.2 ++ pre ++ save :: post)%list).
Proof.
  intros Hp Ha Hf Hd Hi Hg Hw r1 r2 save.
  assert (Hdi : folder // "desktop.ini" ≠ folder // "folder.ico").
  { intros H. symmetry in H. by apply desktop_ini_ne_ico in H. }
  assert (Hfo : folder ≠ folder // "folder.ico").
  { intros H. symmetry in H. by apply joinpath_ne_self in H. }
  assert (Hrun : ∀ (w0 : world) (im0 : image),
    w_pillow w0 = true → w_attrib w0 = true →
    kind_is_dir (lookup_kind w0 folder) = true →
    kind_is_dir (lookup_kind w0 (folder // "desktop.ini")) = false →
    lookup_kind w0 (folder // "folder.ico") = Some (File (Picture "ICO" im0)) →
    image_at w0 (folder // "folder.png") = Some img →
    writable w0 (folder // "folder.ico") = true →
    w_resolve w0 = w_resolve w →
    ∃ w',
      Cli.process_single_folder folder use_absolute_path verbose w0
      = (Ret (PyTrue, Some (folder // "folder.ico")), w')
      ∧ lookup_kind w' (folder // "desktop.ini")
        = Some (File (Text (desktop_ini_content
                              (icon_ref w (folder // "folder.ico") use_absolute_path))))
      ∧ w_fs w' !! (folder // "folder.ico")
        = Some {| n_kind := File (Picture "ICO" (encode img (Some Cli.FOLDER_ICO_SIZES)));
                  n_attrs := no_attrs |}
      ∧ (∃ pre post, w_calls w' = (w_calls w0 ++ pre ++ save :: post)%list)
      ∧ w_pillow w' = true ∧ w_attrib w' = true ∧ w_resolve w' = w_resolve w
      ∧ kind_is_dir (lookup_kind w' folder) = true
      ∧ image_at w' (folder // "folder.png") = Some img).
  { intros w0 im0 Hp0 Ha0 Hf0 Hd0 Hi0 Hg0 Hw0 Hr0.
    assert (HiS : is_Some (w_fs w0 !! (folder // "folder.ico"))).
    { unfold lookup_kind in Hi0.
      destruct (w_fs w0 !! (folder // "folder.ico")); [by eexists | done]. }
    destruct (Cli_psf_regenerated folder use_absolute_path verbose w0 img Hp0 HiS
                (ico_not_seen_complete _ _ _ Hi0) Hg0 Hw0)
      as (r & w' & Hrun & Ht & Hk & Hico & (post & Hcalls & _) & HK & HP & HA & HR & HD).
    rewrite (not_blocked w0 folder Ha0 Hf0 Hd0), Ha0 in Ht. simpl in Ht.
    rewrite (not_blocked w0 folder Ha0 Hf0 Hd0) in Hk.
    destruct r; try done.
    exists w'. split; [exact Hrun|].
    split; [rewrite Hk; unfold icon_ref; by rewrite Hr0|].
    split; [exact Hico|].
    split.
    { exists [Image_open_call (folder // "folder.ico");
              Image_open_call (folder // "folder.png")], post.
      rewrite Hcalls. reflexivity. }
    split; [congruence|]. split; [congruence|]. split; [congruence|].
    split; [by rewrite HD|].
    rewrite <- Hg0. apply image_at_kind, HK; by apply joinpath_ne. }
  destruct (Hrun w im Hp Ha Hf Hd Hi Hg Hw eq_refl)
    as (w1 & Hr1 & K1 & I1 & C1 & P1 & A1 & R1 & F1 & G1).
  assert (Hw1 : writable w1 (folder // "folder.ico") = true).
  { unfold writable. rewrite parent_joinpath, F1, I1.
    by rewrite bool_decide_eq_true_2 by apply joinpath_ne_nil. }
  destruct (Hrun w1 (encode img (Some Cli.FOLDER_ICO_SIZES)) P1 A1 F1)
    as (w2 & Hr2 & K2 & I2 & C2 & _); try done.
  { by rewrite K1. }
  { unfold lookup_kind. by rewrite I1. }
  subst r2 r1. rewrite Hr1. simpl. rewrite Hr2. simpl.
  split; [done|]. split; [done|].
  split.
  { rewrite K1. unfold desktop_ini_content, icon_ref.
    by rewrite name_joinpath by reflexivity. }
  split; [by rewrite K1, K2|].
  split; [unfold lookup_kind; by rewrite I1|].
  split; [unfold lookup_kind; by rewrite I1, I2|].
  split; [exact C1 | exact C2].
Qed.

Lemma C7_reconcile_twice_regenerates_witness :
  let w := Examples.complete_icon in
  let r1 := Cli.process_single_folder Examples.proj false false w in
  let r2 := Cli.process_single_folder Examples.proj false false r1.2 in
  let save := Image_save_call (Examples.proj // "folder.ico") "ICO" (Some [(16, 16); (32, 32); (48, 48); (64, 64); (128, 128); (256, 256)]) in
  Cli.REQUIRED_FOLDER_ICO_SIZES ⊆ embedded_widths w (Examples.proj // "folder.ico")
  ∧ lookup_kind w (Examples.proj // "folder.ico")
    = Some (File (Picture "ICO" Examples.icon_full))
  ∧ r1.1 = Ret (PyTrue, Some (Examples.proj // "folder.ico"))
  ∧ r2.1 = Ret (PyTrue, Some (Examples.proj // "folder.ico"))
  ∧ lookup_kind r1.2 (Examples.proj // "desktop.ini")
    = Some (File (Text
        ("[.ShellClassInfo]" +:+ nl +:+ "IconResource=" +:+ "folder.ico" +:+ ",0" +:+ nl)))
  ∧ lookup_kind r2.2 (Examples.proj // "desktop.ini")
    = lookup_kind r1.2 (Examples.proj // "desktop.ini")
  ∧ lookup_kind r1.2 (Examples.proj // "folder.ico")
    = Some (File (Picture "ICO" (encode Examples.png64 (Some Cli.FOLDER_ICO_SIZES))))
  ∧ lookup_kind r2.2 (Examples.proj // "folder.ico")
    = lookup_kind r1.2 (Examples.proj // "folder.ico")
  ∧ (∃ pre post, w_calls r1.2 = (w_calls w ++ pre ++ save :: post)%list)
  ∧ (∃ pre post, w_calls r2.2 = (w_calls r1.2 ++ pre ++ save :: post)%list).
Proof.
  split; [refine (bool_decide_unpack _ _); vm_compute; exact I|].
  split; [reflexivity|].
  apply (C7_reconcile_twice_regenerates Examples.proj false false Examples.complete_icon
           Examples.icon_full Examples.png64); reflexivity.
Defined.

(** C5 as stated fails in the command-line tool when Pillow is missing:
    the folder has neither source, and the result is the message about
    Pillow, not the one about the missing sources. *)
Lemma C5_counterexample :
  let w := Examples.without_pillow Examples.no_sources in
  w_fs w !! (Examples.proj // "folder.ico") = None
  ∧ w_fs w !! (Examples.proj // "folder.png") = None
  ∧ (Cli.process_single_folder Examples.proj false false w).1
    = Ret (PyStr "Pillow is not installed. Please run: pip install Pillow", None)
  ∧ (Cli.process_single_folder Examples.proj false false w).1
    ≠ Ret (PyStr "No folder.ico or folder.png found", None).
Proof. vm_compute. repeat split; discriminate. Qed.

(** C5, amended.  In a folder with neither [folder.ico] nor [folder.png]
    the GUI reconciler returns the failure [No folder.ico or folder.png
    found], and so does the command-line one when Pillow is installed
    (without Pillow it returns the failure about Pillow); in every case the
    world is left exactly as it was: no file, no attribute, no call. *)
Theorem C5_no_icon_source (folder : path) (use_absolute_path verbose : bool) (w : world) :
  w_fs w !! (folder // "folder.ico") = None →
  w_fs w !! (folder // "folder.png") = None →
  Gui.process_single_folder folder w
  = (Ret (PyStr "No folder.ico or folder.png found", None), w)
  ∧ Cli.process_single_folder folder use_absolute_path verbose w
    = (Ret (PyStr (if w_pillow w then "No folder.ico or folder.png found"
                   else "Pillow is not installed. Please run: pip install Pillow"), None), w).
Proof.
  intros Hi Hg. split; [by apply Gui_psf_no_source|].
  destruct (w_pillow w) eqn:Hp; [by apply Cli_psf_no_source | by apply Cli_psf_no_pillow].
Qed.

Lemma C5_no_icon_source_witness :
  Gui.process_single_folder Examples.proj Examples.no_sources
  = (Ret (PyStr "No folder.ico or folder.png found", None), Examples.no_sources)
  ∧ Cli.process_single_folder Examples.proj false true Examples.no_sources
    = (Ret (PyStr (if w_pillow Examples.no_sources then "No folder.ico or folder.png found"
                   else "Pillow is not installed. Please run: pip install Pillow"), None),
       Examples.no_sources).
Proof.
  apply (C5_no_icon_source Examples.proj false true Examples.no_sources);
    vm_compute; reflexivity.
Defined.

(** C4 as stated fails when [folder.png] is no image: the conversion fails,
    no [folder.ico] appears and the result is a failure. *)
Lemma C4_counterexample :
  let w := Examples.corrupt_png in
  let r := Cli.process_single_folder Examples.proj false false w in
  is_Some (w_fs w !! (Examples.proj // "folder.png"))
  ∧ w_fs w !! (Examples.proj // "folder.ico") = None
  ∧ (∃ reason, r.1 = Ret (PyStr ("Failed to convert PNG: " +:+ reason), None))
  ∧ w_fs r.2 !! (Examples.proj // "folder.ico") = None
  ∧ w_fs r.2 !! (Examples.proj // "desktop.ini") = None.
Proof.
  cbv zeta. split; [by eexists|]. split; [by vm_compute|].
  split; [|split; by vm_compute].
  exists "cannot identify image file C:\proj\folder.png". by vm_compute.
Qed.

(** C4, amended.  In a directory with a [folder.png] and no [folder.ico],
    with Pillow installed, the reconciler converts the PNG.  When the PNG
    opens, [attrib] is at hand, the path is a directory and [desktop.ini]
    is no directory, it succeeds: it has opened the PNG and saved it as
    [folder.ico] asking for exactly the sizes 16, 32, 48, 64, 128 and 256,
    [folder.ico] is the file so saved, and [desktop.ini] holds the
    descriptor, [IconResource=folder.ico,0] in relative mode.  When the PNG
    does not open or [folder.ico] cannot be written, the result is
    [Failed to convert PNG: <reason>] and no file is touched. *)
Theorem C4_png_only (folder : path) (use_absolute_path verbose : bool) (w : world) :
  w_pillow w = true →
  w_fs w !! (folder // "folder.ico") = None →
  is_Some (w_fs w !! (folder // "folder.png")) →
  let r := Cli.process_single_folder folder use_absolute_path verbose w in
  (∀ img,
     image_at w (folder // "folder.png") = Some img →
     w_attrib w = true →
     kind_is_dir (lookup_kind w folder) = true →
     kind_is_dir (lookup_kind w (folder // "desktop.ini")) = false →
     r.1 = Ret (PyTrue, Some (folder // "folder.ico"))
     ∧ (∃ post,
          w_calls r.2
          = (w_calls w
             ++ [Image_open_call (folder // "folder.png");
                 Image_save_call (folder // "folder.ico") "ICO" (Some [(16, 16); (32, 32); (48, 48); (64, 64); (128, 128); (256, 256)])]
             ++ post)%list
          ∧ Forall is_attrib_call post)
     ∧ lookup_kind r.2 (folder // "folder.ico")
       = Some (File (Picture "ICO" (encode img (Some Cli.FOLDER_ICO_SIZES))))
     ∧ lookup_kind r.2 (folder // "desktop.ini")
       = Some (File (Text
           ("[.ShellClassInfo]" +:+ nl +:+ "IconResource="
            +:+ (if use_absolute_path then path_str (w_resolve w (folder // "folder.ico"))
                 else "folder.ico")
            +:+ ",0" +:+ nl))))
  ∧ (image_at w (folder // "folder.png") = None
     ∨ writable w (folder // "folder.ico") = false →
     (∃ reason, r.1 = Ret (PyStr ("Failed to convert PNG: " +:+ reason), None))
     ∧ w_fs r.2 = w_fs w).
Proof.
  intros Hp Hi Hgx r. split.
  - intros img Hg Ha Hf Hd.
    assert (Hw : writable w (folder // "folder.ico") = true).
    { unfold writable. rewrite parent_joinpath, Hf, Hi.
      by rewrite bool_decide_eq_true_2 by apply joinpath_ne_nil. }
    subst r. rewrite (Cli_psf_convert folder use_absolute_path verbose w img Hp Hi Hg Hw).
    set (w0 := say verbose "  Created folder.ico"
                 (regenerated folder img (say verbose "  Found folder.png, converting to ICO..." w))).
    assert (F0 : w_fs w0 = <[folder // "folder.ico" :=
                   {| n_kind := File (Picture "ICO" (encode img (Some Cli.FOLDER_ICO_SIZES)));
                      n_attrs := no_attrs |}]> (w_fs w)) by (by destruct verbose).
    assert (A0 : w_attrib w0 = w_attrib w) by (by destruct verbose).
    assert (R0 : w_resolve w0 = w_resolve w) by (by destruct verbose).
    assert (C0 : w_calls w0
                 = (w_calls w
                    ++ [Image_open_call (folder // "folder.png");
                        Image_save_call (folder // "folder.ico") "ICO"
                          (Some Cli.FOLDER_ICO_SIZES)])%list).
    { destruct verbose; cbn; by rewrite <- !app_assoc. }
    assert (L0 : ∀ q, q ≠ folder // "folder.ico" → lookup_kind w0 q = lookup_kind w q).
    { intros q Hq. unfold lookup_kind. by rewrite F0, lookup_insert_ne. }
    assert (B0 : blocked w0 folder = false).
    { apply not_blocked; rewrite ?A0, ?L0; try done.
      - intros H. symmetry in H. by apply joinpath_ne_self in H.
      - intros H. symmetry in H. by apply desktop_ini_ne_ico in H. }
    destruct (set_folder_icon_run folder (folder // "folder.ico") use_absolute_path w0)
      as (r & w' & Hr & _ & Ht & Hk).
    destruct (set_folder_icon_frame folder use_absolute_path w0)
      as (I1 & (post & Hpost & Fpost) & _).
    rewrite Hr in I1, Hpost. simpl in I1, Hpost.
    rewrite Hr, B0, A0, Ha in *. simpl in Ht.
    destruct r; try done. simpl.
    split; [done|].
    split; [exists post; split; [by rewrite Hpost, C0, <- app_assoc | done]|].
    split; [unfold lookup_kind; by rewrite I1, F0, lookup_insert_eq|].
    rewrite Hk. unfold desktop_ini_content, icon_ref. rewrite R0.
    by rewrite name_joinpath by reflexivity.
  - intros Hf.
    destruct (Cli_psf_convert_fails folder use_absolute_path verbose w Hp Hi Hgx Hf)
      as (e & w' & Hfs & Heq).
    subst r. rewrite Heq. split; [by eexists | done].
Qed.

Lemma C4_png_only_witness :
  (let r := Cli.process_single_folder Examples.proj false false Examples.png_only in
   r.1 = Ret (PyTrue, Some (Examples.proj // "folder.ico"))
   ∧ (∃ post,
        w_calls r.2
        = (w_calls Examples.png_only
           ++ [Image_open_call (Examples.proj // "folder.png");
               Image_save_call (Examples.proj // "folder.ico") "ICO" (Some [(16, 16); (32, 32); (48, 48); (64, 64); (128, 128); (256, 256)])]
           ++ post)%list
        ∧ Forall is_attrib_call post)
   ∧ lookup_kind r.2 (Examples.proj // "folder.ico")
     = Some (File (Picture "ICO" (encode Examples.png64 (Some Cli.FOLDER_ICO_SIZES))))
   ∧ lookup_kind r.2 (Examples.proj // "desktop.ini")
     = Some (File (Text
         ("[.ShellClassInfo]" +:+ nl +:+ "IconResource=" +:+ "folder.ico" +:+ ",0" +:+ nl))))
  ∧ (let r := Cli.process_single_folder Examples.proj false false Examples.corrupt_png in
     (∃ reason, r.1 = Ret (PyStr ("Failed to convert PNG: " +:+ reason), None))
     ∧ w_fs r.2 = w_fs Examples.corrupt_png).
Proof.
  split.
  - assert (Hg : is_Some (w_fs Examples.png_only !! (Examples.proj // "folder.png")))
      by (by eexists).
    apply (proj1 (C4_png_only Examples.proj false false Examples.png_only
                    eq_refl eq_refl Hg) Examples.png64); reflexivity.
  - assert (Hg : is_Some (w_fs Examples.corrupt_png !! (Examples.proj // "folder.png")))
      by (by eexists).
    apply (proj2 (C4_png_only Examples.proj false false Examples.corrupt_png
                    eq_refl eq_refl Hg)).
    left. reflexivity.
Defined.


(** With Pillow, a [folder.ico] that is there is opened before anything
    else. *)
Lemma Cli_psf_inspects (folder : path) (abs v : bool) (w : world) :
  w_pillow w = true → is_Some (w_fs w !! (folder // "folder.ico")) →
  ∃ new, w_calls (Cli.process_single_folder folder abs v w).2
         = (w_calls w ++ Image_open_call (folder // "folder.ico") :: new)%list.
Proof.
  intros Hp Hi.
  change (wp (Cli.process_single_folder folder abs v)
            (λ _ w', ∃ new, w_calls w'
               = (w_calls w ++ Image_open_call (folder // "folder.ico") :: new)%list) w).
  unfold Cli.process_single_folder.
  wp_step. wp_step. rewrite Hp. cbn [negb].
  wp_step. wp_step. rewrite (bool_decide_eq_true_2 _ Hi).
  wp_step. wp_step.
  assert (Hsay : ∀ w0 : world, w_calls w0 = w_calls w → w_pillow w0 = true →
    wp (Cli.get_ico_sizes (folder // "folder.ico"))
      (λ o w', match o with
               | Ret a => ∃ new, w_calls w' = (w_calls w ++ [Image_open_call (folder // "folder.ico")])%list
                                 ∧ new = a
               | Raise e => False
               end) w0).
  { intros w0 Hc Hp0. unfold wp. rewrite get_ico_sizes_run, Hp0. simpl.
    eexists. split; [by rewrite Hc | done]. }
  assert (Hrest : ∀ (sizes : gset Z) (w0 : world),
    w_calls w0 = (w_calls w ++ [Image_open_call (folder // "folder.ico")])%list →
    wp (regenerate <- (if bool_decide (Cli.REQUIRED_FOLDER_ICO_SIZES ∖ sizes ≠ ∅)
                       then path_exists (folder // "folder.png") else ret false) ;;
        failed <- (if regenerate then
                     when v
                       (print ("  ICO missing required sizes: "
                               +:+ Cli.repr_sorted (Cli.REQUIRED_FOLDER_ICO_SIZES ∖ sizes)) ;;
                        print "  Regenerating from folder.png...") ;;
                     try_except
                       (img <- Image_open (folder // "folder.png") ;;
                        Image_save img (folder // "folder.ico") "ICO" (Some Cli.FOLDER_ICO_SIZES) ;;
                        when v (print "  Regenerated folder.ico with all sizes") ;;
                        ret None)
                       (fun e => ret (Some ("Failed to regenerate ICO: " +:+ e_str e)))
                   else ret None) ;;
        match failed with
        | Some msg => ret (PyStr msg, None)
        | None =>
            result <- Cli.set_folder_icon folder (folder // "folder.ico") abs ;;
            ret (Cli.with_ico result (folder // "folder.ico"))
        end)
      (λ _ w', ∃ new, w_calls w'
         = (w_calls w ++ Image_open_call (folder // "folder.ico") :: new)%list) w0).
  { intros sizes w0 Hc.
    apply (wp_preserves (effect (λ _, True) (λ _, True) (λ _, True))).
    - unfold Cli.set_folder_icon. effect_tac; simpl; auto.
    - intros o w' [_ _ _ _ _ _ _ _ _ (new & Hn & _)]. exists new.
      by rewrite Hn, Hc, <- app_assoc. }
  destruct v; cbn beta iota.
  - wp_step. wp_step.
    eapply wp_mono; [apply Hsay; done|]. intros [a|e] w' H; [|done].
    destruct H as (? & Hc & _). by apply Hrest.
  - wp_step.
    eapply wp_mono; [apply Hsay; done|]. intros [a|e] w' H; [|done].
    destruct H as (? & Hc & _). by apply Hrest.
Qed.

Lemma incomplete_full (w : world) (ico : path) :
  incomplete w ico → FULL_WIDTHS ≠ embedded_widths w ico.
Proof.
  intros Hc Heq. apply Hc. rewrite <- Heq.
  unfold Cli.REQUIRED_FOLDER_ICO_SIZES, FULL_WIDTHS. set_solver.
Qed.

(** C9.  Where [folder.ico] is already there, the GUI reconciler leaves it
    as it is: it calls nothing but [attrib] (so it neither opens the icon
    nor saves one) and changes the content of no file but [desktop.ini].
    The command-line reconciler differs on such a folder: with Pillow it
    first opens the icon to inspect it, and an icon that misses a required
    width is replaced from a [folder.png] that opens, when the icon can be
    overwritten, by one that embeds the full size set. *)
Theorem C9_gui_keeps_existing_icon (folder : path) (use_absolute_path verbose : bool)
    (w : world) :
  is_Some (w_fs w !! (folder // "folder.ico")) →
  let g := (Gui.process_single_folder folder w).2 in
  let c := (Cli.process_single_folder folder use_absolute_path verbose w).2 in
  (w_fs g !! (folder // "folder.ico") = w_fs w !! (folder // "folder.ico")
   ∧ only_attrib w g
   ∧ (∀ q, q ≠ folder // "desktop.ini" → lookup_kind g q = lookup_kind w q))
  ∧ (w_pillow w = true →
     (∃ new, w_calls c = (w_calls w ++ Image_open_call (folder // "folder.ico") :: new)%list)
     ∧ (∀ img, incomplete w (folder // "folder.ico") →
          image_at w (folder // "folder.png") = Some img →
          writable w (folder // "folder.ico") = true →
          embedded_widths c (folder // "folder.ico") = {[16; 32; 48; 64; 128; 256]}
          ∧ embedded_widths c (folder // "folder.ico") ≠ embedded_widths g (folder // "folder.ico"))).
Proof.
  intros Hi g c.
  assert (Hg : w_fs g !! (folder // "folder.ico") = w_fs w !! (folder // "folder.ico")
               ∧ only_attrib w g
               ∧ (∀ q, q ≠ folder // "desktop.ini" → lookup_kind g q = lookup_kind w q)).
  { subst g. rewrite Gui_psf_keep, lift_with_ico_world by done.
    destruct (set_folder_icon_frame folder false w) as (I & O & K & _). auto. }
  split; [exact Hg|]. intros Hp. split; [by apply Cli_psf_inspects|].
  intros img Hc Him Hw.
  destruct (Cli_psf_regenerate folder use_absolute_path verbose w img Hp Hi
              (incomplete_seen _ _ Hc) Him Hw)
    as (w0 & F0 & _ & _ & Heq).
  assert (Hfull : embedded_widths c (folder // "folder.ico") = FULL_WIDTHS).
  { subst c. rewrite Heq, lift_with_ico_world.
    match goal with
    | |- context [Cli.set_folder_icon ?f ?i ?a ?w1] =>
        destruct (set_folder_icon_frame f a w1) as (I & _)
    end.
    eapply (embedded_widths_regenerated folder img w0). rewrite I. by destruct verbose. }
  split; [exact Hfull|].
  rewrite Hfull, (embedded_widths_same w g) by apply Hg.
  by apply incomplete_full.
Qed.

Lemma C9_gui_keeps_existing_icon_witness :
  let w := Examples.small_icon in
  let g := (Gui.process_single_folder Examples.proj w).2 in
  let c := (Cli.process_single_folder Examples.proj false false w).2 in
  (w_fs g !! (Examples.proj // "folder.ico") = w_fs w !! (Examples.proj // "folder.ico")
   ∧ only_attrib w g)
  ∧ embedded_widths c (Examples.proj // "folder.ico") = {[16; 32; 48; 64; 128; 256]}
  ∧ embedded_widths c (Examples.proj // "folder.ico")
    ≠ embedded_widths g (Examples.proj // "folder.ico").
Proof.
  assert (Hi : is_Some (w_fs Examples.small_icon !! (Examples.proj // "folder.ico")))
    by (by eexists).
  destruct (C9_gui_keeps_existing_icon Examples.proj false false Examples.small_icon Hi)
    as [(Hico & Hcalls & _) Hcli].
  split; [by split|].
  destruct (Hcli eq_refl) as [_ Hdiff].
  apply (Hdiff Examples.png64); [|reflexivity|reflexivity].
  unfold incomplete. intros H.
  assert (16 ∈ embedded_widths Examples.small_icon (Examples.proj // "folder.ico")) as Hin
    by (apply H; unfold Cli.REQUIRED_FOLDER_ICO_SIZES; set_solver).
  revert Hin. vm_compute. set_solver.
Defined.

(** C10 as stated fails: [folder.ico] is unreadable and so is the
    [folder.png] next to it; the regeneration is tried and fails, the
    unreadable icon stays, and the result is a failure.  Without Pillow the
    icon is not even looked at. *)
Lemma C10_counterexample :
  let w := Examples.corrupt_both in
  let r := Cli.process_single_folder Examples.proj false false w in
  let r' := Cli.process_single_folder Examples.proj false false (Examples.without_pillow w) in
  (Cli.get_ico_sizes (Examples.proj // "folder.ico") w).1 = Ret ∅
  ∧ is_Some (w_fs w !! (Examples.proj // "folder.png"))
  ∧ (∃ reason, r.1 = Ret (PyStr ("Failed to regenerate ICO: " +:+ reason), None))
  ∧ w_fs r.2 !! (Examples.proj // "folder.ico") = Some (Examples.plain (File Junk))
  ∧ r'.1 = Ret (PyStr "Pillow is not installed. Please run: pip install Pillow", None)
  ∧ w_calls r'.2 = [].
Proof.
  cbv zeta. split; [by vm_compute|]. split; [by eexists|].
  split; [|split; [by vm_compute | split; by vm_compute]].
  exists "cannot identify image file C:\proj\folder.png". by vm_compute.
Qed.

(** C10, amended.  [get_ico_sizes] always returns, touches no file, and
    returns the empty set when Pillow is missing or the file does not open
    as an image.  Without Pillow the command-line reconciler returns the
    failure about Pillow and does nothing else.  With Pillow, a
    [folder.ico] that does not open next to a [folder.png] is taken to the
    regeneration: when the PNG opens and the icon can be overwritten, the
    PNG is saved over it with the generation sizes and [folder.ico] is the
    file so saved; otherwise the result is
    [Failed to regenerate ICO: <reason>] and no file is touched. *)
Theorem C10_unreadable_icon (p folder : path) (use_absolute_path verbose : bool) (w : world) :
  (∃ sizes w', Cli.get_ico_sizes p w = (Ret sizes, w') ∧ w_fs w' = w_fs w
     ∧ (w_pillow w = false ∨ image_at w p = None → sizes = ∅))
  ∧ (let r := Cli.process_single_folder folder use_absolute_path verbose w in
     (w_pillow w = false →
      r = (Ret (PyStr "Pillow is not installed. Please run: pip install Pillow", None), w))
     ∧ (w_pillow w = true →
        is_Some (w_fs w !! (folder // "folder.ico")) →
        image_at w (folder // "folder.ico") = None →
        is_Some (w_fs w !! (folder // "folder.png")) →
        (∀ img, image_at w (folder // "folder.png") = Some img →
           writable w (folder // "folder.ico") = true →
           (∃ post,
              w_calls r.2
              = (w_calls w
                 ++ [Image_open_call (folder // "folder.ico");
                     Image_open_call (folder // "folder.png");
                     Image_save_call (folder // "folder.ico") "ICO" (Some [(16, 16); (32, 32); (48, 48); (64, 64); (128, 128); (256, 256)])]
                 ++ post)%list
              ∧ Forall is_attrib_call post)
           ∧ lookup_kind r.2 (folder // "folder.ico")
             = Some (File (Picture "ICO" (encode img (Some Cli.FOLDER_ICO_SIZES)))))
        ∧ (image_at w (folder // "folder.png") = None
           ∨ writable w (folder // "folder.ico") = false →
           (∃ reason, r.1 = Ret (PyStr ("Failed to regenerate ICO: " +:+ reason), None))
           ∧ w_fs r.2 = w_fs w))).
Proof.
  split.
  - rewrite get_ico_sizes_run. destruct (w_pillow w) eqn:Hp.
    + eexists _, _. split; [done|]. split; [done|].
      intros [|Hn]; [done|]. unfold seen_widths. by rewrite Hn.
    + by eexists _, _.
  - intros r. split.
    { intros Hp. by apply Cli_psf_no_pillow. }
    intros Hp Hi Hn Hg.
    assert (Hc : ¬ Cli.REQUIRED_FOLDER_ICO_SIZES ⊆ seen_widths w (folder // "folder.ico")).
    { unfold seen_widths. rewrite Hn. apply required_not_in_empty. }
    split.
    + intros img Him Hw.
      destruct (Cli_psf_regenerated folder use_absolute_path verbose w img Hp Hi Hc Him Hw)
        as (r0 & w' & Hrun & _ & _ & Hico & Hcalls & _).
      subst r. rewrite Hrun. simpl. split; [exact Hcalls|].
      unfold lookup_kind. by rewrite Hico.
    + intros Hf.
      destruct (Cli_psf_regenerate_fails folder use_absolute_path verbose w Hp Hi Hc Hg Hf)
        as (e & w' & Hfs & Heq).
      subst r. rewrite Heq. split; [by eexists | done].
Qed.

Lemma C10_unreadable_icon_witness :
  let w := Examples.corrupt_icon in
  (Cli.get_ico_sizes (Examples.proj // "folder.ico") w).1 = Ret ∅
  ∧ lookup_kind (Cli.process_single_folder Examples.proj false false w).2
      (Examples.proj // "folder.ico")
    = Some (File (Picture "ICO" (encode Examples.png64 (Some Cli.FOLDER_ICO_SIZES))))
  ∧ Cli.process_single_folder Examples.proj false false (Examples.without_pillow w)
    = (Ret (PyStr "Pillow is not installed. Please run: pip install Pillow", None),
       Examples.without_pillow w).
Proof.
  destruct (C10_unreadable_icon (Examples.proj // "folder.ico") Examples.proj false false
              Examples.corrupt_icon) as [(sizes & w' & Hrun & _ & Hempty) [_ Hregen]].
  destruct (C10_unreadable_icon (Examples.proj // "folder.ico") Examples.proj false false
              (Examples.without_pillow Examples.corrupt_icon)) as [_ [Hnone _]].
  split; [|split].
  - rewrite Hrun. simpl. f_equal. apply Hempty. by right.
  - assert (Hi : is_Some (w_fs Examples.corrupt_icon !! (Examples.proj // "folder.ico")))
      by (by eexists).
    assert (Hg : is_Some (w_fs Examples.corrupt_icon !! (Examples.proj // "folder.png")))
      by (by eexists).
    destruct (Hregen eq_refl Hi eq_refl Hg) as [Hok _].
    by apply (Hok Examples.png64).
  - by apply Hnone.
Defined.


(** ** The batch *)

(** The immediate subdirectories of [folder], in the order [iterdir] lists
    them. *)
Definition subdirs (w : world) (folder : path) : list path :=
  filter (λ q, kind_is_dir (lookup_kind w q) = true) (children (w_fs w) folder).

(** What a reconciliation returns. *)
Abbreviation verdict := (pyval * option path)%type.

(** Reconciling the items one after the other and keeping every outcome. *)
Fixpoint attempt_each (attempt : path → M verdict) (items : list path)
    : M (list (path * verdict)) :=
  match items with
  | [] => ret []
  | f :: rest =>
      r <- attempt f ;;
      rs <- attempt_each attempt rest ;;
      ret ((f, r) :: rs)
  end.

(** The number of items whose result is [True]. *)
Definition successes (outs : list (path * verdict)) : nat :=
  length (filter (λ o, is_True o.2.1 = true) outs).

(** The entry [name: reason] of every item whose result is a message. *)
Definition failures (outs : list (path * verdict)) : list string :=
  omap (λ o, match o.2.1 with
             | PyStr msg => Some (name o.1 +:+ ": " +:+ msg)
             | _ => None
             end) outs.

Lemma subdirs_elem (w : world) (folder q : path) :
  q ∈ subdirs w folder ↔ kind_is_dir (lookup_kind w q) = true ∧ q ≠ [] ∧ parent q = folder.
Proof.
  unfold subdirs, children. rewrite !list_elem_of_filter.
  split; [naive_solver|]. intros (Hd & Hn & Hp). repeat split; try done.
  unfold lookup_kind in Hd. destruct (w_fs w !! q) as [n|] eqn:Hq; [|done].
  apply list_elem_of_fmap. exists (q, n). split; [done|].
  by apply elem_of_map_to_list.
Qed.

Lemma subdirs_NoDup (w : world) (folder : path) : NoDup (subdirs w folder).
Proof.
  unfold subdirs, children. do 2 apply NoDup_filter. apply NoDup_fst_map_to_list.
Qed.

(** The subdirectories are the same, up to the order of listing, in two
    worlds with the same directories. *)
Lemma subdirs_same_dirs (w w' : world) (folder : path) :
  (∀ q, kind_is_dir (lookup_kind w' q) = kind_is_dir (lookup_kind w q)) →
  subdirs w' folder ≡ₚ subdirs w folder.
Proof.
  intros Hd. apply NoDup_Permutation; try apply subdirs_NoDup.
  intros q. rewrite !subdirs_elem. by rewrite Hd.
Qed.

Section Loop.

Context {S : Type} (attempt : path → M verdict) (count : path → verdict → S → S).

Hypothesis attempt_returns :
  ∀ f w, ∃ r w', attempt f w = (Ret r, w') ∧ r.1 ≠ PyNone.

Hypothesis attempt_dirs :
  ∀ f w q, kind_is_dir (lookup_kind (attempt f w).2 q) = kind_is_dir (lookup_kind w q).

(** The loop body: a subdirectory is reconciled and counted, anything else
    is skipped. *)
Definition loop_body (x : path) (st : S) : M S :=
  d <- is_dir x ;;
  if d then r <- attempt x ;; ret (count x r st) else ret st.

Definition count_all (outs : list (path * verdict)) (st : S) : S :=
  fold_left (λ s o, count o.1 o.2 s) outs st.

Lemma attempt_each_returns (items : list path) (w : world) :
  ∃ outs w', attempt_each attempt items w = (Ret outs, w')
    ∧ outs.*1 = items
    ∧ Forall (λ o, o.2.1 ≠ PyNone) outs
    ∧ (∀ q, kind_is_dir (lookup_kind w' q) = kind_is_dir (lookup_kind w q)).
Proof.
  revert w. induction items as [|f items IH]; intros w; simpl.
  - by eexists _, _.
  - destruct (attempt_returns f w) as (r & w1 & Hr & Hn).
    destruct (IH w1) as (outs & w' & Hrun & Hfst & Hall & Hd).
    exists ((f, r) :: outs), w'. unfold bind. rewrite Hr, Hrun. simpl.
    split; [done|]. split; [simpl; f_equal; exact Hfst|]. split; [by constructor|].
    intros q. rewrite Hd. pose proof (attempt_dirs f w q) as H. by rewrite Hr in H.
Qed.

(** The loop over the entries of a directory does what reconciling its
    subdirectories one after the other does, and counts each outcome. *)
Lemma for_each_attempts (w1 : world) (xs : list path) (st : S) (w : world) :
  (∀ q, kind_is_dir (lookup_kind w q) = kind_is_dir (lookup_kind w1 q)) →
  ∃ outs w',
    attempt_each attempt (filter (λ q, kind_is_dir (lookup_kind w1 q) = true) xs) w
    = (Ret outs, w')
    ∧ Cli.for_each xs loop_body st w = (Ret (count_all outs st), w').
Proof.
  revert st w. induction xs as [|x xs IH]; intros st w Hd; simpl.
  - by eexists _, _.
  - unfold loop_body at 1. unfold bind at 1 2. unfold is_dir, get. rewrite Hd.
    rewrite filter_cons. destruct (kind_is_dir (lookup_kind w1 x)) eqn:Hx.
    + rewrite decide_True by done. simpl.
      destruct (attempt_returns x w) as (r & w2 & Hr & Hn).
      unfold bind. rewrite Hr. simpl.
      destruct (IH (count x r st) w2) as (outs & w' & Hrun & Hloop).
      { intros q. rewrite <- Hd. pose proof (attempt_dirs x w q) as H.
        by rewrite Hr in H. }
      rewrite Hrun, Hloop. by eexists _, _.
    + rewrite decide_False by done. simpl.
      destruct (IH st w Hd) as (outs & w' & Hrun & Hloop).
      rewrite Hrun, Hloop. by eexists _, _.
Qed.

End Loop.

Lemma for_each_ext {A S : Type} (l : list A) (body body' : A → S → M S) (st : S) (w : world) :
  (∀ x s w0, body x s w0 = body' x s w0) →
  Cli.for_each l body st w = Cli.for_each l body' st w.
Proof.
  intros Hb. revert st w. induction l as [|x l IH]; intros st w; simpl; [done|].
  unfold bind. rewrite Hb. destruct (body' x st w) as [[s|e] w1]; [apply IH | done].
Qed.

Lemma successes_failures_length (outs : list (path * verdict)) :
  Forall (λ o, o.2.1 ≠ PyNone) outs →
  (successes outs + length (failures outs))%nat = length outs.
Proof.
  unfold successes, failures. induction 1 as [|[f [r o]] outs Hr _ IH]; [done|].
  rewrite filter_cons. simpl in Hr.
  destruct r; [| |done]; case_decide; simpl in *; try done.
  - f_equal. exact IH.
  - rewrite Nat.add_succ_r. f_equal. exact IH.
Qed.

(** *** The command-line tool *)

(** The line printed before a folder is processed. *)
Definition header (main : bool) (f : path) : string :=
  if main then nl +:+ "Processing: " +:+ path_str f
  else nl +:+ "Processing subfolder: " +:+ name f.

(** One item of the batch: its header, its reconciliation, its verdict
    line (the lines only when [verbose]). *)
Definition Cli_attempt (abs verbose main : bool) (f : path) : M verdict :=
  when verbose (print (header main f)) ;;
  r <- Cli.process_single_folder f abs verbose ;;
  when verbose
    match r.1 with
    | PyTrue => print "  ✓ Icon applied successfully"
    | PyStr msg => print ("  ✗ " +:+ msg)
    | PyNone => ret tt
    end ;;
  ret r.

Definition Cli_count (f : path) (r : verdict) (st : nat * list string) : nat * list string :=
  match r.1 with
  | PyTrue => (S st.1, st.2)
  | PyStr msg => (st.1, (st.2 ++ [name f +:+ ": " +:+ msg])%list)
  | PyNone => st
  end.

Lemma Cli_attempt_count (abs v main : bool) (f : path) (st : nat * list string) (w : world) :
  (when v (print (header main f)) ;;
   r <- Cli.process_single_folder f abs v ;;
   Cli.count_result f r.1 v st) w
  = (r <- Cli_attempt abs v main f ;; ret (Cli_count f r st)) w.
Proof.
  unfold Cli_attempt, Cli.count_result, Cli_count, bind, when, print, modify, ret.
  destruct st as [p e].
  destruct v; simpl;
    match goal with
    | |- context [Cli.process_single_folder f abs ?v0 ?w0] =>
        destruct (Cli.process_single_folder f abs v0 w0) as [[[[| |] o]|ex] w1]
    end; reflexivity.
Qed.

Lemma Cli_attempt_returns (abs v main : bool) (f : path) (w : world) :
  ∃ r w', Cli_attempt abs v main f w = (Ret r, w') ∧ r.1 ≠ PyNone.
Proof.
  unfold Cli_attempt, bind, when, print, modify, ret.
  destruct v; simpl;
    match goal with
    | |- context [Cli.process_single_folder f abs ?v0 ?w0] =>
        destruct (Cli_psf_returns f abs v0 w0) as ([| |] & o & w1 & -> & Hn)
    end; try done; by eexists _, _.
Qed.

Lemma Cli_attempt_effect (abs v main : bool) (f : path) :
  preserves (effect (λ _, True) (λ _, True) (λ _, True)) (Cli_attempt abs v main f).
Proof.
  unfold Cli_attempt, Cli.process_single_folder, Cli.get_ico_sizes, Cli.set_folder_icon.
  effect_tac; simpl; auto.
Qed.

Lemma Cli_count_all (outs : list (path * verdict)) (st : nat * list string) :
  count_all Cli_count outs st = ((st.1 + successes outs)%nat, (st.2 ++ failures outs)%list).
Proof.
  unfold count_all, successes, failures. revert st.
  induction outs as [|[f [r o]] outs IH]; intros [p e]; simpl.
  - by rewrite Nat.add_0_r, app_nil_r.
  - rewrite IH, filter_cons. unfold Cli_count.
    destruct r; case_decide; simpl in *; try done.
    + f_equal. lia.
    + by rewrite <- app_assoc.
Qed.

Lemma bind_get {A B} (f : world → A) (k : A → M B) (w : world) :
  bind (get f) k w = k (f w) w.
Proof. reflexivity. Qed.

Lemma Cli_process_subfolder_loop_body (abs v : bool) (x : path) (st : nat * list string)
    (w : world) :
  Cli.process_subfolder abs v x st w
  = loop_body (Cli_attempt abs v false) Cli_count x st w.
Proof.
  unfold Cli.process_subfolder, loop_body, is_dir. rewrite !bind_get.
  destruct (kind_is_dir (lookup_kind w x)); [|done].
  apply (Cli_attempt_count abs v false x st w).
Qed.

(** The batch of the command-line tool, recursive: the target folder and
    each of its subdirectories is reconciled, whatever the outcomes before
    it, and [processed] and [errors] count the outcomes. *)
Lemma Cli_tally_attempts (folder : path) (abs v : bool) (w : world) :
  kind_is_dir (lookup_kind w folder) = true →
  ∃ r w1 subs outs w',
    Cli_attempt abs v true folder w = (Ret r, w1)
    ∧ subs ≡ₚ subdirs w folder
    ∧ attempt_each (Cli_attempt abs v false) subs w1 = (Ret outs, w')
    ∧ outs.*1 = subs
    ∧ Forall (λ o, o.2.1 ≠ PyNone) ((folder, r) :: outs)
    ∧ Cli.tally folder true abs v w
      = (Ret (successes ((folder, r) :: outs), failures ((folder, r) :: outs)), w').
Proof.
  intros Hdir.
  assert (Hdirs : ∀ main f w0 q,
    kind_is_dir (lookup_kind (Cli_attempt abs v main f w0).2 q) = kind_is_dir (lookup_kind w0 q)).
  { intros main f w0 q. by destruct (Cli_attempt_effect abs v main f w0). }
  destruct (Cli_attempt_returns abs v true folder w) as (r & w1 & Hr & Hn).
  assert (D1 : ∀ q, kind_is_dir (lookup_kind w1 q) = kind_is_dir (lookup_kind w q)).
  { intros q. pose proof (Hdirs true folder w q) as H. by rewrite Hr in H. }
  destruct (for_each_attempts (Cli_attempt abs v false) Cli_count
              (Cli_attempt_returns abs v false) (Hdirs false)
              w1 (children (w_fs w1) folder) (Cli_count folder r (0%nat, [])) w1)
    as (outs & w' & Hrun & Hloop); [done|].
  destruct (attempt_each_returns (Cli_attempt abs v false)
              (Cli_attempt_returns abs v false) (Hdirs false)
              (filter (λ q, kind_is_dir (lookup_kind w1 q) = true) (children (w_fs w1) folder)) w1)
    as (outs' & w'' & Hrun' & Hfst & Hall & _).
  rewrite Hrun in Hrun'. simplify_eq.
  exists r, w1, (subdirs w1 folder), outs', w''.
  split; [done|]. split; [by apply subdirs_same_dirs|]. split; [exact Hrun|].
  split; [exact Hfst|]. split; [by constructor|].
  unfold Cli.tally.
  transitivity ((r0 <- Cli_attempt abs v true folder ;;
                 subfolders <- iterdir folder ;;
                 Cli.for_each subfolders (Cli.process_subfolder abs v)
                   (Cli_count folder r0 (0%nat, []))) w).
  { pose proof (Cli_attempt_count abs v true folder (0%nat, []) w) as H.
    unfold header in H. unfold bind in H |- *.
    destruct (when v (print (nl +:+ "Processing: " +:+ path_str folder)) w) as [[[]|e0] w0].
    - destruct (Cli.process_single_folder folder abs v w0) as [[r0|e0] w2].
      + rewrite H. by destruct (Cli_attempt abs v true folder w) as [[r1|e1] w3].
      + destruct (Cli_attempt abs v true folder w) as [[r1|e1] w3];
          unfold ret in H; by simplify_eq.
    - destruct (Cli_attempt abs v true folder w) as [[r1|e1] w3];
        unfold ret in H; by simplify_eq. }
  unfold bind at 1. rewrite Hr.
  unfold iterdir, bind, is_dir, get. rewrite D1, Hdir.
  rewrite (for_each_ext _ _ (loop_body (Cli_attempt abs v false) Cli_count)).
  - rewrite Hloop, Cli_count_all. f_equal. f_equal.
    unfold successes, failures, Cli_count. simpl.
    rewrite filter_cons. destruct r as [[| |] o]; case_decide; simpl in *; try done.
  - intros x s w0. apply Cli_process_subfolder_loop_body.
Qed.

(** *** The GUI *)

Lemma Gui_psf_dirs (f : path) (w : world) (q : path) :
  kind_is_dir (lookup_kind (Gui.process_single_folder f w).2 q) = kind_is_dir (lookup_kind w q).
Proof. by destruct (Gui_process_single_folder_effect f w). Qed.

Lemma Gui_psf_returns_verdict (f : path) (w : world) :
  ∃ r w', Gui.process_single_folder f w = (Ret r, w') ∧ r.1 ≠ PyNone.
Proof.
  destruct (Gui_psf_returns f w) as (r & o & w' & Hr & Hn). by exists (r, o), w'.
Qed.

Lemma Gui_count_all (outs : list (path * verdict)) (st : Gui.counts) :
  Gui.processed (count_all (Gui.count_result false) outs st)
  = (Gui.processed st + successes outs)%nat
  ∧ Gui.errors (count_all (Gui.count_result false) outs st)
    = (Gui.errors st ++ failures outs)%list.
Proof.
  unfold count_all, successes, failures. revert st.
  induction outs as [|[f [r o]] outs IH]; intros st; simpl.
  - by rewrite Nat.add_0_r, app_nil_r.
  - destruct (IH (Gui.count_result false f (r, o) st)) as [-> ->].
    rewrite filter_cons. unfold Gui.count_result.
    destruct r; case_decide; simpl in *; try done;
      (split; [lia | rewrite <- ?app_assoc; reflexivity]).
Qed.

(** The batch of the GUI with the subfolder box ticked. *)
Lemma Gui_tally_attempts (folder : path) (w : world) :
  kind_is_dir (lookup_kind w folder) = true →
  process_subfolders (w_gui w) = true →
  ∃ r w1 subs outs w' st,
    Gui.process_single_folder folder w = (Ret r, w1)
    ∧ subs ≡ₚ subdirs w folder
    ∧ attempt_each Gui.process_single_folder subs w1 = (Ret outs, w')
    ∧ outs.*1 = subs
    ∧ Forall (λ o, o.2.1 ≠ PyNone) ((folder, r) :: outs)
    ∧ Gui.tally folder w = (Ret st, w')
    ∧ Gui.processed st = successes ((folder, r) :: outs)
    ∧ Gui.errors st = failures ((folder, r) :: outs).
Proof.
  intros Hdir Hsub.
  destruct (Gui_psf_returns_verdict folder w) as (r & w1 & Hr & Hn).
  assert (D1 : ∀ q, kind_is_dir (lookup_kind w1 q) = kind_is_dir (lookup_kind w q)).
  { intros q. pose proof (Gui_psf_dirs folder w q) as H. by rewrite Hr in H. }
  assert (G1 : w_gui w1 = w_gui w).
  { pose proof (eff_gui _ _ _ _ _ (Gui_process_single_folder_effect folder w)) as H.
    by rewrite Hr in H. }
  set (st0 := Gui.count_result true folder r
                {| Gui.processed := 0; Gui.errors := []; Gui.last_ico_path := None |}).
  destruct (for_each_attempts Gui.process_single_folder (Gui.count_result false)
              Gui_psf_returns_verdict Gui_psf_dirs
              w1 (children (w_fs w1) folder) st0 w1)
    as (outs & w' & Hrun & Hloop); [done|].
  destruct (attempt_each_returns Gui.process_single_folder
              Gui_psf_returns_verdict Gui_psf_dirs
              (filter (λ q, kind_is_dir (lookup_kind w1 q) = true) (children (w_fs w1) folder)) w1)
    as (outs' & w'' & Hrun' & Hfst & Hall & _).
  rewrite Hrun in Hrun'. simplify_eq.
  exists r, w1, (subdirs w1 folder), outs', w'', (count_all (Gui.count_result false) outs' st0).
  split; [done|]. split; [by apply subdirs_same_dirs|]. split; [exact Hrun|].
  split; [exact Hfst|]. split; [by constructor|].
  destruct (Gui_count_all outs' st0) as [Hp He]. split; [|split].
  - unfold Gui.tally. unfold bind at 1. rewrite Hr. rewrite bind_get, G1, Hsub.
    unfold iterdir, bind, is_dir, get. rewrite D1, Hdir. exact Hloop.
  - rewrite Hp. unfold st0, successes, Gui.count_result. rewrite filter_cons.
    destruct r as [[| |] o]; case_decide; simpl in *; try done.
  - rewrite He. unfold st0, failures, Gui.count_result.
    destruct r as [[| |] o]; simpl in *; try done.
Qed.

(** C3 as stated fails: the target folder is an item of the batch too.
    Here it succeeds and its one subfolder fails: [N = 1], [K = 1], and
    [processed] is 1, not [N - K = 0]. *)
Lemma C3_counterexample :
  let w := Examples.one_subfolder in
  length (subdirs w Examples.proj) = 1%nat
  ∧ (Cli.tally Examples.proj true false false w).1
    = Ret (1%nat, ["sub: No folder.ico or folder.png found"])
  ∧ (1 ≠ 1 - 1)%nat.
Proof. vm_compute. repeat split; discriminate. Qed.

(** C3, amended.  A batch over a target directory with [N] subdirectories
    reconciles all [N + 1] items, the target first and then every
    subdirectory, whatever the outcomes before; [processed] is the number
    of items that succeeded and [errors] holds one entry [name: reason] for
    each item that failed, in the order of processing: with [K] failures,
    [processed = N + 1 - K].  This holds for the command-line tool run with
    [--recursive] and for the GUI with the subfolder box ticked. *)
Theorem C3_batch_counts (folder : path) (use_absolute_path verbose : bool) (w : world) :
  kind_is_dir (lookup_kind w folder) = true →
  let N := length (subdirs w folder) in
  (∃ r w1 subs outs w',
     Cli_attempt use_absolute_path verbose true folder w = (Ret r, w1)
     ∧ subs ≡ₚ subdirs w folder
     ∧ attempt_each (Cli_attempt use_absolute_path verbose false) subs w1 = (Ret outs, w')
     ∧ outs.*1 = subs
     ∧ let all := (folder, r) :: outs in
       Cli.tally folder true use_absolute_path verbose w
       = (Ret (successes all, failures all), w')
       ∧ length all = S N
       ∧ (successes all + length (failures all))%nat = S N)
  ∧ (process_subfolders (w_gui w) = true →
     ∃ r w1 subs outs w' st,
       Gui.process_single_folder folder w = (Ret r, w1)
       ∧ subs ≡ₚ subdirs w folder
       ∧ attempt_each Gui.process_single_folder subs w1 = (Ret outs, w')
       ∧ outs.*1 = subs
       ∧ let all := (folder, r) :: outs in
         Gui.tally folder w = (Ret st, w')
         ∧ Gui.processed st = successes all
         ∧ Gui.errors st = failures all
         ∧ length all = S N
         ∧ (successes all + length (failures all))%nat = S N).
Proof.
  intros Hdir N. split.
  - destruct (Cli_tally_attempts folder use_absolute_path verbose w Hdir)
      as (r & w1 & subs & outs & w' & Hr & Hperm & Hrun & Hfst & Hall & Htally).
    exists r, w1, subs, outs, w'. repeat (split; [done|]).
    assert (Hlen : length ((folder, r) :: outs) = S N).
    { simpl. f_equal. subst N. rewrite <- Hperm, <- Hfst. by rewrite length_fmap. }
    split; [done|]. by rewrite successes_failures_length.
  - intros Hsub.
    destruct (Gui_tally_attempts folder w Hdir Hsub)
      as (r & w1 & subs & outs & w' & st & Hr & Hperm & Hrun & Hfst & Hall & Htally & Hp & He).
    exists r, w1, subs, outs, w', st. repeat (split; [done|]).
    assert (Hlen : length ((folder, r) :: outs) = S N).
    { simpl. f_equal. subst N. rewrite <- Hperm, <- Hfst. by rewrite length_fmap. }
    split; [done|]. by rewrite successes_failures_length.
Qed.

Lemma C3_batch_counts_witness :
  let w := Examples.one_subfolder in
  ∃ r w1 subs outs w',
    Cli_attempt false false true Examples.proj w = (Ret r, w1)
    ∧ subs ≡ₚ subdirs w Examples.proj
    ∧ attempt_each (Cli_attempt false false false) subs w1 = (Ret outs, w')
    ∧ outs.*1 = subs
    ∧ let all := (Examples.proj, r) :: outs in
      Cli.tally Examples.proj true false false w = (Ret (successes all, failures all), w')
      ∧ length all = S (length (subdirs w Examples.proj))
      ∧ (successes all + length (failures all))%nat = S (length (subdirs w Examples.proj)).
Proof.
  apply (C3_batch_counts Examples.proj false false Examples.one_subfolder).
  vm_compute. reflexivity.
Defined.


(** ** The favicon set *)

(** The base names that [generate_favicon_set] appends to [generated_files],
    in order. *)
Definition FAVICON_SET : list string :=
  "favicon.ico" :: (Gui.png_sizes.*1 ++ ["apple-touch-icon.png"; "manifest.json"; "favicon.html"])%list.

(** [int(s, 16)] succeeds on [s]. *)
Definition is_hex (s : string) : bool :=
  match s with
  | EmptyString => false
  | _ => match Gui.hex_value 0 s with Some _ => true | None => false end
  end.

(** A colour in the form [#rrggbb] of the colour chooser. *)
Definition colour_ok (c : string) : bool :=
  let bg := Gui.lstrip_hash c in
  is_hex (Gui.slice bg 0 2) && is_hex (Gui.slice bg 2 4) && is_hex (Gui.slice bg 4 6).

Lemma int16_ok (s : string) (w : world) :
  is_hex s = true → ∃ z, Gui.int16 s w = (Ret z, w).
Proof.
  unfold is_hex, Gui.int16. destruct s as [|c s]; [done|].
  destruct (Gui.hex_value 0 (String c s)) as [z|]; [|done]. by exists z.
Qed.

Definition apple_background : image :=
  {| im_mode := "RGB"; im_size := (180, 180); im_more := None |}.

Lemma create_apple_touch_icon_ok (img : image) (w : world) :
  colour_ok (bg_color (w_gui w)) = true →
  Gui.create_apple_touch_icon img 180 w = (Ret apple_background, w).
Proof.
  unfold colour_ok. intros [[H1 H2]%andb_prop H3]%andb_prop.
  unfold Gui.create_apple_touch_icon. rewrite bind_get.
  destruct (int16_ok _ w H1) as [r Hr]. destruct (int16_ok _ w H2) as [g Hg].
  destruct (int16_ok _ w H3) as [b Hb].
  unfold bind. by rewrite Hr, Hg, Hb.
Qed.

Lemma writable_frame (w w' : world) (p : path) :
  w_fs w' !! p = w_fs w !! p →
  w_fs w' !! parent p = w_fs w !! parent p →
  writable w' p = writable w p.
Proof. unfold writable, lookup_kind. by intros -> ->. Qed.

Lemma prefixed_ne (out : path) (p a b : string) :
  a ≠ b → out // (p +:+ a) ≠ out // (p +:+ b).
Proof.
  intros Hab H. apply joinpath_inj in H. by apply Hab, (inj (String.app p)).
Qed.

(** The image that is saved: the source, converted when it has no alpha
    channel. *)
Definition with_alpha (im : image) : image :=
  if negb (String.eqb (im_mode im) "RGBA") then convert im "RGBA" else im.

(** The files of the set and what each holds. *)
Definition favicon_files (p : string) (img : image) (theme background : string)
  : list (string * data) :=
  [(p +:+ "favicon.ico", Picture "ICO" (encode img (Some [(16, 16); (32, 32); (48, 48)])));
   (p +:+ "favicon-16x16.png", Picture "PNG" (encode (resize img (16, 16)) None));
   (p +:+ "favicon-32x32.png", Picture "PNG" (encode (resize img (32, 32)) None));
   (p +:+ "android-chrome-192x192.png", Picture "PNG" (encode (resize img (192, 192)) None));
   (p +:+ "android-chrome-512x512.png", Picture "PNG" (encode (resize img (512, 512)) None));
   (p +:+ "apple-touch-icon.png", Picture "PNG" (encode apple_background None));
   (p +:+ "manifest.json", JsonDump 2 (Gui.manifest p theme background));
   (p +:+ "favicon.html", Text (Gui.html_snippet p theme))].

Lemma favicon_files_names (p : string) (img : image) (theme background : string) :
  (favicon_files p img theme background).*1 = String.app p <$> FAVICON_SET.
Proof. reflexivity. Qed.

Definition store (out : path) (m : gmap path node) (f : string * data) : gmap path node :=
  <[out // f.1 := {| n_kind := File f.2; n_attrs := no_attrs |}]> m.

Lemma FAVICON_SET_NoDup : NoDup FAVICON_SET.
Proof. refine (bool_decide_unpack _ _). vm_compute. exact I. Qed.

Lemma prefixed_NoDup (p : string) : NoDup (String.app p <$> FAVICON_SET).
Proof. apply (NoDup_fmap_2 _), FAVICON_SET_NoDup. Qed.

Lemma lookup_store_other (out : path) (l : list (string * data)) (m : gmap path node) (q : path) :
  (∀ f, f ∈ l.*1 → q ≠ out // f) → foldl (store out) m l !! q = m !! q.
Proof.
  revert m. induction l as [|[f d] l IH]; intros m H; [done|]. simpl.
  rewrite IH.
  - unfold store. simpl. rewrite lookup_insert_ne; [done|].
    intros E. apply (H f); [set_solver | done].
  - intros f' Hf'. apply H. set_solver.
Qed.

Lemma lookup_store (out : path) (l : list (string * data)) (m : gmap path node)
    (f : string) (d : data) :
  NoDup l.*1 → (f, d) ∈ l →
  foldl (store out) m l !! (out // f) = Some {| n_kind := File d; n_attrs := no_attrs |}.
Proof.
  revert m. induction l as [|[f' d'] l IH]; intros m Hnd Hin; [by apply elem_of_nil in Hin|].
  simpl in *. apply NoDup_cons in Hnd as [Hf' Hnd].
  apply elem_of_cons in Hin as [E|Hin].
  - simplify_eq. rewrite lookup_store_other.
    + unfold store. simpl. by rewrite lookup_insert_eq.
    + intros f Hf E. apply joinpath_inj in E. by subst.
  - by apply IH.
Qed.

Lemma writable_store (out : path) (l : list (string * data)) (w w' : world) (f : string) :
  w_fs w' = foldl (store out) (w_fs w) l →
  f ∉ l.*1 →
  writable w' (out // f) = writable w (out // f).
Proof.
  intros Hfs Hf. apply writable_frame; rewrite Hfs, lookup_store_other; try done.
  - intros f' Hf' E. apply joinpath_inj in E. by subst.
  - intros f' _. rewrite parent_joinpath. intros E. by apply (joinpath_ne_self out f').
Qed.

Ltac in_favicon_set :=
  unfold FAVICON_SET; cbn [Gui.png_sizes fmap list_fmap fst app];
  rewrite !elem_of_cons; tauto.

Ltac favicon_writable :=
  lazymatch goal with
  | free : ∀ base, base ∈ FAVICON_SET → writable ?w _ = true |- writable _ _ = true =>
      etrans; [apply (writable_frame w) | apply free; in_favicon_set];
      cbn [w_fs put set_fs log_call log_ui set_gui];
      rewrite ?parent_joinpath, ?lookup_insert_ne; try done;
      first [apply prefixed_ne; discriminate | apply joinpath_ne_self]
  end.

Section FaviconSet.

Context (w : world) (source out : path) (im : image).

Local Abbreviation p := (Gui.strip (prefix_entry (w_gui w))).
Local Abbreviation img := (with_alpha im).
Local Abbreviation theme := (theme_color (w_gui w)).
Local Abbreviation background := (manifest_bg_color (w_gui w)).

Hypothesis pillow : w_pillow w = true.
Hypothesis readable : image_at w source = Some im.
Hypothesis colour : colour_ok (bg_color (w_gui w)) = true.
Hypothesis free : ∀ base, base ∈ FAVICON_SET → writable w (out // (p +:+ base)) = true.

(** The run of the [try] block when nothing fails. *)
Lemma write_favicon_set_run :
  ∃ w',
    Gui.write_favicon_set source out w = (Ret (String.app p <$> FAVICON_SET), w')
    ∧ w_fs w' = foldl (store out) (w_fs w) (favicon_files p img theme background)
    ∧ w_calls w'
      = (w_calls w
         ++ [Image_open_call source;
             Image_save_call (out // (p +:+ "favicon.ico")) "ICO" (Some [(16, 16); (32, 32); (48, 48)]);
             Image_save_call (out // (p +:+ "favicon-16x16.png")) "PNG" None;
             Image_save_call (out // (p +:+ "favicon-32x32.png")) "PNG" None;
             Image_save_call (out // (p +:+ "android-chrome-192x192.png")) "PNG" None;
             Image_save_call (out // (p +:+ "android-chrome-512x512.png")) "PNG" None;
             Image_save_call (out // (p +:+ "apple-touch-icon.png")) "PNG" None])%list
    ∧ w_ui w' = (w_ui w ++ [config "favicon_status" "Generating..." "blue"])%list
    ∧ w_gui w' = Gui.set_last_html_snippet (Gui.html_snippet p theme) (w_gui w).
Proof.
  cbv beta iota zeta delta [Gui.write_favicon_set bind get modify ret Cli.for_each
    Gui.png_sizes Gui.save_png fst snd].
  rewrite (Image_open_ok _ im) by done.
  cbn [w_gui log_ui log_call]. fold img.
  repeat (rewrite Image_save_ok; [cbv beta iota | favicon_writable]).
  rewrite create_apple_touch_icon_ok by exact colour. cbv beta iota.
  rewrite Image_save_ok; [cbv beta iota | favicon_writable].
  rewrite write_file_ok; [cbv beta iota | favicon_writable].
  rewrite write_file_ok; [cbv beta iota | favicon_writable].
  eexists. split; [reflexivity|]. cbn [w_fs w_calls w_ui w_gui put set_fs log_call log_ui set_gui].
  split; [reflexivity|]. split; [by rewrite <- !app_assoc|]. done.
Qed.

Hypothesis selected : selected_file (w_gui w) = Some source.

(** [generate_favicon_set] when the dialog answers [out] and nothing fails. *)
Lemma generate_favicon_set_run :
  ∃ w',
    Gui.generate_favicon_set (Some out) w = (Ret tt, w')
    ∧ w_fs w' = foldl (store out) (w_fs w) (favicon_files p img theme background)
    ∧ w_ui w'
      = (w_ui w
         ++ [config "favicon_status" "Generating..." "blue";
             config "favicon_status" "Generated 8 files!" "green";
             pack "copy_html_btn";
             messagebox "info" "Success"
               ("Favicon set generated in:" +:+ nl +:+ path_str out +:+ nl +:+ nl
                +:+ "Files created:" +:+ nl
                +:+ join nl ((λ f, "  â€¢ " +:+ f) <$> (String.app p <$> FAVICON_SET)))])%list
    ∧ prefix_entry (w_gui w') = prefix_entry (w_gui w).
Proof.
  destruct write_favicon_set_run as (w1 & Hrun & Hfs & Hcalls & Hui & Hgui).
  unfold Gui.generate_favicon_set. rewrite bind_get, pillow. cbn [negb].
  rewrite bind_get, selected.
  unfold try_except, bind at 1. rewrite Hrun.
  cbv beta iota zeta delta [bind modify].
  eexists. split; [reflexivity|].
  cbn [w_fs w_ui w_gui log_ui]. rewrite Hfs, Hui, Hgui. split; [done|].
  split; [|done]. by rewrite <- !app_assoc.
Qed.

End FaviconSet.

(** *** Reading the manifest back *)

(** [j[k]] on a dictionary. *)
Definition json_key (k : string) (j : json) : option json :=
  match j with
  | JDict l => snd <$> find (λ kv, String.eqb kv.1 k) l
  | _ => None
  end.

(** [j[i]] on a list. *)
Definition json_index (i : nat) (j : json) : option json :=
  match j with
  | JList l => l !! i
  | _ => None
  end.

(** [j["icons"][0]["src"]] *)
Definition icons_0_src (j : json) : option json :=
  match json_key "icons" j with
  | Some icons =>
      match json_index 0 icons with
      | Some icon => json_key "src" icon
      | None => None
      end
  | None => None
  end.

Lemma manifest_icons_0_src (p theme background : string) :
  icons_0_src (Gui.manifest p theme background)
  = Some (JStr ("/" +:+ p +:+ "android-chrome-192x192.png")).
Proof. reflexivity. Qed.

Lemma prefix_app (p s : string) : String.prefix p (p +:+ s) = true.
Proof.
  induction p as [|c p IH]; simpl; [by destruct s|].
  destruct (ascii_dec c c); [exact IH | done].
Qed.

Lemma has_char_app (c : ascii) (a b : string) :
  has_char c (a +:+ b) = has_char c a || has_char c b.
Proof.
  unfold has_char. induction a as [|x a IH]; simpl; [done|].
  by rewrite IH, orb_assoc.
Qed.

Lemma is_anchor_app (a b : string) :
  is_anchor a = false → is_anchor b = false → is_anchor (a +:+ b) = false.
Proof.
  unfold is_anchor. rewrite !has_char_app.
  intros [[-> ->]%orb_false_elim ->]%orb_false_elim [[-> ->]%orb_false_elim ->]%orb_false_elim.
  reflexivity.
Qed.

Lemma FAVICON_SET_plain : Forall (λ base, is_anchor base = false) FAVICON_SET.
Proof. repeat constructor. Qed.

Module Favicons.
Import Examples.

Definition logo : path := ["C:\"; "logo.png"].
Definition site : path := ["C:\"; "site"].

(** The window after [logo] is chosen, with [text] in the prefix entry. *)
Definition chosen (text : string) (g : gui) : gui :=
  {| bg_color := bg_color g; theme_color := theme_color g;
     manifest_bg_color := manifest_bg_color g; selected_file := Some logo;
     prefix_entry := text; prefix_insert := Gui.py_len text;
     process_subfolders := process_subfolders g;
     last_html_snippet := last_html_snippet g |}.

(** A 64x64 [C:\logo.png] and an empty directory [C:\site]. *)
Definition studio (text : string) : world :=
  set_gui (chosen text)
    (machine [(["C:\"], plain Dir); (site, plain Dir);
              (logo, plain (File (Picture "PNG" png64)))]).

End Favicons.

(** C2 as stated fails: the set has 8 files, not 9.  From a 64x64 source
    with prefix [site-] the run succeeds, announces 8 files, and the output
    directory, empty before, holds 8 entries after. *)
Lemma C2_counterexample :
  let w := Favicons.studio "site-" in
  let run := Gui.generate_favicon_set (Some Favicons.site) w in
  run.1 = Ret tt
  ∧ children (w_fs w) Favicons.site = []
  ∧ length (children (w_fs run.2) Favicons.site) = 8%nat
  ∧ length (children (w_fs run.2) Favicons.site) ≠ 9%nat
  ∧ w_ui run.2 !! 1%nat = Some (config "favicon_status" "Generated 8 files!" "green").
Proof. repeat split; vm_compute; done. Qed.

(** C2, amended.  With Pillow, a selected source that opens as an image, a
    background colour [#rrggbb], and the eight target paths writable,
    [generate_favicon_set] writes exactly 8 files into the chosen
    directory: each is a direct child of it, its name begins with the
    prefix [p], the text of the prefix entry stripped of surrounding blanks
    (taken free of path separators), no other path changes, and the
    manifest read back has [icons[0].src = "/" + p +
    "android-chrome-192x192.png"]. *)
Theorem C2_favicon_set (w : world) (source out : path) (im : image) :
  let p := Gui.strip (prefix_entry (w_gui w)) in
  w_pillow w = true →
  selected_file (w_gui w) = Some source →
  image_at w source = Some im →
  colour_ok (bg_color (w_gui w)) = true →
  is_anchor p = false →
  (∀ base, base ∈ FAVICON_SET → writable w (out // (p +:+ base)) = true) →
  ∃ w' files,
    Gui.generate_favicon_set (Some out) w = (Ret tt, w')
    ∧ files.*1 = String.app p <$> FAVICON_SET
    ∧ length files = 8%nat
    ∧ NoDup files.*1
    ∧ (∀ f d, (f, d) ∈ files →
         w_fs w' !! (out // f) = Some {| n_kind := File d; n_attrs := no_attrs |}
         ∧ parent (out // f) = out
         ∧ name (out // f) = f
         ∧ String.prefix p f = true)
    ∧ (∀ q, (∀ f, f ∈ files.*1 → q ≠ out // f) → w_fs w' !! q = w_fs w !! q)
    ∧ (∃ j, (p +:+ "manifest.json", JsonDump 2 j) ∈ files
            ∧ icons_0_src j = Some (JStr ("/" +:+ p +:+ "android-chrome-192x192.png")))
    ∧ config "favicon_status" "Generated 8 files!" "green" ∈ w_ui w'.
Proof.
  intros p Hpillow Hsel Him Hcol Hp Hfree.
  destruct (generate_favicon_set_run w source out im Hpillow Him Hcol Hfree Hsel)
    as (w' & Hrun & Hfs & Hui & _).
  set (files := favicon_files p (with_alpha im) (theme_color (w_gui w))
                  (manifest_bg_color (w_gui w))) in *.
  assert (Hnames : files.*1 = String.app p <$> FAVICON_SET) by reflexivity.
  assert (Hnd : NoDup files.*1) by (rewrite Hnames; apply prefixed_NoDup).
  exists w', files. split; [exact Hrun|]. split; [exact Hnames|].
  split; [reflexivity|]. split; [exact Hnd|]. split; [|split; [|split]].
  - intros f d Hin.
    assert (Hf : f ∈ String.app p <$> FAVICON_SET).
    { rewrite <- Hnames. by apply (list_elem_of_fmap_2' fst files (f, d)). }
    apply list_elem_of_fmap in Hf as (base & Hf & Hbase).
    split; [|split; [|split]].
    + rewrite Hfs. by apply lookup_store.
    + apply parent_joinpath.
    + rewrite Hf. apply name_joinpath, is_anchor_app; [exact Hp|].
      by apply (proj1 (Forall_forall _ _) FAVICON_SET_plain).
    + rewrite Hf. apply prefix_app.
  - intros q Hq. rewrite Hfs. by apply lookup_store_other.
  - exists (Gui.manifest p (theme_color (w_gui w)) (manifest_bg_color (w_gui w))).
    split; [|apply manifest_icons_0_src].
    unfold files, favicon_files. rewrite !elem_of_cons. tauto.
  - rewrite Hui. rewrite elem_of_app, !elem_of_cons. tauto.
Qed.

Lemma C2_favicon_set_witness :
  let w := Favicons.studio "site-" in
  ∃ w' files,
    Gui.generate_favicon_set (Some Favicons.site) w = (Ret tt, w')
    ∧ files.*1 = String.app "site-" <$> FAVICON_SET
    ∧ length files = 8%nat
    ∧ NoDup files.*1
    ∧ (∀ f d, (f, d) ∈ files →
         w_fs w' !! (Favicons.site // f) = Some {| n_kind := File d; n_attrs := no_attrs |}
         ∧ parent (Favicons.site // f) = Favicons.site
         ∧ name (Favicons.site // f) = f
         ∧ String.prefix "site-" f = true)
    ∧ (∀ q, (∀ f, f ∈ files.*1 → q ≠ Favicons.site // f) → w_fs w' !! q = w_fs w !! q)
    ∧ (∃ j, ("site-manifest.json", JsonDump 2 j) ∈ files
            ∧ icons_0_src j = Some (JStr "/site-android-chrome-192x192.png"))
    ∧ config "favicon_status" "Generated 8 files!" "green" ∈ w_ui w'.
Proof.
  apply (C2_favicon_set (Favicons.studio "site-") Favicons.logo Favicons.site Examples.png64).
  - reflexivity.
  - reflexivity.
  - vm_compute. reflexivity.
  - vm_compute. reflexivity.
  - vm_compute. reflexivity.
  - refine (proj1 (Forall_forall _ _) _).
    refine (bool_decide_unpack _ _). vm_compute. exact I.
Defined.

(** ** The prefix *)

(** The substitution keeps exactly the characters of the class
    [a-zA-Z0-9-_], in order. *)
Lemma re_sub_invalid_chars (s : string) :
  list_ascii_of_string (Gui.re_sub_invalid s)
  = filter (λ c, Gui.prefix_char_ok c = true) (list_ascii_of_string s).
Proof. unfold Gui.re_sub_invalid. apply list_ascii_of_string_of_list_ascii. Qed.

(** X1.  The handler of [<KeyRelease>] always returns and leaves in the
    entry its text without the characters outside [a-zA-Z0-9-_]; it touches
    no file and not the selected source. *)
Lemma validate_prefix_filters (w : world) :
  ∃ w',
    Gui.validate_prefix w = (Ret tt, w')
    ∧ prefix_entry (w_gui w') = Gui.re_sub_invalid (prefix_entry (w_gui w))
    ∧ w_fs w' = w_fs w
    ∧ selected_file (w_gui w') = selected_file (w_gui w).
Proof.
  unfold Gui.validate_prefix. rewrite bind_get.
  destruct (String.eqb_spec (prefix_entry (w_gui w))
              (Gui.re_sub_invalid (prefix_entry (w_gui w)))) as [E|E]; cbn [negb].
  - exists w. by rewrite <- E.
  - eexists. split; [reflexivity|]. done.
Qed.

(** C8 fails on the code: [generate_favicon_set] takes the text of the
    prefix entry as it is (stripped of blanks only), and the filter runs in
    the [<KeyRelease>] handler of the entry alone.  With [My Site!] in the
    entry and no key released since, the files are named [My Site!...]; the
    filtered name [MySite...] is used only once the handler has run. *)
Theorem C8_prefix_used_unfiltered :
  let w := Favicons.studio "My Site!" in
  let run := Gui.generate_favicon_set (Some Favicons.site) w in
  let after_key := (Gui.validate_prefix ;; Gui.generate_favicon_set (Some Favicons.site)) w in
  Gui.re_sub_invalid (prefix_entry (w_gui w)) = "MySite"
  ∧ (run.1 = Ret tt
     ∧ is_Some (w_fs run.2 !! (Favicons.site // "My Site!favicon.ico"))
     ∧ w_fs run.2 !! (Favicons.site // "MySitefavicon.ico") = None
     ∧ prefix_entry (w_gui run.2) = "My Site!")
  ∧ (after_key.1 = Ret tt
     ∧ is_Some (w_fs after_key.2 !! (Favicons.site // "MySitefavicon.ico"))
     ∧ w_fs after_key.2 !! (Favicons.site // "My Site!favicon.ico") = None).
Proof. repeat split; vm_compute; eauto. Qed.


(** ** Further properties of the command-line tool *)

(** X2.  [set_folder_icon] never raises and never returns [None]: its
    [try] block turns every failure into a message. *)
Theorem set_folder_icon_total (folder_path ico_path : path) (use_absolute_path : bool)
    (w : world) :
  ∃ r w',
    Cli.set_folder_icon folder_path ico_path use_absolute_path w = (Ret r, w')
    ∧ (r = PyTrue ∨ ∃ msg, r = PyStr msg).
Proof.
  destruct (set_folder_icon_run folder_path ico_path use_absolute_path w)
    as (r & w' & Hrun & Hr & _).
  exists r, w'. split; [exact Hrun|]. destruct r; eauto. done.
Qed.

(** X3.  Away from Windows [apply_folder_icon] prints its error to the
    standard error and returns [False]; it reads no folder and writes
    nothing. *)
Theorem apply_folder_icon_needs_windows (folder : path)
    (recursive use_absolute_path verbose : bool) (w : world) :
  w_platform w ≠ "win32" →
  Cli.apply_folder_icon folder recursive use_absolute_path verbose w
  = (Ret false, log_stderr "Error: This tool only works on Windows." w).
Proof.
  intros H. unfold Cli.apply_folder_icon. rewrite bind_get.
  destruct (String.eqb_spec (w_platform w) "win32") as [E|E]; [done|]. reflexivity.
Qed.

Definition on_linux (w : world) : world :=
  {| w_fs := w_fs w; w_pillow := w_pillow w; w_platform := "linux";
     w_attrib := w_attrib w; w_resolve := w_resolve w; w_calls := w_calls w;
     w_stdout := w_stdout w; w_stderr := w_stderr w; w_ui := w_ui w;
     w_gui := w_gui w |}.

Lemma apply_folder_icon_needs_windows_witness :
  Cli.apply_folder_icon Examples.proj true false false (on_linux Examples.complete_icon)
  = (Ret false,
     log_stderr "Error: This tool only works on Windows." (on_linux Examples.complete_icon)).
Proof.
  apply (apply_folder_icon_needs_windows Examples.proj true false false
           (on_linux Examples.complete_icon)).
  vm_compute. discriminate.
Defined.

Lemma for_each_print (l : list string) (f : string → string) (w : world) :
  ∃ w', Cli.for_each l (λ error _, print (f error)) tt w = (Ret tt, w')
        ∧ w_fs w' = w_fs w ∧ w_stderr w' = w_stderr w.
Proof.
  revert w. induction l as [|x l IH]; intros w; simpl; [by exists w|].
  destruct (IH (log_stdout (f x) w)) as (w' & Hrun & ? & ?).
  exists w'. split; [|done]. unfold bind at 1. exact Hrun.
Qed.

(** The run of the summary. *)
Lemma Cli_summary_run (processed : nat) (errors : list string) (w : world) :
  ∃ w',
    Cli.summary (processed, errors) w
    = (Ret (bool_decide (0 < processed)%nat && bool_decide (errors = [])), w')
    ∧ w_fs w' = w_fs w.
Proof.
  unfold Cli.summary. unfold bind at 1, print at 1, modify.
  destruct processed as [|n]; simpl.
  - destruct errors as [|e errors]; eexists; (split; [reflexivity|done]).
  - destruct errors as [|e errors].
    + eexists; (split; [reflexivity|done]).
    + rewrite bool_decide_eq_false_2 by done. cbn [andb].
      unfold bind, print at 1, modify.
      destruct (for_each_print (take 5 (e :: errors)) (λ error, "  • " +:+ error)
                  (log_stdout
                     ("⚠ Set icon for " +:+ pretty (S n) +:+ " folder(s), but "
                      +:+ pretty (length (e :: errors)) +:+ " failed:")
                     (log_stdout "" w))) as (w' & Hrun & Hfs & _).
      rewrite Hrun. unfold when.
      destruct (5 <? length (e :: errors))%nat; eexists; (split; [reflexivity|]);
        cbn [w_fs log_stdout]; by rewrite Hfs.
Qed.

(** The world after [lines] went to the standard output. *)
Definition printed (lines : list string) (w : world) : world :=
  {| w_fs := w_fs w; w_pillow := w_pillow w; w_platform := w_platform w;
     w_attrib := w_attrib w; w_resolve := w_resolve w; w_calls := w_calls w;
     w_stdout := (w_stdout w ++ lines)%list; w_stderr := w_stderr w; w_ui := w_ui w;
     w_gui := w_gui w |}.

Lemma printed_nil (w : world) : printed [] w = w.
Proof. destruct w. unfold printed. simpl. by rewrite app_nil_r. Qed.

Lemma printed_printed (l1 l2 : list string) (w : world) :
  printed l2 (printed l1 w) = printed (l1 ++ l2) w.
Proof. unfold printed. simpl. by rewrite app_assoc. Qed.

Lemma print_printed (s : string) (w : world) : print s w = (Ret tt, printed [s] w).
Proof. reflexivity. Qed.

Lemma for_each_printed (l : list string) (f : string → string) (w : world) :
  Cli.for_each l (λ error _, print (f error)) tt w = (Ret tt, printed (f <$> l) w).
Proof.
  revert w. induction l as [|x l IH]; intros w; simpl; [by rewrite printed_nil|].
  unfold bind at 1. rewrite print_printed.
  by rewrite IH, printed_printed.
Qed.

Ltac printing :=
  repeat first
    [ rewrite print_printed
    | rewrite for_each_printed
    | rewrite printed_printed
    | progress (unfold bind at 1)
    | progress (cbn beta iota) ].

(** X4.  The summary of a batch: [apply_folder_icon] reports success
    exactly when at least one folder was processed and none failed; the
    summary only prints: it leaves the world as it was but for the lines,
    an empty one first, that it adds to the standard output. *)
Theorem summary_verdict (processed : nat) (errors : list string) (w : world) :
  ∃ lines,
    Cli.summary (processed, errors) w
    = (Ret (bool_decide (0 < processed)%nat && bool_decide (errors = [])),
       printed ("" :: lines) w).
Proof.
  unfold Cli.summary.
  destruct processed as [|n]; [|destruct errors as [|e errors]].
  - change (0 <? 0)%nat with false. cbn [andb].
    rewrite (bool_decide_eq_false_2 (0 < 0)%nat) by lia. cbn [andb].
    destruct errors as [|e errors]; printing; unfold ret; simpl; eexists; reflexivity.
  - change (0 <? S n)%nat with true. rewrite bool_decide_eq_true_2 by done. cbn [andb].
    rewrite bool_decide_eq_true_2 by lia. cbn [andb].
    printing. unfold ret; simpl. eexists; reflexivity.
  - change (0 <? S n)%nat with true. rewrite (bool_decide_eq_false_2 (e :: errors = [])) by done.
    cbn [andb]. rewrite andb_false_r.
    unfold when. destruct (5 <? length (e :: errors))%nat;
      printing; unfold ret; simpl; eexists; reflexivity.
Qed.


(** ** The whole run of the command-line tool *)

(** Without [--recursive] the batch is the target folder alone. *)
Lemma Cli_tally_single (folder : path) (abs v : bool) (w : world) :
  ∃ r w1,
    Cli_attempt abs v true folder w = (Ret r, w1)
    ∧ r.1 ≠ PyNone
    ∧ Cli.tally folder false abs v w
      = (Ret (successes [(folder, r)], failures [(folder, r)]), w1).
Proof.
  destruct (Cli_attempt_returns abs v true folder w) as (r & w1 & Hr & Hn).
  exists r, w1. split; [exact Hr|]. split; [exact Hn|].
  pose proof (Cli_attempt_count abs v true folder (0%nat, []) w) as H.
  unfold Cli.tally. unfold header in H. unfold bind in H |- *. rewrite Hr in H.
  destruct (when v (print (nl +:+ "Processing: " +:+ path_str folder)) w) as [[[]|e0] w0];
    [|done].
  destruct (Cli.process_single_folder folder abs v w0) as [[r0|e0] w2]; [|done].
  rewrite H. unfold ret, successes, failures, Cli_count. rewrite filter_cons.
  destruct r as [[| |] o]; case_decide; simpl in *; done.
Qed.

(** The items of a batch all succeeded. *)
Definition all_True (outs : list (path * verdict)) : bool :=
  forallb (λ o, is_True o.2.1) outs.

Lemma all_True_counts (outs : list (path * verdict)) :
  Forall (λ o, o.2.1 ≠ PyNone) outs → outs ≠ [] →
  bool_decide (0 < successes outs)%nat && bool_decide (failures outs = [])
  = all_True outs.
Proof.
  intros Hall Hne. unfold all_True.
  assert (Hf : bool_decide (failures outs = []) = forallb (λ o, is_True o.2.1) outs).
  { clear Hne. unfold failures.
    induction Hall as [|[f [r o]] outs Hr _ IH]; [done|]. simpl in *.
    destruct r; simpl in *; [exact IH | reflexivity | done]. }
  rewrite Hf. destruct (forallb (λ o, is_True o.2.1) outs) eqn:E; [|by rewrite andb_false_r].
  rewrite andb_true_r. apply bool_decide_eq_true_2.
  destruct outs as [|[f [r o]] outs]; [done|]. unfold successes. rewrite filter_cons.
  simpl in E. apply andb_prop in E as [E _]. simpl. rewrite decide_True by done. simpl. lia.
Qed.

(** X5.  On Windows, with Pillow and a directory as target,
    [apply_folder_icon] reconciles the target and, with [--recursive], each
    of its immediate subdirectories, and returns [True] exactly when every
    one of them succeeded: one failure among them makes it [False]. *)
Theorem apply_folder_icon_verdict (folder : path) (recursive use_absolute_path verbose : bool)
    (w : world) :
  w_platform w = "win32" →
  w_pillow w = true →
  kind_is_dir (lookup_kind w folder) = true →
  ∃ r w1 subs outs w2 w',
    Cli_attempt use_absolute_path verbose true folder w = (Ret r, w1)
    ∧ subs ≡ₚ (if recursive then subdirs w folder else [])
    ∧ attempt_each (Cli_attempt use_absolute_path verbose false) subs w1 = (Ret outs, w2)
    ∧ outs.*1 = subs
    ∧ Cli.apply_folder_icon folder recursive use_absolute_path verbose w
      = (Ret (all_True ((folder, r) :: outs)), w')
    ∧ w_fs w' = w_fs w2.
Proof.
  intros Hwin Hp Hdir.
  assert (Hex : bool_decide (is_Some (w_fs w !! folder)) = true).
  { apply bool_decide_eq_true_2. unfold lookup_kind in Hdir.
    destruct (w_fs w !! folder); [by eexists | done]. }
  assert (Htally : ∃ r w1 subs outs w2,
    Cli_attempt use_absolute_path verbose true folder w = (Ret r, w1)
    ∧ subs ≡ₚ (if recursive then subdirs w folder else [])
    ∧ attempt_each (Cli_attempt use_absolute_path verbose false) subs w1 = (Ret outs, w2)
    ∧ outs.*1 = subs
    ∧ Forall (λ o, o.2.1 ≠ PyNone) ((folder, r) :: outs)
    ∧ Cli.tally folder recursive use_absolute_path verbose w
      = (Ret (successes ((folder, r) :: outs), failures ((folder, r) :: outs)), w2)).
  { destruct recursive.
    - destruct (Cli_tally_attempts folder use_absolute_path verbose w Hdir)
        as (r & w1 & subs & outs & w2 & H). by exists r, w1, subs, outs, w2.
    - destruct (Cli_tally_single folder use_absolute_path verbose w) as (r & w1 & Hr & Hn & Ht).
      exists r, w1, [], [], w1. repeat (split; [done|]). split; [by constructor | done]. }
  destruct Htally as (r & w1 & subs & outs & w2 & Hr & Hperm & Hrun & Hfst & Hall & Ht).
  destruct (Cli_summary_run (successes ((folder, r) :: outs)) (failures ((folder, r) :: outs)) w2)
    as (w' & Hs & Hfs).
  exists r, w1, subs, outs, w2, w'. repeat (split; [done|]). split; [|exact Hfs].
  unfold Cli.apply_folder_icon. rewrite bind_get, Hwin.
  change ("win32" =? "win32")%string with true. cbn [negb]. rewrite bind_get, Hp. cbn [negb].
  unfold path_exists. rewrite bind_get, Hex. cbn [negb].
  unfold is_dir. rewrite bind_get, Hdir. cbn [negb].
  unfold bind at 1. rewrite Ht, Hs. by rewrite all_True_counts.
Qed.

Lemma apply_folder_icon_verdict_witness :
  ∃ r w1 subs outs w2 w',
    Cli_attempt false false true Examples.proj Examples.one_subfolder = (Ret r, w1)
    ∧ subs ≡ₚ subdirs Examples.one_subfolder Examples.proj
    ∧ attempt_each (Cli_attempt false false false) subs w1 = (Ret outs, w2)
    ∧ outs.*1 = subs
    ∧ Cli.apply_folder_icon Examples.proj true false false Examples.one_subfolder
      = (Ret (all_True ((Examples.proj, r) :: outs)), w')
    ∧ w_fs w' = w_fs w2.
Proof.
  apply (apply_folder_icon_verdict Examples.proj true false false Examples.one_subfolder);
    reflexivity.
Defined.

(** *** What a batch can reach *)

Lemma preserves_bind_ret (P : world → world → Prop) `{!PreOrder P} {A B}
    (m : M A) (k : A → M B) (Q : A → Prop) :
  preserves P m →
  (∀ w a w', m w = (Ret a, w') → Q a) →
  (∀ a, Q a → preserves P (k a)) →
  preserves P (bind m k).
Proof.
  intros Hm HQ Hk w. unfold bind. specialize (Hm w). specialize (HQ w).
  destruct (m w) as [[a|e] w1]; simpl in *; [|done].
  etransitivity; [exact Hm | by apply Hk, (HQ a w1)].
Qed.

Lemma preserves_for_each_Forall (P : world → world → Prop) `{!PreOrder P} {A S}
    (l : list A) (body : A → S → M S) (st : S) :
  Forall (λ x, ∀ s, preserves P (body x s)) l → preserves P (Cli.for_each l body st).
Proof.
  intros Hl. revert st. induction Hl as [|x l Hx _ IH]; intros st; simpl.
  - by apply preserves_ret.
  - apply preserves_bind; [done | apply Hx | intros s; apply IH].
Qed.

Lemma iterdir_children (folder : path) (w w' : world) (l : list path) :
  iterdir folder w = (Ret l, w') → Forall (λ x, x ≠ [] ∧ parent x = folder) l.
Proof.
  unfold iterdir, is_dir. rewrite bind_get.
  destruct (kind_is_dir (lookup_kind w folder)); [|done].
  unfold get. intros [= <- _]. apply Forall_forall. intros x Hx.
  unfold children in Hx. by apply list_elem_of_filter in Hx as [Hx _].
Qed.

(** The folders a batch started in [w] works on: the target and, when
    asked for, the directories directly in it. *)
Definition batch_item (w : world) (folder : path) (recursive : bool) (d : path) : Prop :=
  d = folder
  ∨ (recursive = true ∧ d ≠ [] ∧ parent d = folder ∧ kind_is_dir (lookup_kind w d) = true).

(** From [w] to [w'] only the items of the batch changed: their
    attributes, their [desktop.ini] and their [folder.ico]. *)
Definition batch_effect (folder : path) (recursive : bool) (w w' : world) : Prop :=
  effect (λ q, ∃ d, batch_item w folder recursive d
                    ∧ (q = d // "desktop.ini" ∨ q = d // "folder.ico"))
         (λ q, batch_item w folder recursive q) (λ _, True) w w'.

Lemma batch_item_dirs (folder : path) (recursive : bool) (w w' : world) (d : path) :
  (∀ q, kind_is_dir (lookup_kind w' q) = kind_is_dir (lookup_kind w q)) →
  batch_item w' folder recursive d → batch_item w folder recursive d.
Proof. intros Hd [->|(? & ? & ? & H)]; [by left | right]. by rewrite <- Hd. Qed.

#[global] Instance batch_effect_preorder folder recursive :
  PreOrder (batch_effect folder recursive).
Proof.
  split.
  - intros w. unfold batch_effect. reflexivity.
  - intros w1 w2 w3 H12 H23. unfold batch_effect in *.
    etransitivity; [exact H12|].
    eapply effect_mono; [| | |exact H23].
    + intros q (d & Hd & Hq). exists d. split; [|done].
      eapply batch_item_dirs; [|exact Hd]. apply (eff_dirs _ _ _ _ _ H12).
    + intros q Hq. right. eapply batch_item_dirs; [|exact Hq].
      apply (eff_dirs _ _ _ _ _ H12).
    + done.
Qed.

(** A computation that changes no file and no attribute. *)
Lemma batch_effect_quiet folder recursive {A} (m : M A) :
  (∀ W F, preserves (effect W F (λ _, True)) m) → preserves (batch_effect folder recursive) m.
Proof. intros H w. apply H. Qed.

Lemma batch_effect_item folder recursive abs v (d : path) (w : world) :
  batch_item w folder recursive d →
  batch_effect folder recursive w (Cli.process_single_folder d abs v w).2.
Proof.
  intros Hd. unfold batch_effect.
  eapply effect_mono; [| | |apply (Cli_process_single_folder_effect d abs v)].
  - intros q Hq. by exists d.
  - intros q ->. by right.
  - done.
Qed.

Lemma Cli_count_result_quiet folder recursive f r v st :
  preserves (batch_effect folder recursive) (Cli.count_result f r v st).
Proof.
  apply batch_effect_quiet. intros W F.
  unfold Cli.count_result. destruct st, r; effect_tac.
Qed.

Lemma Cli_tally_effect (folder : path) (recursive abs v : bool) :
  preserves (batch_effect folder recursive) (Cli.tally folder recursive abs v).
Proof.
  unfold Cli.tally.
  apply preserves_bind; [apply _| |intros _].
  { apply batch_effect_quiet. intros W F. effect_tac. }
  apply preserves_bind; [apply _| |intros r].
  { intros w. apply batch_effect_item. by left. }
  apply preserves_bind; [apply _|apply Cli_count_result_quiet|intros st].
  destruct recursive eqn:Hrec; [|papply preserves_ret].
  eapply (preserves_bind_ret _ _ _ (Forall (λ x, x ≠ [] ∧ parent x = folder))).
  - apply batch_effect_quiet. intros W F. unfold iterdir. effect_tac.
  - intros w l w'. apply iterdir_children.
  - intros l Hl. apply preserves_for_each_Forall; [apply _|].
    eapply Forall_impl; [exact Hl|]. intros x [Hx Hp] s w. simpl.
    unfold Cli.process_subfolder, is_dir. rewrite bind_get.
    destruct (kind_is_dir (lookup_kind w x)) eqn:Hd; [|reflexivity].
    revert w Hd.
    change (∀ w, kind_is_dir (lookup_kind w x) = true →
      batch_effect folder true w
        ((when v (print (nl +:+ "Processing subfolder: " +:+ name x)) ;;
          r <- Cli.process_single_folder x abs v ;;
          Cli.count_result x r.1 v s) w).2).
    intros w Hd. unfold bind at 1.
    destruct (when v (print (nl +:+ "Processing subfolder: " +:+ name x)) w)
      as [[[]|e] w0] eqn:Hw.
    2: { by destruct v. }
    assert (H0 : batch_effect folder true w w0).
    { pose proof (batch_effect_quiet folder true
        (when v (print (nl +:+ "Processing subfolder: " +:+ name x)))) as H.
      specialize (H ltac:(intros W F; effect_tac) w). by rewrite Hw in H. }
    etransitivity; [exact H0|].
    assert (Hd0 : kind_is_dir (lookup_kind w0 x) = true).
    { by rewrite (eff_dirs _ _ _ _ _ H0). }
    revert w0 Hd0 Hw H0. intros w0 Hd0 _ _.
    unfold bind.
    pose proof (batch_effect_item folder true abs v x w0) as H1.
    destruct (Cli.process_single_folder x abs v w0) as [[r'|e] w1]; simpl in H1.
    + etransitivity; [apply H1; right; done|]. apply Cli_count_result_quiet.
    + apply H1. by right.
Qed.

(** X6.  A run of [apply_folder_icon] changes nothing beyond the folders it
    works on, the target and with [--recursive] the directories directly
    in it: of these it touches the attributes, [desktop.ini] and
    [folder.ico]; a path that is none of these keeps its node, so that no
    [folder.png], no other file and nothing deeper down is ever changed. *)
Theorem apply_folder_icon_reach (folder : path) (recursive use_absolute_path verbose : bool)
    (w : world) (q : path) :
  (∀ d, batch_item w folder recursive d →
        q ≠ d ∧ q ≠ d // "desktop.ini" ∧ q ≠ d // "folder.ico") →
  w_fs (Cli.apply_folder_icon folder recursive use_absolute_path verbose w).2 !! q
  = w_fs w !! q.
Proof.
  intros Hq.
  assert (H : preserves (batch_effect folder recursive)
                (Cli.apply_folder_icon folder recursive use_absolute_path verbose)).
  { unfold Cli.apply_folder_icon.
    papply preserves_bind; [papply preserves_get|intros platform].
    destruct (negb _); [apply batch_effect_quiet; intros W F; effect_tac|].
    papply preserves_bind; [papply preserves_get|intros pillow].
    destruct (negb _); [apply batch_effect_quiet; intros W F; effect_tac|].
    papply preserves_bind; [unfold path_exists; papply preserves_get|intros e].
    destruct (negb _); [apply batch_effect_quiet; intros W F; effect_tac|].
    papply preserves_bind; [unfold is_dir; papply preserves_get|intros d].
    destruct (negb _); [apply batch_effect_quiet; intros W F; effect_tac|].
    apply preserves_bind; [apply _|apply Cli_tally_effect|intros [processed errors]].
    apply batch_effect_quiet. intros W F. unfold Cli.summary. effect_tac. }
  apply (eff_node _ _ _ _ _ (H w)).
  - intros (d & Hd & Hw). destruct (Hq d Hd) as (_ & H1 & H2). by destruct Hw.
  - intros Hd. by destruct (Hq q Hd) as (H0 & _).
Qed.

Lemma apply_folder_icon_reach_witness :
  w_fs (Cli.apply_folder_icon Examples.proj true false false Examples.png_only).2
    !! (Examples.proj // "folder.png")
  = w_fs Examples.png_only !! (Examples.proj // "folder.png").
Proof.
  apply (apply_folder_icon_reach Examples.proj true false false Examples.png_only
           (Examples.proj // "folder.png")).
  intros d [->|(_ & Hn & Hp & Hd)].
  - repeat split; discriminate.
  - repeat split; intros E.
    + rewrite <- E in Hd. vm_compute in Hd. discriminate.
    + unfold joinpath in E. apply app_inj_tail in E as [_ E]. discriminate.
    + unfold joinpath in E. apply app_inj_tail in E as [_ E]. discriminate.
Defined.


(** ** Names, suffixes and labels *)

Module Names.

(** [s.rfind(c)], counted from [i] at the head of [s]; [None] for [-1]. *)
Fixpoint rfind_from (c : ascii) (s : string) (i : nat) : option nat :=
  match s with
  | EmptyString => None
  | String x s' =>
      match rfind_from c s' (S i) with
      | Some j => Some j
      | None => if Ascii.eqb x c then Some i else None
      end
  end.

Definition rfind (c : ascii) (s : string) : option nat := rfind_from c s 0.

(** Where [pathlib] (up to CPython 3.13) cuts a name into stem and suffix:
    at the last dot, unless it is the first or the last character. *)
Definition cut (name : string) : option nat :=
  match rfind "." name with
  | Some i => if (0 <? i)%nat && (i <? String.length name - 1)%nat then Some i else None
  | None => None
  end.

(** [p.suffix] *)
Definition suffix (p : path) : string :=
  match cut (name p) with
  | Some i => substring i (String.length (name p) - i) (name p)
  | None => ""
  end.

(** [p.stem] *)
Definition stem (p : path) : string :=
  match cut (name p) with
  | Some i => substring 0 i (name p)
  | None => name p
  end.

Definition lower_char (c : ascii) : ascii :=
  let n := nat_of_ascii c in
  if ((65 <=? n) && (n <=? 90))%nat then ascii_of_nat (n + 32) else c.

(** [s.lower()] on the ASCII letters; the bytes of other characters stay,
    which is enough to compare with an ASCII string that no other
    character lowers to. *)
Fixpoint lower (s : string) : string :=
  match s with
  | EmptyString => EmptyString
  | String c s' => String (lower_char c) (lower s')
  end.

(** [path.suffix.lower() != '.png'] *)
Definition not_png (p : path) : bool := negb (String.eqb (lower (suffix p)) ".png").

(** A byte that continues a UTF-8 character. *)
Definition continues (c : ascii) : bool :=
  ((128 <=? nat_of_ascii c) && (nat_of_ascii c <=? 191))%nat.

(** [s[:n]], counted in characters. *)
Fixpoint py_take (n : nat) (s : string) : string :=
  match s with
  | EmptyString => EmptyString
  | String c s' =>
      if continues c then String c (py_take n s')
      else match n with
           | O => EmptyString
           | S n' => String c (py_take n' s')
           end
  end.

(** The label text of a file or folder name: names longer than [limit]
    characters are cut to [limit - 3] and three dots. *)
Definition display_name (limit : nat) (name : string) : string :=
  if (Z.of_nat limit <? Gui.py_len name)%Z then py_take (limit - 3) name +:+ "..."
  else name.

Definition startswith (c : ascii) (s : string) : bool :=
  match s with
  | String x _ => Ascii.eqb x c
  | EmptyString => false
  end.

Fixpoint endswith (c : ascii) (s : string) : bool :=
  match s with
  | EmptyString => false
  | String x EmptyString => Ascii.eqb x c
  | String _ s' => endswith c s'
  end.

(** What the drop handlers make of [event.data]: a path in braces, as the
    drop gives it when it holds blanks, loses them ([data[1:-1]]). *)
Definition dropped_path (data : string) : string :=
  if startswith "{" data && endswith "}" data
  then substring 1 (String.length data - 2) data
  else data.

End Names.

Lemma substring_all (s : string) : substring 0 (String.length s) s = s.
Proof. induction s as [|x s IH]; simpl; [done | by rewrite IH]. Qed.

Lemma substring_split (i : nat) (s : string) :
  (i <= String.length s)%nat →
  substring 0 i s +:+ substring i (String.length s - i) s = s.
Proof.
  revert i. induction s as [|c s IH]; intros [|i] Hi; simpl in *; try lia; try done.
  - by rewrite substring_all.
  - change (String c (substring 0 i s +:+ substring i (String.length s - i) s) = String c s).
    f_equal. apply IH. lia.
Qed.

Lemma rfind_from_bound (c : ascii) (s : string) (i j : nat) :
  Names.rfind_from c s i = Some j → (i <= j < i + String.length s)%nat.
Proof.
  revert i. induction s as [|x s IH]; intros i; simpl; [done|].
  destruct (Names.rfind_from c s (S i)) as [k|] eqn:E.
  - intros [= <-]. apply IH in E. lia.
  - destruct (Ascii.eqb x c); [|done]. intros [= <-]. lia.
Qed.

Lemma cut_bound (name : string) (i : nat) :
  Names.cut name = Some i → (0 < i < String.length name - 1)%nat.
Proof.
  unfold Names.cut. destruct (Names.rfind "." name) as [j|]; [|done].
  destruct (0 <? j)%nat eqn:E1; [|done]. destruct (j <? String.length name - 1)%nat eqn:E2; [|done].
  intros [= <-]. apply Nat.ltb_lt in E1, E2. lia.
Qed.

(** Stem and suffix are the two pieces of the name. *)
Lemma stem_suffix (p : path) : Names.stem p +:+ Names.suffix p = name p.
Proof.
  unfold Names.stem, Names.suffix. destruct (Names.cut (name p)) as [i|] eqn:E.
  - apply substring_split. apply cut_bound in E. lia.
  - clear. induction (name p) as [|c s IH]; [done|].
    change (String c (s +:+ "") = String c s). by rewrite IH.
Qed.

(** ** The tab [PNG to ICO] *)

Module IcoTab.

(** The fields of the object that the tab reads and writes, with the state
    of the convert button and the file the preview canvas shows. *)
Record state := {
  ico_selected_file : option string;
  batch_files : list string;
  ico_sizes : list (Z * bool);       (* size, and whether its box is ticked *)
  convert_btn_normal : bool;         (* [state=tk.NORMAL] *)
  ico_preview_image : option path
}.

(** What [__init__] and [setup_ico_tab] leave. *)
Definition initial : state :=
  {| ico_selected_file := None; batch_files := [];
     ico_sizes := [(16, true); (32, true); (48, true); (64, true); (128, true); (256, true)];
     convert_btn_normal := false; ico_preview_image := None |}.

Definition select_single (file_path : string) (t : state) : state :=
  {| ico_selected_file := Some file_path; batch_files := [];
     ico_sizes := ico_sizes t; convert_btn_normal := convert_btn_normal t;
     ico_preview_image := ico_preview_image t |}.

Definition select_batch (file_paths : list string) (t : state) : state :=
  {| ico_selected_file := None; batch_files := file_paths;
     ico_sizes := ico_sizes t; convert_btn_normal := convert_btn_normal t;
     ico_preview_image := ico_preview_image t |}.

Definition enable_convert_btn (t : state) : state :=
  {| ico_selected_file := ico_selected_file t; batch_files := batch_files t;
     ico_sizes := ico_sizes t; convert_btn_normal := true;
     ico_preview_image := ico_preview_image t |}.

Definition show_preview (p : path) (t : state) : state :=
  {| ico_selected_file := ico_selected_file t; batch_files := batch_files t;
     ico_sizes := ico_sizes t; convert_btn_normal := convert_btn_normal t;
     ico_preview_image := Some p |}.

(** Get list of selected ICO sizes. *)
Definition get_selected_sizes (t : state) : list (Z * Z) :=
  omap (λ sv : Z * bool, if sv.2 then Some (sv.1, sv.1) else None) (ico_sizes t).

(** [", ".join(f"{s[0]}px" for s in sizes)] *)
Definition size_str (sizes : list (Z * Z)) : string :=
  join ", " ((λ s : Z * Z, pretty s.1 +:+ "px") <$> sizes).

Section WithPath.

(** [pathlib.Path] on the strings that dialogs and drops hand over. *)
Variable Path : string → path.

(** Update the ICO tab preview with the selected image. *)
Definition update_ico_preview (file_path : string) (t : state) : M state :=
  pillow <- get w_pillow ;;
  if negb pillow then ret t
  else
    try_except
      (img <- Image_open (Path file_path) ;;
       let orig_size := im_size img in
       let t := show_preview (Path file_path) t in
       modify (log_ui (config "ico_preview_info"
         ("Original: " +:+ pretty orig_size.1 +:+ "Ã—" +:+ pretty orig_size.2 +:+ "px")
         "#333333")) ;;
       ret t)
      (fun _ =>
         modify (log_ui (config "ico_preview_info" "Preview error" "#cc0000")) ;;
         ret t).

(** Set file for ICO conversion with preview. *)
Definition set_ico_file (file_path : string) (t : state) : M state :=
  let path := Path file_path in
  if Names.not_png path then
    modify (log_ui (messagebox "error" "Error" "Please select a PNG file.")) ;;
    ret t
  else
    let t := select_single file_path t in
    modify (log_ui (config "ico_file_label" (Names.display_name 35 (name path)) "#000000")) ;;
    let t := enable_convert_btn t in
    t <- update_ico_preview file_path t ;;
    modify (log_ui (config "drop_label" "âœ“ File loaded" "#228B22")) ;;
    ret t.

(** [file_path] is the answer of the file dialog, empty when cancelled. *)
Definition select_file_ico (file_path : string) (t : state) : M state :=
  if negb (String.eqb file_path "") then set_ico_file file_path t else ret t.

(** Handle dropped files for ICO tab. *)
Definition on_drop_ico (data : string) (t : state) : M state :=
  set_ico_file (Names.dropped_path data) t.

(** [file_paths] is the answer of the file dialog, empty when cancelled. *)
Definition select_batch_files (file_paths : list string) (t : state) : M state :=
  match file_paths with
  | [] => ret t
  | first :: _ =>
      let t := select_batch file_paths t in
      let n := pretty (length (batch_files t)) in
      modify (log_ui (config "ico_file_label" (n +:+ " files selected") "#000000")) ;;
      let t := enable_convert_btn t in
      t <- update_ico_preview first t ;;
      modify (log_ui (config "ico_preview_info" ("Showing 1 of " +:+ n) "#333333")) ;;
      modify (log_ui (config "drop_label" ("âœ“ " +:+ n +:+ " files") "#228B22")) ;;
      ret t
  end.

(** Body of [for file_path in self.batch_files]; [st] is
    [(success, failed)]. *)
Definition convert_one (sizes : list (Z * Z)) (output_path : path) (file_path : string)
    (st : nat * nat) : M (nat * nat) :=
  try_except
    (let path := Path file_path in
     img <- Image_open path ;;
     let output_file := output_path // (Names.stem path +:+ ".ico") in
     Image_save img output_file "ICO" (Some sizes) ;;
     ret (S st.1, st.2))
    (fun _ => ret (st.1, S st.2)).

(** Convert multiple PNG files to ICO.  [output_dir] is the answer of the
    directory dialog, empty when cancelled. *)
Definition convert_batch (sizes : list (Z * Z)) (batch_files : list string)
    (output_dir : string) : M unit :=
  pillow <- get w_pillow ;;
  if negb pillow then
    modify (log_ui (messagebox "error" "Error"
      ("Pillow is not installed. Please run:" +:+ nl +:+ "pip install Pillow")))
  else if String.eqb output_dir "" then ret tt
  else
    let output_path := Path output_dir in
    modify (log_ui (config "status_label" "Converting..." "blue")) ;;
    st <- Cli.for_each batch_files (convert_one sizes output_path) (0%nat, 0%nat) ;;
    let '(success, failed) := st in
    if (failed =? 0)%nat then
      modify (log_ui (config "status_label"
        ("Converted " +:+ pretty success +:+ " files!") "green")) ;;
      modify (log_ui (messagebox "info" "Success"
        ("Converted " +:+ pretty success +:+ " ICO files to:" +:+ nl +:+ output_dir)))
    else
      modify (log_ui (config "status_label"
        (pretty success +:+ " OK, " +:+ pretty failed +:+ " failed") "orange")) ;;
      modify (log_ui (messagebox "warning" "Partial Success"
        ("Converted " +:+ pretty success +:+ " files." +:+ nl
         +:+ pretty failed +:+ " files failed.")))
    .

(** Convert PNG file to ICO.  [output_path] is the answer of the save
    dialog, empty when cancelled. *)
Definition convert_to_ico (file_path : string) (sizes : option (list (Z * Z)))
    (output_path : string) : M unit :=
  pillow <- get w_pillow ;;
  if negb pillow then
    modify (log_ui (messagebox "error" "Error"
      ("Pillow is not installed. Please run:" +:+ nl +:+ "pip install Pillow")))
  else
    let sizes := default [(16, 16); (32, 32); (48, 48); (64, 64); (128, 128); (256, 256)] sizes in
    let path := Path file_path in
    e <- path_exists path ;;
    if negb e then
      modify (log_ui (messagebox "error" "Error" ("File not found: " +:+ file_path)))
    else if Names.not_png path then
      modify (log_ui (messagebox "error" "Error" "Please select a PNG file."))
    else if String.eqb output_path "" then ret tt
    else
      try_except
        (modify (log_ui (config "status_label" "Converting..." "blue")) ;;
         img <- Image_open path ;;
         Image_save img (Path output_path) "ICO" (Some sizes) ;;
         modify (log_ui (config "status_label"
           ("Saved: " +:+ name (Path output_path)) "green")) ;;
         modify (log_ui (messagebox "info" "Success"
           ("ICO file saved to:" +:+ nl +:+ output_path +:+ nl +:+ nl
            +:+ "Sizes included: " +:+ size_str sizes))))
        (fun e =>
           modify (log_ui (messagebox "error" "Error"
             ("Conversion failed:" +:+ nl +:+ e_str e))) ;;
           modify (log_ui (config "status_label" "Conversion failed" "red"))).

(** Perform the ICO conversion (single or batch).  [answer] is what the
    dialog that opens returns. *)
Definition do_conversion (t : state) (answer : string) : M unit :=
  let sizes := get_selected_sizes t in
  match sizes with
  | [] => modify (log_ui (messagebox "error" "Error" "Please select at least one ICO size."))
  | _ =>
      match batch_files t, ico_selected_file t with
      | _ :: _, _ => convert_batch sizes (batch_files t) answer
      | [], Some file_path =>
          if negb (String.eqb file_path "") then convert_to_ico file_path (Some sizes) answer
          else ret tt
      | [], None => ret tt
      end
  end.

End WithPath.

End IcoTab.

(** *** Labels *)

Lemma py_len_String (c : ascii) (s : string) :
  Gui.py_len (String c s) = (if Names.continues c then 0 else 1) + Gui.py_len s.
Proof.
  assert (H : ((nat_of_ascii c <? 128)%nat || (191 <? nat_of_ascii c)%nat)
              = negb (Names.continues c)).
  { unfold Names.continues.
    destruct (Nat.ltb_spec (nat_of_ascii c) 128), (Nat.ltb_spec 191 (nat_of_ascii c)),
             (Nat.leb_spec 128 (nat_of_ascii c)), (Nat.leb_spec (nat_of_ascii c) 191);
      simpl; try reflexivity; lia. }
  unfold Gui.py_len. cbn [list_ascii_of_string]. rewrite filter_cons.
  destruct (Names.continues c); simpl in H.
  - rewrite decide_False by (rewrite H; done). lia.
  - rewrite decide_True by (rewrite H; done). simpl length. lia.
Qed.

Lemma py_len_nonneg (s : string) : 0 <= Gui.py_len s.
Proof. unfold Gui.py_len. lia. Qed.

Lemma py_len_app (a b : string) : Gui.py_len (a +:+ b) = Gui.py_len a + Gui.py_len b.
Proof.
  induction a as [|c a IH]; [done|].
  change (String c a +:+ b) with (String c (a +:+ b)).
  rewrite !py_len_String, IH. lia.
Qed.

Lemma py_len_take (n : nat) (s : string) :
  Gui.py_len (Names.py_take n s) = Z.min (Z.of_nat n) (Gui.py_len s).
Proof.
  revert n. induction s as [|c s IH]; intros n; simpl.
  - change (Gui.py_len "") with 0. lia.
  - destruct (Names.continues c) eqn:E.
    + rewrite !py_len_String, E, IH. lia.
    + destruct n as [|n].
      * change (Gui.py_len "") with 0. pose proof (py_len_nonneg (String c s)). lia.
      * rewrite !py_len_String, E, IH. lia.
Qed.

(** A label made by [display_name] has at most [limit] characters, and is
    the name itself when that is short enough. *)
Lemma display_name_length (limit : nat) (name : string) :
  (3 <= limit)%nat →
  Gui.py_len (Names.display_name limit name) <= Z.of_nat limit
  ∧ (Gui.py_len name <= Z.of_nat limit → Names.display_name limit name = name).
Proof.
  intros Hl. unfold Names.display_name.
  destruct (Z.of_nat limit <? Gui.py_len name)%Z eqn:E.
  - apply Z.ltb_lt in E. split; [|lia].
    rewrite py_len_app, py_len_take. change (Gui.py_len "...") with 3. lia.
  - apply Z.ltb_ge in E. done.
Qed.

(** *** What a conversion can reach *)

Section IcoTabReach.

Context (Path : string → path).

Lemma convert_one_effect (W F : path → Prop) sizes output_path file_path st :
  W (output_path // (Names.stem (Path file_path) +:+ ".ico")) →
  preserves (effect W F (λ _, True)) (IcoTab.convert_one Path sizes output_path file_path st).
Proof. intros HW. unfold IcoTab.convert_one. effect_tac; done. Qed.

Lemma convert_batch_effect (W F : path → Prop) sizes files output_dir :
  (∀ f, f ∈ files → W (Path output_dir // (Names.stem (Path f) +:+ ".ico"))) →
  preserves (effect W F (λ _, True)) (IcoTab.convert_batch Path sizes files output_dir).
Proof.
  intros HW. unfold IcoTab.convert_batch.
  papply preserves_bind; [papply preserves_get | intros pillow].
  destruct (negb pillow); [effect_tac|].
  destruct (String.eqb output_dir ""); [effect_tac|].
  papply preserves_bind; [effect_tac | intros _].
  papply preserves_bind.
  - apply preserves_for_each_Forall; [apply _|].
    apply Forall_forall. intros f Hf st. by apply convert_one_effect, HW.
  - intros [success failed]. effect_tac.
Qed.

Lemma convert_to_ico_effect (W F : path → Prop) file_path sizes output_path :
  W (Path output_path) →
  preserves (effect W F (λ _, True)) (IcoTab.convert_to_ico Path file_path sizes output_path).
Proof. intros HW. unfold IcoTab.convert_to_ico. effect_tac; done. Qed.

Lemma for_each_returns {A S} (l : list A) (body : A → S → M S) (st : S) (w : world) :
  (∀ x s w0, ∃ s' w1, body x s w0 = (Ret s', w1)) →
  ∃ st' w', Cli.for_each l body st w = (Ret st', w').
Proof.
  intros Hb. revert st w. induction l as [|x l IH]; intros st w; simpl.
  - by eexists _, _.
  - unfold bind. destruct (Hb x st w) as (s' & w1 & ->). apply IH.
Qed.

Lemma try_except_returns {A} (m : M A) (h : exn → M A) (w : world) :
  (∀ e w0, ∃ a w1, h e w0 = (Ret a, w1)) → ∃ a w', try_except m h w = (Ret a, w').
Proof.
  intros Hh. unfold try_except. destruct (m w) as [[a|e] w1]; [by eexists _, _ | apply Hh].
Qed.

Lemma convert_batch_returns sizes files output_dir (w : world) :
  ∃ w', IcoTab.convert_batch Path sizes files output_dir w = (Ret tt, w').
Proof.
  unfold IcoTab.convert_batch. rewrite bind_get.
  destruct (negb (w_pillow w)); [by eexists|].
  destruct (String.eqb output_dir ""); [by eexists|].
  unfold bind at 1, modify at 1.
  destruct (for_each_returns files
              (IcoTab.convert_one Path sizes (Path output_dir)) (0%nat, 0%nat)
              (log_ui (config "status_label" "Converting..." "blue") w))
    as ([success failed] & w1 & Hrun).
  { intros x s w0. unfold IcoTab.convert_one. apply try_except_returns.
    intros e w2. by eexists _, _. }
  unfold bind at 1. rewrite Hrun. destruct (failed =? 0)%nat; by eexists.
Qed.

Lemma convert_to_ico_returns file_path sizes output_path (w : world) :
  ∃ w', IcoTab.convert_to_ico Path file_path sizes output_path w = (Ret tt, w').
Proof.
  unfold IcoTab.convert_to_ico. rewrite bind_get.
  destruct (negb (w_pillow w)); [by eexists|].
  unfold path_exists. rewrite bind_get.
  destruct (negb _); [by eexists|].
  destruct (Names.not_png _); [by eexists|].
  destruct (String.eqb output_path ""); [by eexists|].
  destruct (try_except_returns
    (modify (log_ui (config "status_label" "Converting..." "blue")) ;;
     img <- Image_open (Path file_path) ;;
     Image_save img (Path output_path) "ICO"
       (Some (default [(16, 16); (32, 32); (48, 48); (64, 64); (128, 128); (256, 256)] sizes)) ;;
     modify (log_ui (config "status_label" ("Saved: " +:+ name (Path output_path)) "green")) ;;
     modify (log_ui (messagebox "info" "Success"
       ("ICO file saved to:" +:+ nl +:+ output_path +:+ nl +:+ nl
        +:+ "Sizes included: "
        +:+ IcoTab.size_str
              (default [(16, 16); (32, 32); (48, 48); (64, 64); (128, 128); (256, 256)] sizes)))))
    (fun e =>
       modify (log_ui (messagebox "error" "Error" ("Conversion failed:" +:+ nl +:+ e_str e))) ;;
       modify (log_ui (config "status_label" "Conversion failed" "red"))) w)
    as ([] & w' & Hrun).
  { intros e w0. by eexists _, _. }
  exists w'. exact Hrun.
Qed.

(** X7.  [do_conversion] never raises, and the only files it can change
    are its outputs: for one selected file the path answered in the save
    dialog, for a batch the [<stem>.ico] of each batch file in the
    directory answered.  Every other path keeps its node. *)
Theorem do_conversion_reach (t : IcoTab.state) (answer : string) (w : world) (q : path) :
  (IcoTab.batch_files t = [] → q ≠ Path answer) →
  (∀ f, f ∈ IcoTab.batch_files t → q ≠ Path answer // (Names.stem (Path f) +:+ ".ico")) →
  ∃ w',
    IcoTab.do_conversion Path t answer w = (Ret tt, w')
    ∧ w_fs w' !! q = w_fs w !! q.
Proof.
  intros Hsingle Hbatch.
  set (W := λ p : path,
         (IcoTab.batch_files t = [] ∧ p = Path answer)
         ∨ ∃ f, f ∈ IcoTab.batch_files t
                ∧ p = Path answer // (Names.stem (Path f) +:+ ".ico")).
  assert (Heff : preserves (effect W (λ _, False) (λ _, True))
                   (IcoTab.do_conversion Path t answer)).
  { unfold IcoTab.do_conversion.
    destruct (IcoTab.get_selected_sizes t) as [|s sizes]; [effect_tac|].
    destruct (IcoTab.batch_files t) as [|f fs] eqn:Hb.
    - destruct (IcoTab.ico_selected_file t) as [file_path|]; [|effect_tac].
      destruct (negb _); [|effect_tac].
      apply convert_to_ico_effect. by left.
    - apply convert_batch_effect. intros f' Hf'. right. by exists f'. }
  assert (Hret : ∃ w', IcoTab.do_conversion Path t answer w = (Ret tt, w')).
  { unfold IcoTab.do_conversion.
    destruct (IcoTab.get_selected_sizes t) as [|s sizes]; [by eexists|].
    destruct (IcoTab.batch_files t) as [|f fs].
    - destruct (IcoTab.ico_selected_file t) as [file_path|]; [|by eexists].
      destruct (negb _); [apply convert_to_ico_returns | by eexists].
    - apply convert_batch_returns. }
  destruct Hret as (w' & Hrun). exists w'. split; [exact Hrun|].
  pose proof (eff_node _ _ _ _ _ (Heff w) q) as H. rewrite Hrun in H. apply H; [|tauto].
  intros [[Hb ->]|(f & Hf & ->)]; [by apply Hsingle | by apply (Hbatch f)].
Qed.

End IcoTabReach.


(** *** The tally of a batch conversion *)

(** The files that a run of calls opened, in order. *)
Definition opened (calls : list call) : list path :=
  omap (λ c, match c with Image_open_call p => Some p | _ => None end) calls.

Lemma opened_app (a b : list call) : opened (a ++ b) = (opened a ++ opened b)%list.
Proof. unfold opened. apply omap_app. Qed.

Section IcoTabBatch.

Context (Path : string → path) (sizes : list (Z * Z)) (output_path : path).

Lemma convert_one_run (file_path : string) (st : nat * nat) (w : world) :
  w_pillow w = true →
  ∃ st' w' new,
    IcoTab.convert_one Path sizes output_path file_path st w = (Ret st', w')
    ∧ (st' = (S st.1, st.2) ∨ st' = (st.1, S st.2))
    ∧ w_pillow w' = true
    ∧ w_ui w' = w_ui w
    ∧ w_calls w' = (w_calls w ++ new)%list
    ∧ opened new = [Path file_path].
Proof.
  intros Hp. unfold IcoTab.convert_one, try_except. unfold bind at 1.
  destruct (image_at w (Path file_path)) as [img|] eqn:Hi.
  - rewrite (Image_open_ok _ img) by done.
    destruct (writable (log_call (Image_open_call (Path file_path)) w)
                (output_path // (Names.stem (Path file_path) +:+ ".ico"))) eqn:Hw.
    + unfold bind. rewrite Image_save_ok by done.
      eexists _, _,
        [Image_open_call (Path file_path);
         Image_save_call (output_path // (Names.stem (Path file_path) +:+ ".ico")) "ICO"
           (Some sizes)].
      split; [reflexivity|]. split; [by left|].
      split; [done|]. split; [done|]. split; [|reflexivity].
      cbn [w_calls put set_fs log_call]. by rewrite <- app_assoc.
    + unfold bind.
      destruct (Image_save_refused img _ "ICO" (Some sizes) _ Hw) as (e & ->).
      eexists _, _,
        [Image_open_call (Path file_path);
         Image_save_call (output_path // (Names.stem (Path file_path) +:+ ".ico")) "ICO"
           (Some sizes)].
      split; [reflexivity|]. split; [by right|].
      split; [done|]. split; [done|]. split; [|reflexivity].
      cbn [w_calls log_call]. by rewrite <- app_assoc.
  - destruct (Image_open_fails _ w Hp Hi) as (e & ->).
    eexists _, _, [Image_open_call (Path file_path)].
    split; [reflexivity|]. split; [by right|]. done.
Qed.

Lemma convert_loop_run (files : list string) (st : nat * nat) (w : world) :
  w_pillow w = true →
  ∃ st' w' new,
    Cli.for_each files (IcoTab.convert_one Path sizes output_path) st w = (Ret st', w')
    ∧ (st'.1 + st'.2 = st.1 + st.2 + length files)%nat
    ∧ (st.1 <= st'.1)%nat ∧ (st.2 <= st'.2)%nat
    ∧ w_ui w' = w_ui w
    ∧ w_calls w' = (w_calls w ++ new)%list
    ∧ opened new = Path <$> files.
Proof.
  revert st w. induction files as [|f files IH]; intros st w Hp; simpl.
  - exists st, w, []. rewrite app_nil_r. repeat split; try done; lia.
  - destruct (convert_one_run f st w Hp) as (st1 & w1 & new1 & Hrun & Hst & Hp1 & Hui & Hc & Ho).
    destruct (IH st1 w1 Hp1) as (st' & w' & new & Hrun' & Hsum & H1 & H2 & Hui' & Hc' & Ho').
    exists st', w', (new1 ++ new)%list. unfold bind. rewrite Hrun. split; [exact Hrun'|].
    split; [destruct Hst as [-> | ->]; simpl in *; lia|].
    split; [destruct Hst as [-> | ->]; simpl in *; lia|].
    split; [destruct Hst as [-> | ->]; simpl in *; lia|].
    split; [by rewrite Hui'|]. split; [by rewrite Hc', Hc, app_assoc|].
    by rewrite opened_app, Ho, Ho'.
Qed.

End IcoTabBatch.

(** X8.  A batch conversion tries every file of the batch, in order and
    whatever failed before: with Pillow and a directory chosen, each file
    is opened once, [success + failed] is the number of files, and the
    closing dialog is "Success" exactly when nothing failed. *)
Theorem convert_batch_counts (Path : string → path) (sizes : list (Z * Z))
    (files : list string) (output_dir : string) (w : world) :
  w_pillow w = true →
  output_dir ≠ "" →
  ∃ success failed w' new,
    IcoTab.convert_batch Path sizes files output_dir w = (Ret tt, w')
    ∧ (success + failed = length files)%nat
    ∧ w_calls w' = (w_calls w ++ new)%list
    ∧ opened new = Path <$> files
    ∧ last (w_ui w')
      = Some (if (failed =? 0)%nat
              then messagebox "info" "Success"
                     ("Converted " +:+ pretty success +:+ " ICO files to:" +:+ nl +:+ output_dir)
              else messagebox "warning" "Partial Success"
                     ("Converted " +:+ pretty success +:+ " files." +:+ nl
                      +:+ pretty failed +:+ " files failed.")).
Proof.
  intros Hp Hdir. unfold IcoTab.convert_batch. rewrite bind_get, Hp. cbn [negb].
  apply String.eqb_neq in Hdir. rewrite Hdir.
  unfold bind at 1, modify at 1.
  destruct (convert_loop_run Path sizes (Path output_dir) files (0%nat, 0%nat)
              (log_ui (config "status_label" "Converting..." "blue") w) Hp)
    as ([success failed] & w1 & new & Hrun & Hsum & _ & _ & Hui & Hc & Ho).
  unfold bind at 1. rewrite Hrun. simpl in Hsum.
  exists success, failed.
  destruct (failed =? 0)%nat; eexists _, new; (split; [reflexivity|]);
    cbn [w_calls w_ui log_ui]; rewrite Hc; (repeat split; try done);
    by rewrite last_snoc.
Qed.

(** *** A batch in which nothing fails *)

Section IcoTabSuccess.

Context (Path : string → path) (sizes : list (Z * Z)) (output_path : path).

Local Abbreviation out := (λ f : string, output_path // (Names.stem (Path f) +:+ ".ico")).

(** [q] holds an icon saved with [sizes]. *)
Definition converted (w : world) (q : path) : Prop :=
  ∃ img, w_fs w !! q
         = Some {| n_kind := File (Picture "ICO" (encode img (Some sizes)));
                   n_attrs := no_attrs |}.

Lemma convert_one_ok (f : string) (img : image) (st : nat * nat) (w : world) :
  w_pillow w = true →
  image_at w (Path f) = Some img →
  writable w (out f) = true →
  IcoTab.convert_one Path sizes output_path f st w
  = (Ret (S st.1, st.2),
     put (out f) (Picture "ICO" (encode img (Some sizes)))
       (log_call (Image_save_call (out f) "ICO" (Some sizes))
          (log_call (Image_open_call (Path f)) w))).
Proof.
  intros Hp Hi Hw. unfold IcoTab.convert_one, try_except. unfold bind at 1.
  rewrite (Image_open_ok _ img) by done. unfold bind.
  by rewrite Image_save_ok by done.
Qed.

Lemma image_at_put (p q : path) (d : data) (w : world) :
  is_Some (image_at w q) → (∃ fmt im, d = Picture fmt im) → is_Some (image_at (put p d w) q).
Proof.
  intros Hq (fmt & im & ->). unfold image_at, put in *. cbn [w_fs set_fs].
  destruct (decide (p = q)) as [->|Hne].
  - rewrite lookup_insert_eq. by eexists.
  - by rewrite lookup_insert_ne.
Qed.

Lemma writable_put_child (a b : string) (d : data) (w : world) :
  writable w (output_path // b) = true →
  writable (put (output_path // a) d w) (output_path // b) = true.
Proof.
  unfold writable, put, lookup_kind. cbn [w_fs set_fs]. rewrite !parent_joinpath.
  rewrite (lookup_insert_ne _ (output_path // a) output_path) by apply joinpath_ne_self.
  intros [H1 H2]%andb_prop. rewrite H1. cbn [andb].
  destruct (decide (output_path // a = output_path // b)) as [->|Hne].
  - by rewrite lookup_insert_eq.
  - by rewrite lookup_insert_ne.
Qed.

Lemma convert_loop_ok (files rest : list string) (st : nat * nat) (w : world) :
  rest ⊆ files →
  w_pillow w = true →
  (∀ f, f ∈ files → is_Some (image_at w (Path f))) →
  (∀ f, f ∈ files → writable w (out f) = true) →
  ∃ w',
    Cli.for_each rest (IcoTab.convert_one Path sizes output_path) st w
    = (Ret ((st.1 + length rest)%nat, st.2), w')
    ∧ w_ui w' = w_ui w
    ∧ (∀ q, converted w q ∨ q ∈ out <$> rest → converted w' q).
Proof.
  revert st w. induction rest as [|f rest IH]; intros st w Hsub Hp Hread Hwrite; simpl.
  - exists w. rewrite Nat.add_0_r. destruct st. split; [done|]. split; [done|].
    intros q [Hq|Hq]; [done | by apply elem_of_nil in Hq].
  - assert (Hf : f ∈ files) by (apply Hsub; left).
    destruct (Hread f Hf) as [img Hi].
    unfold bind. rewrite (convert_one_ok f img) by auto.
    set (w1 := put (out f) (Picture "ICO" (encode img (Some sizes)))
                 (log_call (Image_save_call (out f) "ICO" (Some sizes))
                    (log_call (Image_open_call (Path f)) w))).
    destruct (IH (S st.1, st.2) w1) as (w' & Hrun & Hui & Hconv).
    + intros x Hx. apply Hsub. by right.
    + done.
    + intros g Hg. apply image_at_put; [by apply Hread | by eexists _, _].
    + intros g Hg. apply writable_put_child. by apply Hwrite.
    + exists w'. split; [|split].
      * rewrite Hrun. cbn [fst snd length]. by rewrite Nat.add_succ_r.
      * by rewrite Hui.
      * intros q Hq. apply Hconv.
        destruct (decide (q = out f)) as [->|Hne].
        { left. exists img. unfold w1, put. cbn [w_fs set_fs]. by rewrite lookup_insert_eq. }
        destruct Hq as [(im & Hq)|Hq].
        { left. exists im. unfold w1, put. cbn [w_fs set_fs log_call].
          by rewrite lookup_insert_ne. }
        right. apply elem_of_cons in Hq as [Hq|Hq]; [done | exact Hq].
Qed.

End IcoTabSuccess.

(** X9.  When every file of the batch opens as an image and every
    [<stem>.ico] can be written in the chosen directory, the batch reports
    all of its files as converted, and each [<stem>.ico] is there, an icon
    with the sizes asked for. *)
Theorem convert_batch_all_converted (Path : string → path) (sizes : list (Z * Z))
    (files : list string) (output_dir : string) (w : world) :
  w_pillow w = true →
  output_dir ≠ "" →
  (∀ f, f ∈ files → is_Some (image_at w (Path f))) →
  (∀ f, f ∈ files →
        writable w (Path output_dir // (Names.stem (Path f) +:+ ".ico")) = true) →
  ∃ w',
    IcoTab.convert_batch Path sizes files output_dir w = (Ret tt, w')
    ∧ last (w_ui w')
      = Some (messagebox "info" "Success"
                ("Converted " +:+ pretty (length files) +:+ " ICO files to:" +:+ nl
                 +:+ output_dir))
    ∧ ∀ f, f ∈ files →
        converted sizes w' (Path output_dir // (Names.stem (Path f) +:+ ".ico")).
Proof.
  intros Hp Hdir Hread Hwrite. unfold IcoTab.convert_batch. rewrite bind_get, Hp. cbn [negb].
  apply String.eqb_neq in Hdir. rewrite Hdir.
  unfold bind at 1, modify at 1.
  destruct (convert_loop_ok Path sizes (Path output_dir) files files (0%nat, 0%nat)
              (log_ui (config "status_label" "Converting..." "blue") w))
    as (w1 & Hrun & Hui & Hconv); try done.
  unfold bind at 1. rewrite Hrun. cbn [fst snd Nat.add Nat.eqb].
  eexists. split; [reflexivity|]. cbn [w_ui w_fs log_ui]. split.
  - by rewrite last_snoc.
  - intros f Hf. destruct (Hconv (Path output_dir // (Names.stem (Path f) +:+ ".ico")))
      as (img & Hq).
    + right. apply list_elem_of_fmap. by exists f.
    + by exists img.
Qed.


(** *** One file *)

(** The sizes [convert_to_ico] saves: the ones given, or all six. *)
Definition sizes_or_all (sizes : option (list (Z * Z))) : list (Z * Z) :=
  default [(16, 16); (32, 32); (48, 48); (64, 64); (128, 128); (256, 256)] sizes.

(** X10.  Past its guards (Pillow, an existing file named [*.png], a path
    answered in the save dialog) [convert_to_ico] either saves the icon, at
    that path and with the sizes asked for, and says so, or, when the file
    is no image or the path cannot be written, changes no file and reports
    "Conversion failed"; it never raises. *)
Theorem convert_to_ico_outcome (Path : string → path) (file_path : string)
    (sizes : option (list (Z * Z))) (output_path : string) (w : world) :
  w_pillow w = true →
  is_Some (w_fs w !! Path file_path) →
  Names.not_png (Path file_path) = false →
  output_path ≠ "" →
  ∃ w',
    IcoTab.convert_to_ico Path file_path sizes output_path w = (Ret tt, w')
    ∧ match image_at w (Path file_path) with
      | Some img =>
          if writable w (Path output_path) then
            w_fs w'
            = <[Path output_path :=
                  {| n_kind := File (Picture "ICO" (encode img (Some (sizes_or_all sizes))));
                     n_attrs := no_attrs |}]> (w_fs w)
            ∧ last (w_ui w')
              = Some (messagebox "info" "Success"
                        ("ICO file saved to:" +:+ nl +:+ output_path +:+ nl +:+ nl
                         +:+ "Sizes included: " +:+ IcoTab.size_str (sizes_or_all sizes)))
          else
            w_fs w' = w_fs w
            ∧ last (w_ui w') = Some (config "status_label" "Conversion failed" "red")
      | None =>
          w_fs w' = w_fs w
          ∧ last (w_ui w') = Some (config "status_label" "Conversion failed" "red")
      end.
Proof.
  intros Hp He Hpng Hout. unfold IcoTab.convert_to_ico.
  rewrite bind_get, Hp. cbn [negb]. unfold path_exists. rewrite bind_get.
  rewrite (bool_decide_eq_true_2 _ He). cbn [negb]. rewrite Hpng.
  apply String.eqb_neq in Hout. rewrite Hout.
  fold (sizes_or_all sizes).
  unfold try_except. unfold bind at 1, modify at 1.
  destruct (image_at w (Path file_path)) as [img|] eqn:Hi.
  - unfold bind at 1. rewrite (Image_open_ok _ img) by done.
    destruct (writable w (Path output_path)) eqn:Hw.
    + unfold bind at 1. rewrite Image_save_ok by done.
      eexists. split; [reflexivity|]. split; [reflexivity|].
      cbn [w_ui log_ui put set_fs log_call]. by rewrite last_snoc.
    + unfold bind at 1.
      destruct (Image_save_refused img (Path output_path) "ICO" (Some (sizes_or_all sizes))
                  (log_call (Image_open_call (Path file_path))
                     (log_ui (config "status_label" "Converting..." "blue") w)) Hw)
        as (e & ->).
      eexists. split; [reflexivity|]. split; [reflexivity|].
      cbn [w_ui log_ui log_call]. by rewrite last_snoc.
  - unfold bind at 1.
    destruct (Image_open_fails (Path file_path)
                (log_ui (config "status_label" "Converting..." "blue") w) Hp Hi) as (e & ->).
    eexists. split; [reflexivity|]. split; [reflexivity|].
    cbn [w_ui log_ui log_call]. by rewrite last_snoc.
Qed.

(** *** A dialog that answers [C:/...] *)

Module Dialogs.

(** The pieces of [s] between slashes, [cur] being the piece at hand. *)
Fixpoint pieces (s : string) (cur : string) : list string :=
  match s with
  | EmptyString => [cur]
  | String c s' =>
      if Ascii.eqb c "/" then cur :: pieces s' "" else pieces s' (cur +:+ String c "")
  end.

(** The parts of a path written with a drive and forward slashes, as the
    file dialogs answer on Windows: [C:/site/logo.png] has the parts
    [C:\ ], [site], [logo.png]. *)
Definition Path (s : string) : path :=
  match filter (λ x, x ≠ "") (pieces s "") with
  | drive :: rest => (if Names.endswith ":" drive then drive +:+ "\" else drive) :: rest
  | [] => []
  end.

(** The tab after [C:/logo.png] was picked in the batch dialog. *)
Definition batch_of_logo : IcoTab.state :=
  IcoTab.enable_convert_btn (IcoTab.select_batch ["C:/logo.png"] IcoTab.initial).

End Dialogs.

Lemma do_conversion_reach_witness :
  ∃ w',
    IcoTab.do_conversion Dialogs.Path Dialogs.batch_of_logo "C:/site" (Favicons.studio "") = (Ret tt, w')
    ∧ w_fs w' !! Favicons.logo = w_fs (Favicons.studio "") !! Favicons.logo.
Proof.
  apply (do_conversion_reach Dialogs.Path Dialogs.batch_of_logo "C:/site"
           (Favicons.studio "") Favicons.logo).
  - discriminate.
  - intros f Hf. apply list_elem_of_singleton in Hf as ->. vm_compute. discriminate.
Defined.

Lemma convert_batch_counts_witness :
  ∃ success failed w' new,
    IcoTab.convert_batch Dialogs.Path [(16, 16); (32, 32)] ["C:/logo.png"; "C:/none.png"]
      "C:/site" (Favicons.studio "") = (Ret tt, w')
    ∧ (success + failed = 2)%nat
    ∧ w_calls w' = (w_calls (Favicons.studio "") ++ new)%list
    ∧ opened new = Dialogs.Path <$> ["C:/logo.png"; "C:/none.png"]
    ∧ last (w_ui w')
      = Some (if (failed =? 0)%nat
              then messagebox "info" "Success"
                     ("Converted " +:+ pretty success +:+ " ICO files to:" +:+ nl +:+ "C:/site")
              else messagebox "warning" "Partial Success"
                     ("Converted " +:+ pretty success +:+ " files." +:+ nl
                      +:+ pretty failed +:+ " files failed.")).
Proof.
  apply (convert_batch_counts Dialogs.Path [(16, 16); (32, 32)] ["C:/logo.png"; "C:/none.png"]
           "C:/site" (Favicons.studio "")).
  - reflexivity.
  - discriminate.
Defined.

Lemma convert_batch_all_converted_witness :
  ∃ w',
    IcoTab.convert_batch Dialogs.Path [(16, 16); (32, 32)] ["C:/logo.png"] "C:/site"
      (Favicons.studio "") = (Ret tt, w')
    ∧ last (w_ui w')
      = Some (messagebox "info" "Success"
                ("Converted " +:+ pretty 1%nat +:+ " ICO files to:" +:+ nl +:+ "C:/site"))
    ∧ ∀ f, f ∈ ["C:/logo.png"] →
        converted [(16, 16); (32, 32)] w'
          (Dialogs.Path "C:/site" // (Names.stem (Dialogs.Path f) +:+ ".ico")).
Proof.
  apply (convert_batch_all_converted Dialogs.Path [(16, 16); (32, 32)] ["C:/logo.png"]
           "C:/site" (Favicons.studio "")).
  - reflexivity.
  - discriminate.
  - intros f Hf. apply list_elem_of_singleton in Hf as ->. vm_compute. eauto.
  - intros f Hf. apply list_elem_of_singleton in Hf as ->. vm_compute. reflexivity.
Defined.

Lemma convert_to_ico_outcome_witness :
  ∃ w',
    IcoTab.convert_to_ico Dialogs.Path "C:/logo.png" None "C:/site/logo.ico"
      (Favicons.studio "") = (Ret tt, w')
    ∧ w_fs w'
      = <[Dialogs.Path "C:/site/logo.ico" :=
            {| n_kind := File (Picture "ICO"
                                 (encode Examples.png64 (Some (sizes_or_all None))));
               n_attrs := no_attrs |}]> (w_fs (Favicons.studio ""))
    ∧ last (w_ui w')
      = Some (messagebox "info" "Success"
                ("ICO file saved to:" +:+ nl +:+ "C:/site/logo.ico" +:+ nl +:+ nl
                 +:+ "Sizes included: " +:+ IcoTab.size_str (sizes_or_all None))).
Proof.
  apply (convert_to_ico_outcome Dialogs.Path "C:/logo.png" None "C:/site/logo.ico"
           (Favicons.studio "")).
  - reflexivity.
  - vm_compute. eauto.
  - vm_compute. reflexivity.
  - discriminate.
Defined.


(** *** Choosing the file *)

(** What the tab holds is coherent: one file or a batch, never both; the
    one file is named [*.png]; the convert button is enabled exactly when
    something is chosen. *)
Definition selection_ok (Path : string → path) (t : IcoTab.state) : Prop :=
  (IcoTab.ico_selected_file t = None ∨ IcoTab.batch_files t = [])
  ∧ (∀ f, IcoTab.ico_selected_file t = Some f → Names.not_png (Path f) = false)
  ∧ (IcoTab.convert_btn_normal t = true
     ↔ is_Some (IcoTab.ico_selected_file t) ∨ IcoTab.batch_files t ≠ []).

Section IcoTabSelection.

Context (Path : string → path).

Lemma update_ico_preview_run (file_path : string) (t : IcoTab.state) (w : world) :
  ∃ t' w',
    IcoTab.update_ico_preview Path file_path t w = (Ret t', w')
    ∧ IcoTab.ico_selected_file t' = IcoTab.ico_selected_file t
    ∧ IcoTab.batch_files t' = IcoTab.batch_files t
    ∧ IcoTab.convert_btn_normal t' = IcoTab.convert_btn_normal t
    ∧ IcoTab.ico_sizes t' = IcoTab.ico_sizes t
    ∧ w_fs w' = w_fs w.
Proof.
  unfold IcoTab.update_ico_preview. rewrite bind_get.
  destruct (w_pillow w) eqn:Hp; cbn [negb]; [|by eexists _, _].
  unfold try_except, bind at 1.
  destruct (image_at w (Path file_path)) as [img|] eqn:Hi.
  - rewrite (Image_open_ok _ img) by done. by eexists _, _.
  - destruct (Image_open_fails _ w Hp Hi) as (e & ->). by eexists _, _.
Qed.

Lemma set_ico_file_run (file_path : string) (t : IcoTab.state) (w : world) :
  ∃ t' w',
    IcoTab.set_ico_file Path file_path t w = (Ret t', w')
    ∧ w_fs w' = w_fs w
    ∧ IcoTab.ico_sizes t' = IcoTab.ico_sizes t
    ∧ (if Names.not_png (Path file_path) then t' = t
       else IcoTab.ico_selected_file t' = Some file_path
            ∧ IcoTab.batch_files t' = []
            ∧ IcoTab.convert_btn_normal t' = true).
Proof.
  unfold IcoTab.set_ico_file.
  destruct (Names.not_png (Path file_path)); [by eexists _, _|].
  unfold bind at 1, modify at 1. unfold bind at 1.
  destruct (update_ico_preview_run file_path
              (IcoTab.enable_convert_btn (IcoTab.select_single file_path t))
              (log_ui (config "ico_file_label"
                         (Names.display_name 35 (name (Path file_path))) "#000000") w))
    as (t' & w' & -> & H1 & H2 & H3 & H4 & Hfs).
  eexists _, _. split; [reflexivity|]. by cbn [w_fs log_ui].
Qed.

Lemma select_batch_files_run (file_paths : list string) (t : IcoTab.state) (w : world) :
  ∃ t' w',
    IcoTab.select_batch_files Path file_paths t w = (Ret t', w')
    ∧ w_fs w' = w_fs w
    ∧ IcoTab.ico_sizes t' = IcoTab.ico_sizes t
    ∧ (if bool_decide (file_paths = []) then t' = t
       else IcoTab.ico_selected_file t' = None
            ∧ IcoTab.batch_files t' = file_paths
            ∧ IcoTab.convert_btn_normal t' = true).
Proof.
  unfold IcoTab.select_batch_files. destruct file_paths as [|first rest]; [by eexists _, _|].
  rewrite bool_decide_eq_false_2 by done.
  unfold bind at 1, modify at 1. unfold bind at 1.
  match goal with
  | |- context [IcoTab.update_ico_preview Path first ?t0 ?w0] =>
      destruct (update_ico_preview_run first t0 w0) as (t' & w' & -> & H1 & H2 & H3 & H4 & Hfs)
  end.
  eexists _, _. split; [reflexivity|]. by cbn [w_fs log_ui].
Qed.

End IcoTabSelection.

(** X11.  Whichever way a file is chosen on the tab (dialog, drop, batch
    dialog), the handler never raises and changes no file, and the tab
    stays coherent: one file or a batch and never both, the one file named
    [*.png] (any case), the convert button enabled exactly when something
    is chosen.  A file that is not named [*.png] is refused and leaves
    the tab as it was; a cancelled dialog does the same. *)
Theorem selection_invariant (Path : string → path) (t : IcoTab.state) (w : world) :
  selection_ok Path t →
  (∀ file_path, ∃ t' w',
     IcoTab.set_ico_file Path file_path t w = (Ret t', w')
     ∧ w_fs w' = w_fs w ∧ selection_ok Path t'
     ∧ (Names.not_png (Path file_path) = true → t' = t))
  ∧ (∀ data, ∃ t' w',
       IcoTab.on_drop_ico Path data t w = (Ret t', w')
       ∧ w_fs w' = w_fs w ∧ selection_ok Path t')
  ∧ (∀ file_path, ∃ t' w',
       IcoTab.select_file_ico Path file_path t w = (Ret t', w')
       ∧ w_fs w' = w_fs w ∧ selection_ok Path t'
       ∧ (file_path = "" → t' = t))
  ∧ (∀ file_paths, ∃ t' w',
       IcoTab.select_batch_files Path file_paths t w = (Ret t', w')
       ∧ w_fs w' = w_fs w ∧ selection_ok Path t'
       ∧ (file_paths = [] → t' = t)).
Proof.
  intros Hok.
  assert (Hset : ∀ file_path, ∃ t' w',
     IcoTab.set_ico_file Path file_path t w = (Ret t', w')
     ∧ w_fs w' = w_fs w ∧ selection_ok Path t'
     ∧ (Names.not_png (Path file_path) = true → t' = t)).
  { intros file_path.
    destruct (set_ico_file_run Path file_path t w) as (t' & w' & Hrun & Hfs & _ & Ht).
    exists t', w'. split; [exact Hrun|]. split; [exact Hfs|].
    destruct (Names.not_png (Path file_path)) eqn:Hpng.
    - subst t'. done.
    - destruct Ht as (H1 & H2 & H3). split; [|done].
      split; [by right|]. split.
      + intros f Hf. rewrite H1 in Hf. by simplify_eq.
      + rewrite H1, H3. split; [by left; eexists | done]. }
  split; [exact Hset|]. split; [|split].
  - intros data. unfold IcoTab.on_drop_ico.
    destruct (Hset (Names.dropped_path data)) as (t' & w' & ? & ? & ? & _). by exists t', w'.
  - intros file_path. unfold IcoTab.select_file_ico.
    destruct (String.eqb_spec file_path "") as [->|Hne]; cbn [negb].
    + by exists t, w.
    + destruct (Hset file_path) as (t' & w' & ? & ? & ? & _). by exists t', w'.
  - intros file_paths.
    destruct (select_batch_files_run Path file_paths t w) as (t' & w' & Hrun & Hfs & _ & Ht).
    exists t', w'. split; [exact Hrun|]. split; [exact Hfs|].
    case_bool_decide as Hnil.
    + subst t'. done.
    + destruct Ht as (H1 & H2 & H3). split; [|done].
      split; [by left|]. split.
      * intros f Hf. rewrite H1 in Hf. done.
      * rewrite H2, H3. split; [by right | done].
Qed.

Lemma selection_invariant_witness :
  (∀ file_path, ∃ t' w',
     IcoTab.set_ico_file Dialogs.Path file_path IcoTab.initial (Favicons.studio "") = (Ret t', w')
     ∧ w_fs w' = w_fs (Favicons.studio "") ∧ selection_ok Dialogs.Path t'
     ∧ (Names.not_png (Dialogs.Path file_path) = true → t' = IcoTab.initial))
  ∧ (∀ data, ∃ t' w',
       IcoTab.on_drop_ico Dialogs.Path data IcoTab.initial (Favicons.studio "") = (Ret t', w')
       ∧ w_fs w' = w_fs (Favicons.studio "") ∧ selection_ok Dialogs.Path t')
  ∧ (∀ file_path, ∃ t' w',
       IcoTab.select_file_ico Dialogs.Path file_path IcoTab.initial (Favicons.studio "")
       = (Ret t', w')
       ∧ w_fs w' = w_fs (Favicons.studio "") ∧ selection_ok Dialogs.Path t'
       ∧ (file_path = "" → t' = IcoTab.initial))
  ∧ (∀ file_paths, ∃ t' w',
       IcoTab.select_batch_files Dialogs.Path file_paths IcoTab.initial (Favicons.studio "")
       = (Ret t', w')
       ∧ w_fs w' = w_fs (Favicons.studio "") ∧ selection_ok Dialogs.Path t'
       ∧ (file_paths = [] → t' = IcoTab.initial)).
Proof.
  apply (selection_invariant Dialogs.Path IcoTab.initial (Favicons.studio "")).
  split; [by left|]. split; [simpl; discriminate|].
  simpl. split; [discriminate|]. intros [[? ?]|?]; done.
Defined.


(** ** Choosing the source and the folder *)

Module FaviconTab.

Definition set_selected_file (p : path) (g : gui) : gui :=
  {| bg_color := bg_color g; theme_color := theme_color g;
     manifest_bg_color := manifest_bg_color g; selected_file := Some p;
     prefix_entry := prefix_entry g; prefix_insert := prefix_insert g;
     process_subfolders := process_subfolders g;
     last_html_snippet := last_html_snippet g |}.

Section WithPath.

Variable Path : string → path.

(** Update the favicon tab preview with the selected image; what is drawn
    on the canvas is not part of the world. *)
Definition update_favicon_preview (file_path : string) : M unit :=
  pillow <- get w_pillow ;;
  if negb pillow then ret tt
  else try_except (_ <- Image_open (Path file_path) ;; ret tt) (fun _ => ret tt).

(** Set the source file for favicon generation. *)
Definition set_source_file (file_path : string) : M unit :=
  let path := Path file_path in
  if Names.not_png path then
    modify (log_ui (messagebox "error" "Error" "Please select a PNG file."))
  else
    modify (set_gui (set_selected_file path)) ;;
    modify (log_ui (config "file_label" (Names.display_name 40 (name path)) "#000000")) ;;
    update_favicon_preview file_path.

(** [file_path] is the answer of the file dialog, empty when cancelled. *)
Definition select_source_file (file_path : string) : M unit :=
  if negb (String.eqb file_path "") then set_source_file file_path else ret tt.

(** Handle dropped files for favicon tab. *)
Definition on_drop_favicon (data : string) : M unit :=
  set_source_file (Names.dropped_path data).

End WithPath.

End FaviconTab.

Module FolderTab.

Section WithPath.

Variable Path : string → path.

(** Handle dropped folders for Folder Icon tab. *)
Definition on_drop_folder (data : string) : M unit :=
  Gui.apply_folder_icon (Path (Names.dropped_path data)).

(** [folder_path] is the answer of the directory dialog, empty when
    cancelled. *)
Definition select_folder (folder_path : string) : M unit :=
  if negb (String.eqb folder_path "") then Gui.apply_folder_icon (Path folder_path)
  else ret tt.

End WithPath.

(** The frame that [update_folder_icon_preview] seeks to before it draws:
    the loop over the frames keeps the first one of the greatest width. *)
Definition best_frame (img : image) : nat :=
  match Cli.n_frames img with
  | Some n =>
      if (1 <? n)%nat then
        (fold_left
           (λ (best : Z * nat) (i : nat),
              if (best.1 <? (Cli.size_at img i).1)%Z then ((Cli.size_at img i).1, i) else best)
           (seq 0 n) (0, 0%nat)).2
      else 0%nat
  | None => 0%nat
  end.

End FolderTab.

(** *** The source of the favicon set *)

(** X12.  [set_source_file] goes by the name alone: a file not named
    [*.png] (in any case) is refused and the selection stays as it was;
    any other is selected, whether or not it exists or is an image, and its
    label shows the name, cut to at most 40 characters.  No file is
    changed and nothing is raised either way. *)
Theorem set_source_file_outcome (Path : string → path) (file_path : string) (w : world) :
  ∃ w',
    FaviconTab.set_source_file Path file_path w = (Ret tt, w')
    ∧ w_fs w' = w_fs w
    ∧ if Names.not_png (Path file_path)
      then w_gui w' = w_gui w
           ∧ w_ui w' = (w_ui w ++ [messagebox "error" "Error" "Please select a PNG file."])%list
      else selected_file (w_gui w') = Some (Path file_path)
           ∧ prefix_entry (w_gui w') = prefix_entry (w_gui w)
           ∧ ∃ label,
               w_ui w' = (w_ui w ++ [config "file_label" label "#000000"])%list
               ∧ Gui.py_len label <= 40
               ∧ (Gui.py_len (name (Path file_path)) <= 40 → label = name (Path file_path)).
Proof.
  unfold FaviconTab.set_source_file.
  destruct (Names.not_png (Path file_path)); [by eexists|].
  unfold bind at 1, modify at 1. unfold bind at 1, modify at 1.
  unfold FaviconTab.update_favicon_preview. rewrite bind_get.
  cbn [w_pillow log_ui set_gui].
  destruct (display_name_length 40 (name (Path file_path))) as [Hlen Hshort]; [lia|].
  destruct (w_pillow w) eqn:Hp; cbn [negb].
  - unfold try_except, bind.
    match goal with
    | |- context [Image_open ?p ?w0] =>
        destruct (image_at w0 p) as [img|] eqn:Hi;
        [rewrite (Image_open_ok p img w0) by done
        |destruct (Image_open_fails p w0 Hp Hi) as (e & ->)]
    end;
      (eexists; split; [reflexivity|]; split; [reflexivity|];
       split; [reflexivity|]; split; [reflexivity|]; eexists; split; [reflexivity|]; done).
  - eexists; split; [reflexivity|]; split; [reflexivity|].
    split; [reflexivity|]. split; [reflexivity|]. eexists. split; [reflexivity|]. done.
Qed.

(** *** Drops *)

Lemma endswith_snoc (c : ascii) (s : string) : Names.endswith c (s +:+ String c "") = true.
Proof.
  induction s as [|x s IH]; [apply Ascii.eqb_refl|].
  change (String x s +:+ String c "") with (String x (s +:+ String c "")).
  simpl. destruct (s +:+ String c "") eqn:E; [by destruct s | exact IH].
Qed.

Lemma length_app_string (a b : string) :
  String.length (a +:+ b) = (String.length a + String.length b)%nat.
Proof.
  induction a as [|x a IH]; [done|].
  change (String x a +:+ b) with (String x (a +:+ b)). simpl. by rewrite IH.
Qed.

Lemma substring_prefix (a b : string) : substring 0 (String.length a) (a +:+ b) = a.
Proof.
  induction a as [|x a IH]; [by destruct b|].
  change (String x a +:+ b) with (String x (a +:+ b)). simpl. by rewrite IH.
Qed.

Lemma dropped_path_braces (s : string) : Names.dropped_path ("{" +:+ s +:+ "}") = s.
Proof.
  unfold Names.dropped_path.
  change ("{" +:+ s +:+ "}") with (String "{" (s +:+ "}")).
  cbn [Names.startswith]. rewrite Ascii.eqb_refl. cbn [andb].
  assert (He : Names.endswith "}" (String "{" (s +:+ "}")) = true).
  { simpl. destruct (s +:+ "}") eqn:E; [by destruct s|]. rewrite <- E. apply endswith_snoc. }
  rewrite He. cbn [String.length substring].
  rewrite length_app_string. cbn [String.length].
  replace (S (String.length s + 1) - 2)%nat with (String.length s) by lia.
  apply substring_prefix.
Qed.

(** X13.  A dropped path that comes in braces, as it does when it holds
    blanks, is handled as the path inside the braces, on each of the three
    tabs; a drop that does not begin with a brace is taken as it is. *)
Theorem drop_in_braces (Path : string → path) (s : string) :
  FolderTab.on_drop_folder Path ("{" +:+ s +:+ "}") = Gui.apply_folder_icon (Path s)
  ∧ FaviconTab.on_drop_favicon Path ("{" +:+ s +:+ "}") = FaviconTab.set_source_file Path s
  ∧ IcoTab.on_drop_ico Path ("{" +:+ s +:+ "}") = IcoTab.set_ico_file Path s
  ∧ (Names.startswith "{" s = false →
     FolderTab.on_drop_folder Path s = Gui.apply_folder_icon (Path s)
     ∧ FaviconTab.on_drop_favicon Path s = FaviconTab.set_source_file Path s
     ∧ IcoTab.on_drop_ico Path s = IcoTab.set_ico_file Path s).
Proof.
  unfold FolderTab.on_drop_folder, FaviconTab.on_drop_favicon, IcoTab.on_drop_ico.
  rewrite dropped_path_braces. do 3 (split; [reflexivity|]).
  intros H. unfold Names.dropped_path. by rewrite H.
Qed.

(** *** The frame of the preview *)

Section BestFrame.

Context (f : nat → Z).

Definition keep_best (best : Z * nat) (i : nat) : Z * nat :=
  if (best.1 <? f i)%Z then (f i, i) else best.

Lemma keep_best_fold (n : nat) :
  (∀ i, (i < n)%nat → 0 < f i) →
  (0 < n)%nat →
  let best := fold_left keep_best (seq 0 n) (0, 0%nat) in
  (best.2 < n)%nat ∧ best.1 = f best.2
  ∧ (∀ i, (i < n)%nat → f i <= best.1)
  ∧ (∀ i, (i < best.2)%nat → f i < best.1).
Proof.
  intros Hpos Hn. induction n as [|n IH]; [lia|].
  rewrite seq_S, fold_left_app. simpl.
  destruct n as [|n].
  - simpl. unfold keep_best. simpl.
    assert (0 < f 0%nat) by (apply Hpos; lia).
    destruct (Z.ltb_spec 0 (f 0%nat)); [|lia]. simpl.
    split; [lia|]. split; [done|]. split; [|lia].
    intros i Hi. replace i with 0%nat by lia. lia.
  - destruct IH as (Hb & He & Hle & Hlt); [intros i Hi; apply Hpos; lia | lia |].
    set (best := fold_left keep_best (seq 0 (S n)) (0, 0%nat)) in *.
    destruct (Z.ltb_spec best.1 (f (S n))) as [H|H].
    + assert (E : keep_best best (S n) = (f (S n), S n)).
      { unfold keep_best. destruct (Z.ltb_spec best.1 (f (S n))); [done | lia]. }
      rewrite E. simpl.
      split; [lia|]. split; [done|]. split.
      * intros i Hi. destruct (decide (i = S n)) as [->|]; [lia|].
        specialize (Hle i ltac:(lia)). lia.
      * intros i Hi. specialize (Hle i Hi). lia.
    + assert (E : keep_best best (S n) = best).
      { unfold keep_best. destruct (Z.ltb_spec best.1 (f (S n))); [lia | done]. }
      rewrite E.
      split; [lia|]. split; [done|]. split; [|done].
      intros i Hi. destruct (decide (i = S n)) as [->|]; [lia|]. apply Hle. lia.
Qed.

End BestFrame.

(** X14.  The folder preview draws the widest frame of the icon, and of
    several frames of that width the first. *)
Theorem best_frame_widest (img : image) :
  (∀ i, (i < length (frame_sizes img))%nat → 0 < (Cli.size_at img i).1) →
  let b := FolderTab.best_frame img in
  (b < length (frame_sizes img))%nat
  ∧ (∀ i, (i < length (frame_sizes img))%nat → (Cli.size_at img i).1 <= (Cli.size_at img b).1)
  ∧ (∀ i, (i < b)%nat → (Cli.size_at img i).1 < (Cli.size_at img b).1).
Proof.
  intros Hpos. unfold FolderTab.best_frame, Cli.n_frames.
  destruct img as [mode size [more|]].
  2: { cbn. split; [lia|]. split; [|lia]. intros i Hi. replace i with 0%nat by lia. lia. }
  destruct more as [|s more].
  { cbn. split; [lia|]. split; [|lia]. intros i Hi. replace i with 0%nat by lia. lia. }
  set (img := {| im_mode := mode; im_size := size; im_more := Some (s :: more) |}) in *.
  pose proof (keep_best_fold (λ i, (Cli.size_at img i).1)
                (S (length (s :: more))) Hpos ltac:(lia)) as H.
  cbv zeta in H. destruct H as (Hb & He & Hle & Hlt).
  rewrite He in Hle, Hlt.
  exact (conj Hb (conj Hle Hlt)).
Qed.

Lemma best_frame_widest_witness :
  (FolderTab.best_frame Examples.icon_full < 4)%nat
  ∧ (∀ i, (i < 4)%nat →
          (Cli.size_at Examples.icon_full i).1
          <= (Cli.size_at Examples.icon_full (FolderTab.best_frame Examples.icon_full)).1)
  ∧ (∀ i, (i < FolderTab.best_frame Examples.icon_full)%nat →
          (Cli.size_at Examples.icon_full i).1
          < (Cli.size_at Examples.icon_full (FolderTab.best_frame Examples.icon_full)).1).
Proof.
  apply (best_frame_widest Examples.icon_full).
  intros i Hi. simpl in Hi.
  destruct i as [|[|[|[|i]]]]; vm_compute; try reflexivity. lia.
Defined.


(** ** What [set_folder_icon] leaves behind *)

Ltac look :=
  repeat first
    [ rewrite lookup_alter_eq | rewrite lookup_insert_eq
    | rewrite lookup_alter_ne by done | rewrite lookup_insert_ne by done ].

(** X15.  When [set_folder_icon] returns [True], the folder is a
    directory, [attrib] was run with [+s] on the folder and then with [+s]
    and [+h] on [desktop.ini], after a run with [-s -h -r] on a
    [desktop.ini] that was there before; [desktop.ini] holds the
    descriptor; and no path but the folder and [desktop.ini] has changed.
    (Which attributes the folder then carries is up to [attrib], whose exit
    status the program drops.) *)
Theorem set_folder_icon_calls (folder_path ico_path : path) (use_absolute_path : bool)
    (w w' : world) :
  Cli.set_folder_icon folder_path ico_path use_absolute_path w = (Ret PyTrue, w') →
  lookup_kind w folder_path = Some Dir
  ∧ w_calls w'
    = (w_calls w
       ++ (if bool_decide (is_Some (w_fs w !! (folder_path // "desktop.ini")))
           then [attrib_call ["-s"; "-h"; "-r"; path_str (folder_path // "desktop.ini")]]
           else [])
       ++ [attrib_call ["+s"; path_str folder_path];
           attrib_call ["+s"; "+h"; path_str (folder_path // "desktop.ini")]])%list
  ∧ lookup_kind w' (folder_path // "desktop.ini")
    = Some (File (Text (desktop_ini_content (icon_ref w ico_path use_absolute_path))))
  ∧ lookup_kind w' folder_path = Some Dir
  ∧ (∀ q, q ≠ folder_path → q ≠ folder_path // "desktop.ini" → w_fs w' !! q = w_fs w !! q).
Proof.
  pose proof (joinpath_ne_self folder_path "desktop.ini") as Hne.
  pose proof (joinpath_ne_nil folder_path "desktop.ini") as Hnil.
  unfold desktop_ini_content, icon_ref.
  cbv beta iota zeta delta [Cli.set_folder_icon try_except bind path_exists when attrib
    write_text write_file get modify ret raise lookup_kind].
  rewrite parent_joinpath.
  destruct (w_fs w !! (folder_path // "desktop.ini")) as [[[|d] a]|] eqn:Ed;
  destruct (w_attrib w) eqn:Ea;
  destruct (w_fs w !! folder_path) as [[[|d'] a']|] eqn:Ef;
  destruct use_absolute_path;
  repeat (progress (simpl;
    rewrite ?lookup_alter_eq, ?lookup_insert_eq;
    rewrite ?lookup_alter_ne, ?lookup_insert_ne by done;
    rewrite ?Ea, ?Ed, ?Ef, ?clear_attrs;
    rewrite ?bool_decide_eq_true_2 by done));
  intros Hrun; try discriminate Hrun;
  injection Hrun as <-; simpl;
  (split; [reflexivity|]);
  (split; [rewrite ?bool_decide_eq_true_2 by (by eexists);
           rewrite ?(bool_decide_eq_false_2 (is_Some None)) by (by intros [? ?]);
           rewrite <- ?app_assoc; reflexivity|]);
  (split; [look; rewrite ?Ed; reflexivity|]);
  (split; [look; rewrite ?Ef; reflexivity|]);
  intros q Hq1 Hq2; look; reflexivity.
Qed.

Lemma set_folder_icon_calls_witness :
  let w := Examples.one_subfolder in
  let ico := Examples.proj // "folder.ico" in
  let w' := (Cli.set_folder_icon Examples.proj ico false w).2 in
  lookup_kind w Examples.proj = Some Dir
  ∧ w_calls w'
    = (w_calls w
       ++ (if bool_decide (is_Some (w_fs w !! (Examples.proj // "desktop.ini")))
           then [attrib_call ["-s"; "-h"; "-r"; path_str (Examples.proj // "desktop.ini")]]
           else [])
       ++ [attrib_call ["+s"; path_str Examples.proj];
           attrib_call ["+s"; "+h"; path_str (Examples.proj // "desktop.ini")]])%list
  ∧ lookup_kind w' (Examples.proj // "desktop.ini")
    = Some (File (Text (desktop_ini_content (icon_ref w ico false))))
  ∧ lookup_kind w' Examples.proj = Some Dir
  ∧ (∀ q, q ≠ Examples.proj → q ≠ Examples.proj // "desktop.ini" →
          w_fs w' !! q = w_fs w !! q).
Proof.
  apply (set_folder_icon_calls Examples.proj (Examples.proj // "folder.ico") false
           Examples.one_subfolder
           (Cli.set_folder_icon Examples.proj (Examples.proj // "folder.ico") false
              Examples.one_subfolder).2).
  vm_compute. reflexivity.
Defined.

(** ** The icon that the GUI previews *)

Lemma Gui_psf_True (f : path) (w w' : world) (o : option path) :
  Gui.process_single_folder f w = (Ret (PyTrue, o), w') → o = Some (f // "folder.ico").
Proof.
  assert (Hlift : ∀ w0,
    lift_with_ico (f // "folder.ico") (Cli.set_folder_icon f (f // "folder.ico") false w0)
    = (Ret (PyTrue, o), w') → o = Some (f // "folder.ico")).
  { intros w0. unfold lift_with_ico, Cli.with_ico.
    destruct (Cli.set_folder_icon f (f // "folder.ico") false w0) as [[[| |]|e] w1];
      simpl; intros H; by simplify_eq. }
  destruct (w_fs w !! (f // "folder.ico")) as [n|] eqn:Hi.
  { rewrite Gui_psf_keep by (by rewrite Hi). apply Hlift. }
  destruct (w_fs w !! (f // "folder.png")) as [g|] eqn:Hg.
  2: { by rewrite Gui_psf_no_source by done. }
  assert (HgS : is_Some (w_fs w !! (f // "folder.png"))) by (by rewrite Hg).
  destruct (w_pillow w) eqn:Hp.
  2: { destruct (Gui_psf_convert_fails f w Hi HgS) as (e & w1 & _ & ->); [by left | done]. }
  destruct (image_at w (f // "folder.png")) as [img|] eqn:Him.
  2: { destruct (Gui_psf_convert_fails f w Hi HgS) as (e & w1 & _ & ->);
         [by right; left | done]. }
  destruct (writable w (f // "folder.ico")) eqn:Hw.
  2: { destruct (Gui_psf_convert_fails f w Hi HgS) as (e & w1 & _ & ->);
         [by right; right | done]. }
  rewrite (Gui_psf_convert f w img) by done. apply Hlift.
Qed.

Lemma attempt_each_Forall (attempt : path → M verdict) (P : path * verdict → Prop) :
  (∀ f w r w', attempt f w = (Ret r, w') → P (f, r)) →
  ∀ items w outs w', attempt_each attempt items w = (Ret outs, w') → Forall P outs.
Proof.
  intros HP items. induction items as [|f items IH]; intros w outs w'; simpl.
  - intros [= <- _]. constructor.
  - unfold bind. destruct (attempt f w) as [[r|e] w1] eqn:Hr; [|done].
    destruct (attempt_each attempt items w1) as [[rs|e] w2] eqn:Hrs; [|done].
    intros [= <- _]. constructor; [by eapply HP | by eapply IH].
Qed.

(** The icon of the first item that succeeded. *)
Definition first_success (outs : list (path * verdict)) : option path :=
  (λ o : path * verdict, o.1 // "folder.ico")
    <$> head (filter (λ o : path * verdict, is_True o.2.1 = true) outs).

Lemma Gui_count_all_last (outs : list (path * verdict)) (st : Gui.counts) :
  Forall (λ o : path * verdict, o.2.1 = PyTrue → o.2.2 = Some (o.1 // "folder.ico")) outs →
  Gui.last_ico_path (count_all (Gui.count_result false) outs st)
  = match Gui.last_ico_path st with
    | Some p => Some p
    | None => first_success outs
    end.
Proof.
  unfold count_all, first_success. intros Hall. revert st.
  induction Hall as [|[f [r o]] outs Hr _ IH]; intros st; simpl.
  - by destruct (Gui.last_ico_path st).
  - rewrite IH. rewrite filter_cons. unfold Gui.count_result. simpl in *.
    destruct r; case_decide; simpl in *; try done.
    rewrite Hr by done. by destruct (Gui.last_ico_path st).
Qed.

(** X16.  The icon handed to the preview after a batch of the GUI is the
    [folder.ico] of the first folder that succeeded, in the order of
    processing: the target's if the target succeeded, else that of the
    first subfolder that did; it is none exactly when nothing succeeded. *)
Theorem Gui_preview_first_success (folder : path) (w : world) :
  kind_is_dir (lookup_kind w folder) = true →
  process_subfolders (w_gui w) = true →
  ∃ r w1 subs outs w' st,
    Gui.process_single_folder folder w = (Ret r, w1)
    ∧ subs ≡ₚ subdirs w folder
    ∧ attempt_each Gui.process_single_folder subs w1 = (Ret outs, w')
    ∧ outs.*1 = subs
    ∧ Gui.tally folder w = (Ret st, w')
    ∧ Gui.last_ico_path st = first_success ((folder, r) :: outs).
Proof.
  intros Hdir Hsub.
  destruct (Gui_psf_returns_verdict folder w) as (r & w1 & Hr & Hn).
  assert (D1 : ∀ q, kind_is_dir (lookup_kind w1 q) = kind_is_dir (lookup_kind w q)).
  { intros q. pose proof (Gui_psf_dirs folder w q) as H. by rewrite Hr in H. }
  assert (G1 : w_gui w1 = w_gui w).
  { pose proof (eff_gui _ _ _ _ _ (Gui_process_single_folder_effect folder w)) as H.
    by rewrite Hr in H. }
  set (st0 := Gui.count_result true folder r
                {| Gui.processed := 0; Gui.errors := []; Gui.last_ico_path := None |}).
  destruct (for_each_attempts Gui.process_single_folder (Gui.count_result false)
              Gui_psf_returns_verdict Gui_psf_dirs
              w1 (children (w_fs w1) folder) st0 w1)
    as (outs & w' & Hrun & Hloop); [done|].
  destruct (attempt_each_returns Gui.process_single_folder
              Gui_psf_returns_verdict Gui_psf_dirs
              (filter (λ q, kind_is_dir (lookup_kind w1 q) = true) (children (w_fs w1) folder)) w1)
    as (outs' & w'' & Hrun' & Hfst & Hall & _).
  rewrite Hrun in Hrun'. simplify_eq.
  exists r, w1, (subdirs w1 folder), outs', w'', (count_all (Gui.count_result false) outs' st0).
  split; [done|]. split; [by apply subdirs_same_dirs|]. split; [exact Hrun|].
  split; [exact Hfst|]. split.
  - unfold Gui.tally. unfold bind at 1. rewrite Hr. rewrite bind_get, G1, Hsub.
    unfold iterdir, bind, is_dir, get. rewrite D1, Hdir. exact Hloop.
  - rewrite Gui_count_all_last.
    + unfold st0, first_success, Gui.count_result. rewrite filter_cons.
      destruct r as [[| |] o] eqn:Er; case_decide; simpl in *; try done.
      by rewrite (Gui_psf_True folder w w1 o Hr).
    + eapply (attempt_each_Forall Gui.process_single_folder); [|exact Hrun].
      intros f w0 [r0 o0] w0' H0. simpl. intros ->. by eapply Gui_psf_True.
Qed.

Lemma Gui_preview_first_success_witness :
  ∃ r w1 subs outs w' st,
    Gui.process_single_folder Examples.proj Examples.one_subfolder = (Ret r, w1)
    ∧ subs ≡ₚ subdirs Examples.one_subfolder Examples.proj
    ∧ attempt_each Gui.process_single_folder subs w1 = (Ret outs, w')
    ∧ outs.*1 = subs
    ∧ Gui.tally Examples.proj Examples.one_subfolder = (Ret st, w')
    ∧ Gui.last_ico_path st = first_success ((Examples.proj, r) :: outs).
Proof.
  apply (Gui_preview_first_success Examples.proj Examples.one_subfolder); reflexivity.
Defined.


(** ** What the favicon generation can reach *)

(** From [w] to [w'] no path outside [W] changed. *)
Definition only_written (W : path → Prop) (w w' : world) : Prop :=
  ∀ q, ¬ W q → w_fs w' !! q = w_fs w !! q.

#[global] Instance only_written_preorder W : PreOrder (only_written W).
Proof.
  split.
  - by intros w q _.
  - intros w1 w2 w3 H12 H23 q Hq. by rewrite H23, H12.
Qed.

Lemma only_written_same_fs W (f : world → world) :
  (∀ w, w_fs (f w) = w_fs w) → preserves (only_written W) (modify f).
Proof. intros Hf w q _. unfold modify. simpl. by rewrite Hf. Qed.

Lemma only_written_write_file (W : path → Prop) p d :
  W p → preserves (only_written W) (write_file p d).
Proof.
  intros Hp w q Hq. unfold write_file, raise.
  destruct (negb _); [done|].
  destruct (w_fs w !! p) as [[[|d0] a]|]; simpl; try done.
  - destruct (any_attr a); simpl; [done|]. rewrite lookup_insert_ne; [done | congruence].
  - rewrite lookup_insert_ne; [done | congruence].
Qed.

Lemma only_written_Image_save (W : path → Prop) img p fmt sizes :
  W p → preserves (only_written W) (Image_save img p fmt sizes).
Proof.
  intros Hp. unfold Image_save.
  papply preserves_bind; [by apply only_written_same_fs | intros _].
  by apply only_written_write_file.
Qed.

Lemma only_written_Image_open (W : path → Prop) p :
  preserves (only_written W) (Image_open p).
Proof.
  unfold Image_open.
  papply preserves_bind; [papply preserves_get | intros pillow].
  destruct (negb pillow); [papply preserves_raise|].
  papply preserves_bind; [by apply only_written_same_fs | intros _].
  papply preserves_bind; [papply preserves_get | intros n].
  destruct n as [[[|[]] ?]|]; first [papply preserves_raise | papply preserves_ret].
Qed.

Lemma only_written_int16 (W : path → Prop) s : preserves (only_written W) (Gui.int16 s).
Proof.
  unfold Gui.int16. destruct s; [papply preserves_raise|].
  destruct (Gui.hex_value _ _); [papply preserves_ret | papply preserves_raise].
Qed.

Lemma only_written_apple (W : path → Prop) img size :
  preserves (only_written W) (Gui.create_apple_touch_icon img size).
Proof.
  unfold Gui.create_apple_touch_icon.
  papply preserves_bind; [papply preserves_get | intros bg].
  papply preserves_bind; [apply only_written_int16 | intros r].
  papply preserves_bind; [apply only_written_int16 | intros g].
  papply preserves_bind; [apply only_written_int16 | intros b].
  papply preserves_ret.
Qed.

(** The [try] block once the prefix is read. *)
Lemma write_favicon_set_reach (source out : path) (w : world) :
  only_written
    (λ q, ∃ base, base ∈ FAVICON_SET
                  ∧ q = out // (Gui.strip (prefix_entry (w_gui w)) +:+ base))
    w (Gui.write_favicon_set source out w).2.
Proof.
  set (p := Gui.strip (prefix_entry (w_gui w))).
  set (W := λ q, ∃ base, base ∈ FAVICON_SET ∧ q = out // (p +:+ base)).
  assert (HW : ∀ base, base ∈ FAVICON_SET → W (out // (p +:+ base))).
  { intros base Hb. by exists base. }
  unfold Gui.write_favicon_set. unfold bind at 1, modify at 1. rewrite bind_get.
  cbn [w_gui log_ui]. fold p.
  match goal with
  | |- only_written W w (?m ?w0).2 =>
      assert (Hm : preserves (only_written W) m); [|
        transitivity w0; [by intros q _ | apply Hm]]
  end.
  papply preserves_bind; [apply only_written_Image_open | intros img].
  papply preserves_bind; [apply only_written_Image_save, HW; in_favicon_set | intros _].
  papply preserves_bind.
  { apply preserves_for_each_Forall; [apply _|].
    unfold Gui.png_sizes. repeat constructor; intros s; unfold Gui.save_png; cbn [fst snd];
      (papply preserves_bind; [apply only_written_Image_save, HW; in_favicon_set | intros _]);
      papply preserves_ret. }
  intros files.
  papply preserves_bind; [apply only_written_apple | intros apple].
  papply preserves_bind; [apply only_written_Image_save, HW; in_favicon_set | intros _].
  papply preserves_bind; [papply preserves_get | intros theme].
  papply preserves_bind; [papply preserves_get | intros background].
  papply preserves_bind; [apply only_written_write_file, HW; in_favicon_set | intros _].
  papply preserves_bind; [by apply only_written_same_fs | intros _].
  papply preserves_bind; [papply preserves_get | intros snippet].
  papply preserves_bind; [apply only_written_write_file, HW; in_favicon_set | intros _].
  papply preserves_ret.
Qed.

(** X17.  With a prefix that holds no separator and no colon (the text of
    the entry, stripped), [generate_favicon_set] never raises, and whatever
    happens, a complete run or one that fails half-way, it changes no path
    but the eight files of the set in the chosen directory. *)
Theorem generate_favicon_set_reach (output_dir : option path) (w : world) (q : path) :
  is_anchor (Gui.strip (prefix_entry (w_gui w))) = false →
  (∀ out base, output_dir = Some out → base ∈ FAVICON_SET →
               q ≠ out // (Gui.strip (prefix_entry (w_gui w)) +:+ base)) →
  ∃ w',
    Gui.generate_favicon_set output_dir w = (Ret tt, w')
    ∧ w_fs w' !! q = w_fs w !! q.
Proof.
  intros _ Hq. unfold Gui.generate_favicon_set. rewrite bind_get.
  destruct (negb (w_pillow w)); [by eexists|]. rewrite bind_get.
  destruct (selected_file (w_gui w)) as [source|]; [|by eexists].
  destruct output_dir as [out|]; [|by eexists].
  pose proof (write_favicon_set_reach source out w q) as Hreach.
  unfold try_except, bind at 1.
  destruct (Gui.write_favicon_set source out w) as [[files|e] w1]; simpl in Hreach.
  - eexists. split; [reflexivity|]. cbn [w_fs log_ui]. apply Hreach.
    intros (base & Hb & ->). by apply (Hq out base).
  - eexists. split; [reflexivity|]. cbn [w_fs log_ui]. apply Hreach.
    intros (base & Hb & ->). by apply (Hq out base).
Qed.

Lemma generate_favicon_set_reach_witness :
  ∃ w',
    Gui.generate_favicon_set (Some Favicons.site) (Favicons.studio "site-") = (Ret tt, w')
    ∧ w_fs w' !! Favicons.logo = w_fs (Favicons.studio "site-") !! Favicons.logo.
Proof.
  apply (generate_favicon_set_reach (Some Favicons.site) (Favicons.studio "site-")
           Favicons.logo).
  - vm_compute. reflexivity.
  - intros out base [= <-] Hb. vm_compute. discriminate.
Defined.

(** X18.  [generate_favicon_set] writes nothing at all when Pillow is
    missing, no source is selected, the directory dialog is cancelled, or
    the selected source does not open as an image. *)
Theorem generate_favicon_set_refused (output_dir : option path) (w : world) :
  w_pillow w = false
  ∨ selected_file (w_gui w) = None
  ∨ output_dir = None
  ∨ (∃ source, selected_file (w_gui w) = Some source ∧ image_at w source = None) →
  ∃ w',
    Gui.generate_favicon_set output_dir w = (Ret tt, w')
    ∧ w_fs w' = w_fs w
    ∧ prefix_entry (w_gui w') = prefix_entry (w_gui w).
Proof.
  intros H. unfold Gui.generate_favicon_set. rewrite bind_get.
  destruct (w_pillow w) eqn:Hp; cbn [negb]; [|by eexists]. rewrite bind_get.
  destruct (selected_file (w_gui w)) as [source|] eqn:Hs; [|by eexists].
  destruct output_dir as [out|]; [|by eexists].
  destruct H as [H|[H|[H|(src & Hsrc & Hi)]]]; try done. simplify_eq.
  unfold try_except, Gui.write_favicon_set. unfold bind at 1. unfold bind at 1, modify at 1.
  rewrite bind_get. unfold bind at 1.
  destruct (Image_open_fails src (log_ui (config "favicon_status" "Generating..." "blue") w)
              Hp Hi) as (e & ->).
  by eexists.
Qed.

Lemma generate_favicon_set_refused_witness :
  ∃ w',
    Gui.generate_favicon_set (Some Favicons.site) (Examples.png_only) = (Ret tt, w')
    ∧ w_fs w' = w_fs Examples.png_only
    ∧ prefix_entry (w_gui w') = prefix_entry (w_gui Examples.png_only).
Proof.
  apply (generate_favicon_set_refused (Some Favicons.site) Examples.png_only).
  right. left. reflexivity.
Defined.

(** ** The prefix once validated *)

Lemma filter_idemp {A} (P : A → Prop) `{!∀ x, Decision (P x)} (l : list A) :
  filter P (filter P l) = filter P l.
Proof.
  induction l as [|x l IH]; [done|]. rewrite filter_cons.
  destruct (decide (P x)); [|done]. rewrite filter_cons, decide_True by done. by rewrite IH.
Qed.

Lemma re_sub_invalid_idemp (s : string) :
  Gui.re_sub_invalid (Gui.re_sub_invalid s) = Gui.re_sub_invalid s.
Proof.
  unfold Gui.re_sub_invalid at 1. rewrite re_sub_invalid_chars, filter_idemp. reflexivity.
Qed.

Lemma prefix_char_ok_ascii (c : ascii) :
  Gui.prefix_char_ok c = true → Gui.is_space c = false ∧ Names.continues c = false.
Proof.
  unfold Gui.prefix_char_ok, Gui.is_space, Names.continues.
  set (n := nat_of_ascii c). cbv zeta. intros H.
  rewrite !orb_true_iff, !andb_true_iff, !Nat.leb_le, !Nat.eqb_eq in H.
  split; apply not_true_is_false;
    rewrite ?orb_true_iff, !andb_true_iff, !Nat.leb_le; lia.
Qed.

Lemma prefix_char_ok_byte (c : ascii) :
  Gui.prefix_char_ok c = true → (nat_of_ascii c < 128)%nat.
Proof.
  unfold Gui.prefix_char_ok. set (n := nat_of_ascii c). cbv zeta. intros H.
  rewrite !orb_true_iff, !andb_true_iff, !Nat.leb_le, !Nat.eqb_eq in H. lia.
Qed.

Lemma re_sub_invalid_Forall (s : string) :
  Forall (λ c, Gui.prefix_char_ok c = true) (list_ascii_of_string (Gui.re_sub_invalid s)).
Proof.
  rewrite re_sub_invalid_chars. apply Forall_forall. intros c Hc.
  by apply list_elem_of_filter in Hc as [Hc _].
Qed.

(** A text of ASCII characters that are no white space has nothing to
    strip, at either end. *)
Definition no_space (c : ascii) : Prop :=
  Gui.is_space c = false ∧ (nat_of_ascii c < 128)%nat.

Lemma drop_space_none (two : ascii → ascii → bool) (three : ascii → ascii → ascii → bool)
    (l : list ascii) :
  (∀ a b, (nat_of_ascii a < 128)%nat → two a b = false) →
  (∀ a b c, (nat_of_ascii a < 128)%nat → three a b c = false) →
  Forall no_space l → Gui.drop_space two three l = l.
Proof.
  intros H2 H3 [|a l1 [Ha Hlt] _]; simpl; [done|]. rewrite Ha.
  destruct l1 as [|b l2]; [done|]. rewrite (H2 a b Hlt).
  destruct l2 as [|c l3]; [done|]. by rewrite (H3 a b c Hlt).
Qed.

Lemma lstrip_no_space (l : list ascii) : Forall no_space l → Gui.lstrip l = l.
Proof.
  apply drop_space_none.
  - intros a b Ha. unfold Gui.is_space2. cbv zeta. apply not_true_is_false.
    rewrite !andb_true_iff, !orb_true_iff, !Nat.eqb_eq. lia.
  - intros a b c Ha. unfold Gui.is_space3. cbv zeta. apply not_true_is_false.
    rewrite !orb_true_iff, !andb_true_iff, !orb_true_iff, !andb_true_iff,
      !Nat.eqb_eq, !Nat.leb_le. lia.
Qed.

Lemma rstrip_rev_no_space (l : list ascii) : Forall no_space l → Gui.rstrip_rev l = l.
Proof.
  apply drop_space_none.
  - intros a b Ha. unfold Gui.is_space2. cbv zeta. apply not_true_is_false.
    rewrite !andb_true_iff, !orb_true_iff, !Nat.eqb_eq. lia.
  - intros a b c Ha. unfold Gui.is_space3. cbv zeta. apply not_true_is_false.
    rewrite !orb_true_iff, !andb_true_iff, !orb_true_iff, !andb_true_iff,
      !Nat.eqb_eq, !Nat.leb_le. lia.
Qed.

Lemma strip_no_space (s : string) :
  Forall no_space (list_ascii_of_string s) → Gui.strip s = s.
Proof.
  intros H. unfold Gui.strip. rewrite (lstrip_no_space _ H).
  rewrite rstrip_rev_no_space by (by apply Forall_rev).
  by rewrite rev_involutive, string_of_list_ascii_of_string.
Qed.

(** A validated prefix has no blanks to strip. *)
Lemma strip_re_sub_invalid (s : string) :
  Gui.strip (Gui.re_sub_invalid s) = Gui.re_sub_invalid s.
Proof.
  apply strip_no_space. eapply Forall_impl; [apply re_sub_invalid_Forall|].
  intros c Hc. split; [by apply prefix_char_ok_ascii | by apply prefix_char_ok_byte].
Qed.

Lemma py_len_re_sub_invalid (s : string) : Gui.py_len (Gui.re_sub_invalid s) <= Gui.py_len s.
Proof.
  unfold Gui.py_len. rewrite re_sub_invalid_chars.
  induction (list_ascii_of_string s) as [|c l IH]; [done|].
  rewrite (filter_cons (λ c, Gui.prefix_char_ok c = true)).
  destruct (decide (Gui.prefix_char_ok c = true)) as [Hc|Hc].
  - rewrite !filter_cons. destruct (decide _); simpl length; lia.
  - rewrite filter_cons. destruct (decide _); simpl length; lia.
Qed.

Lemma validate_prefix_run (w : world) :
  let current := prefix_entry (w_gui w) in
  let valid := Gui.re_sub_invalid current in
  Gui.validate_prefix w
  = (Ret tt,
     if String.eqb current valid then w
     else log_ui (after_config_fg 500 "prefix_hint" "#888888")
            (log_ui (config_fg "prefix_hint" "#cc0000")
               (set_gui (Gui.set_prefix_entry valid
                           (Z.max 0 (prefix_insert (w_gui w)
                                     - (Gui.py_len current - Gui.py_len valid)))) w))).
Proof.
  cbv zeta. unfold Gui.validate_prefix. rewrite bind_get.
  by destruct (String.eqb _ _).
Qed.

(** X19.  The key-release handler keeps the cursor inside the text: from
    a cursor between 0 and the length of the entry it leaves one between 0
    and the length of what remains; and once it has run it has nothing
    more to do, a second run changes nothing. *)
Theorem validate_prefix_cursor (w : world) :
  0 <= prefix_insert (w_gui w) <= Gui.py_len (prefix_entry (w_gui w)) →
  ∃ w',
    Gui.validate_prefix w = (Ret tt, w')
    ∧ 0 <= prefix_insert (w_gui w') <= Gui.py_len (prefix_entry (w_gui w'))
    ∧ Gui.validate_prefix w' = (Ret tt, w').
Proof.
  intros Hpos. pose proof (validate_prefix_run w) as Hrun. cbv zeta in Hrun.
  pose proof (py_len_re_sub_invalid (prefix_entry (w_gui w))) as Hlen.
  destruct (String.eqb_spec (prefix_entry (w_gui w))
              (Gui.re_sub_invalid (prefix_entry (w_gui w)))) as [E|E].
  - exists w. done.
  - eexists. split; [exact Hrun|]. split.
    + cbn [w_gui log_ui set_gui prefix_insert prefix_entry Gui.set_prefix_entry].
      pose proof (py_len_nonneg (Gui.re_sub_invalid (prefix_entry (w_gui w)))). lia.
    + rewrite validate_prefix_run.
      cbn [w_gui log_ui set_gui prefix_insert prefix_entry Gui.set_prefix_entry].
      by rewrite re_sub_invalid_idemp, String.eqb_refl.
Qed.

Lemma validate_prefix_cursor_witness :
  ∃ w',
    Gui.validate_prefix (Favicons.studio "My Site!") = (Ret tt, w')
    ∧ 0 <= prefix_insert (w_gui w') <= Gui.py_len (prefix_entry (w_gui w'))
    ∧ Gui.validate_prefix w' = (Ret tt, w').
Proof.
  apply (validate_prefix_cursor (Favicons.studio "My Site!")). vm_compute. split; discriminate.
Defined.

(** X20.  Once the key-release handler has run, the favicon set carries
    the filtered prefix: with Pillow, a source that opens, a colour
    [#rrggbb] and writable targets, handler and generation in sequence
    write the eight files under the entry's text without the characters
    outside [a-zA-Z0-9-_], and change nothing else. *)
Theorem validated_prefix_used (w : world) (source out : path) (im : image) :
  let p := Gui.re_sub_invalid (prefix_entry (w_gui w)) in
  w_pillow w = true →
  selected_file (w_gui w) = Some source →
  image_at w source = Some im →
  colour_ok (bg_color (w_gui w)) = true →
  (∀ base, base ∈ FAVICON_SET → writable w (out // (p +:+ base)) = true) →
  ∃ w',
    (Gui.validate_prefix ;; Gui.generate_favicon_set (Some out)) w = (Ret tt, w')
    ∧ prefix_entry (w_gui w') = p
    ∧ (∀ base, base ∈ FAVICON_SET → is_Some (w_fs w' !! (out // (p +:+ base))))
    ∧ (∀ q, (∀ base, base ∈ FAVICON_SET → q ≠ out // (p +:+ base)) →
            w_fs w' !! q = w_fs w !! q).
Proof.
  intros p Hp Hs Hi Hc Hfree.
  pose proof (validate_prefix_run w) as Hv. cbv zeta in Hv. fold p in Hv.
  set (w1 := if String.eqb (prefix_entry (w_gui w)) p then w
             else log_ui (after_config_fg 500 "prefix_hint" "#888888")
                    (log_ui (config_fg "prefix_hint" "#cc0000")
                       (set_gui (Gui.set_prefix_entry p
                          (Z.max 0 (prefix_insert (w_gui w)
                                    - (Gui.py_len (prefix_entry (w_gui w)) - Gui.py_len p)))) w)))
    in *.
  assert (H1 : w_fs w1 = w_fs w ∧ w_pillow w1 = w_pillow w
               ∧ selected_file (w_gui w1) = selected_file (w_gui w)
               ∧ bg_color (w_gui w1) = bg_color (w_gui w)
               ∧ prefix_entry (w_gui w1) = p).
  { unfold w1. destruct (String.eqb_spec (prefix_entry (w_gui w)) p) as [E|E]; done. }
  destruct H1 as (Hfs & Hp1 & Hs1 & Hc1 & He1).
  assert (Hstrip : Gui.strip (prefix_entry (w_gui w1)) = p).
  { rewrite He1. apply strip_re_sub_invalid. }
  destruct (generate_favicon_set_run w1 source out im) as (w' & Hrun & Hfs' & _ & He').
  - by rewrite Hp1.
  - unfold image_at. rewrite Hfs. exact Hi.
  - by rewrite Hc1.
  - intros base Hb. rewrite Hstrip. rewrite <- (Hfree base Hb).
    apply writable_frame; by rewrite Hfs.
  - by rewrite Hs1.
  - exists w'. unfold bind. rewrite Hv. split; [exact Hrun|].
    split; [by rewrite He'|]. rewrite Hstrip in Hfs'. split.
    + intros base Hb. rewrite Hfs'.
      assert (Hin : p +:+ base ∈ String.app p <$> FAVICON_SET) by (by apply list_elem_of_fmap_2).
      rewrite <- (favicon_files_names p (with_alpha im) (theme_color (w_gui w1))
                    (manifest_bg_color (w_gui w1))) in Hin.
      apply list_elem_of_fmap in Hin as ([f d] & Hf & Hin). simpl in Hf. subst f.
      erewrite lookup_store; [by eexists | | exact Hin].
      rewrite favicon_files_names. apply prefixed_NoDup.
    + intros q Hq. rewrite Hfs', <- Hfs. apply lookup_store_other.
      intros f Hf. rewrite favicon_files_names in Hf.
      apply list_elem_of_fmap in Hf as (base & -> & Hb). by apply Hq.
Qed.

Lemma validated_prefix_used_witness :
  ∃ w',
    (Gui.validate_prefix ;; Gui.generate_favicon_set (Some Favicons.site))
      (Favicons.studio "My Site!") = (Ret tt, w')
    ∧ prefix_entry (w_gui w') = "MySite"
    ∧ (∀ base, base ∈ FAVICON_SET →
               is_Some (w_fs w' !! (Favicons.site // ("MySite" +:+ base))))
    ∧ (∀ q, (∀ base, base ∈ FAVICON_SET → q ≠ Favicons.site // ("MySite" +:+ base)) →
            w_fs w' !! q = w_fs (Favicons.studio "My Site!") !! q).
Proof.
  apply (validated_prefix_used (Favicons.studio "My Site!") Favicons.logo Favicons.site
           Examples.png64).
  - reflexivity.
  - reflexivity.
  - vm_compute. reflexivity.
  - vm_compute. reflexivity.
  - refine (proj1 (Forall_forall _ _) _).
    refine (bool_decide_unpack _ _). vm_compute. exact I.
Defined.


(** ** The widths that [get_ico_sizes] reports *)

(** X21.  [get_ico_sizes] changes no file.  For a file that Pillow opens
    it returns the widths of all its frames and nothing else, heights play
    no part; without Pillow or for a file that does not open it returns
    the empty set. *)
Theorem get_ico_sizes_widths (ico_path : path) (w : world) :
  ∃ sizes w',
    Cli.get_ico_sizes ico_path w = (Ret sizes, w')
    ∧ w_fs w' = w_fs w
    ∧ match (if w_pillow w then image_at w ico_path else None) with
      | Some im => ∀ z, z ∈ sizes ↔ ∃ s, s ∈ frame_sizes im ∧ s.1 = z
      | None => sizes = ∅
      end.
Proof.
  rewrite get_ico_sizes_run. unfold seen_widths, frame_widths.
  destruct (w_pillow w); [|by eexists _, _].
  eexists _, _. split; [reflexivity|]. split; [reflexivity|].
  destruct (image_at w ico_path) as [im|]; [|done].
  intros z. rewrite elem_of_list_to_set, list_elem_of_fmap. naive_solver.
Qed.

(** ** What a batch of the GUI can reach *)

Ltac quiet_at :=
  lazymatch goal with
  | |- batch_effect ?f ?b ?w (?m ?w).2 =>
      apply (batch_effect_quiet f b m); intros ? ?; effect_tac
  end.

Lemma batch_effect_Gui_item folder recursive (d : path) (w : world) :
  batch_item w folder recursive d →
  batch_effect folder recursive w (Gui.process_single_folder d w).2.
Proof.
  intros Hd. unfold batch_effect.
  eapply effect_mono; [| | |apply (Gui_process_single_folder_effect d)].
  - intros q Hq. by exists d.
  - intros q ->. by right.
  - done.
Qed.

Lemma Gui_process_subfolder_effect folder (x : path) (st : Gui.counts) :
  x ≠ [] → parent x = folder →
  preserves (batch_effect folder true) (Gui.process_subfolder x st).
Proof.
  intros Hx Hp w. unfold Gui.process_subfolder, is_dir. rewrite bind_get.
  destruct (kind_is_dir (lookup_kind w x)) eqn:Hd; [|reflexivity].
  unfold bind. pose proof (batch_effect_Gui_item folder true x w) as H.
  destruct (Gui.process_single_folder x w) as [[r|e] w1]; simpl in *; apply H; by right.
Qed.

Lemma Gui_tally_effect (folder : path) (w : world) :
  batch_effect folder (process_subfolders (w_gui w)) w (Gui.tally folder w).2.
Proof.
  unfold Gui.tally. unfold bind at 1.
  pose proof (batch_effect_Gui_item folder (process_subfolders (w_gui w)) folder w
                ltac:(by left)) as H1.
  destruct (Gui.process_single_folder folder w) as [[r|e] w1]; simpl in H1; [|exact H1].
  rewrite bind_get. rewrite (eff_gui _ _ _ _ _ H1).
  destruct (process_subfolders (w_gui w)) eqn:Hsub; [|exact H1].
  etransitivity; [exact H1|].
  unfold bind at 1.
  destruct (iterdir folder w1) as [[l|e] w2] eqn:Hit.
  - assert (w2 = w1) as ->.
    { revert Hit. unfold iterdir, is_dir. rewrite bind_get.
      destruct (kind_is_dir _); unfold get, raise; by intros [= _ <-]. }
    apply preserves_for_each_Forall; [apply _|].
    eapply Forall_impl; [exact (iterdir_children folder w1 w1 l Hit)|].
    intros x [Hx Hp] s. by apply Gui_process_subfolder_effect.
  - simpl. revert Hit. unfold iterdir, is_dir. rewrite bind_get.
    destruct (kind_is_dir _); unfold get, raise; [done|]. by intros [= _ <-].
Qed.

(** X22.  A run of the GUI's [apply_folder_icon] changes nothing beyond
    the folders it works on, the target and, when the subfolder box is
    ticked, the directories directly in it: of these it touches the
    attributes, [desktop.ini] and [folder.ico].  Every other path keeps
    its node; with the box unticked no subfolder is touched. *)
Theorem Gui_apply_folder_icon_reach (folder : path) (w : world) (q : path) :
  (∀ d, batch_item w folder (process_subfolders (w_gui w)) d →
        q ≠ d ∧ q ≠ d // "desktop.ini" ∧ q ≠ d // "folder.ico") →
  w_fs (Gui.apply_folder_icon folder w).2 !! q = w_fs w !! q.
Proof.
  intros Hq.
  assert (H : batch_effect folder (process_subfolders (w_gui w)) w
                (Gui.apply_folder_icon folder w).2).
  { unfold Gui.apply_folder_icon. rewrite bind_get.
    destruct (negb (w_pillow w)); [quiet_at|].
    unfold path_exists. rewrite bind_get. destruct (negb _); [quiet_at|].
    unfold is_dir. rewrite bind_get. destruct (negb _); [quiet_at|].
    unfold bind at 1, modify at 1.
    set (w0 := log_ui (config "folder_status" "Processing..." "blue") w).
    unfold bind at 1. pose proof (Gui_tally_effect folder w0) as Ht.
    change (process_subfolders (w_gui w0)) with (process_subfolders (w_gui w)) in Ht.
    assert (H0 : batch_effect folder (process_subfolders (w_gui w)) w w0).
    { pose proof (batch_effect_quiet folder (process_subfolders (w_gui w))
                    (modify (log_ui (config "folder_status" "Processing..." "blue")))) as H.
      apply (H ltac:(intros W F; effect_tac) w). }
    destruct (Gui.tally folder w0) as [[st|e] w1]; simpl in Ht.
    - etransitivity; [exact H0|]. etransitivity; [exact Ht|].
      apply (batch_effect_quiet folder (process_subfolders (w_gui w))).
      intros W F. unfold Gui.show_results, Gui.update_folder_icon_preview.
      effect_tac; done.
    - simpl. etransitivity; [exact H0 | exact Ht]. }
  apply (eff_node _ _ _ _ _ H).
  - intros (d & Hd & Hw). destruct (Hq d Hd) as (_ & H1 & H2). by destruct Hw.
  - intros Hd. by destruct (Hq q Hd) as (H0 & _).
Qed.

Lemma Gui_apply_folder_icon_reach_witness :
  w_fs (Gui.apply_folder_icon Examples.proj Examples.png_only).2
    !! (Examples.proj // "folder.png")
  = w_fs Examples.png_only !! (Examples.proj // "folder.png").
Proof.
  apply (Gui_apply_folder_icon_reach Examples.proj Examples.png_only
           (Examples.proj // "folder.png")).
  intros d [->|(_ & Hn & Hp & Hd)].
  - repeat split; discriminate.
  - repeat split; intros E.
    + rewrite <- E in Hd. vm_compute in Hd. discriminate.
    + unfold joinpath in E. apply app_inj_tail in E as [_ E]. discriminate.
    + unfold joinpath in E. apply app_inj_tail in E as [_ E]. discriminate.
Defined.


(** ** Runs that differ in what they print *)

(** The world without its logs: the calls made, the two output streams
    and the events of the GUI. *)
Definition quiet (w : world) : world :=
  {| w_fs := w_fs w; w_pillow := w_pillow w; w_platform := w_platform w;
     w_attrib := w_attrib w; w_resolve := w_resolve w; w_calls := [];
     w_stdout := []; w_stderr := []; w_ui := []; w_gui := w_gui w |}.

(** Two worlds that differ in their logs at most. *)
Definition alike (w1 w2 : world) : Prop := quiet w1 = quiet w2.

(** Two computations that, from worlds alike, end in the same outcome and
    in worlds alike. *)
Definition sim {A} (m m' : M A) : Prop :=
  ∀ w1 w2, alike w1 w2 → (m w1).1 = (m' w2).1 ∧ alike (m w1).2 (m' w2).2.

Lemma alike_fs w1 w2 : alike w1 w2 → w_fs w1 = w_fs w2.
Proof. intros H. exact (f_equal w_fs H). Qed.

Lemma alike_pillow w1 w2 : alike w1 w2 → w_pillow w1 = w_pillow w2.
Proof. intros H. exact (f_equal w_pillow H). Qed.

Lemma alike_attrib w1 w2 : alike w1 w2 → w_attrib w1 = w_attrib w2.
Proof. intros H. exact (f_equal w_attrib H). Qed.

Lemma alike_resolve w1 w2 : alike w1 w2 → w_resolve w1 = w_resolve w2.
Proof. intros H. exact (f_equal w_resolve H). Qed.

Lemma alike_platform w1 w2 : alike w1 w2 → w_platform w1 = w_platform w2.
Proof. intros H. exact (f_equal w_platform H). Qed.

Lemma alike_gui w1 w2 : alike w1 w2 → w_gui w1 = w_gui w2.
Proof. intros H. exact (f_equal w_gui H). Qed.

Lemma alike_set_fs h w1 w2 : alike w1 w2 → alike (set_fs h w1) (set_fs h w2).
Proof. intros H. exact (f_equal (set_fs h) H). Qed.

Lemma sim_ret {A} (a : A) : sim (ret a) (ret a).
Proof. by intros w1 w2 H. Qed.

Lemma sim_raise {A} c msg : sim (@raise A c msg) (raise c msg).
Proof. by intros w1 w2 H. Qed.

Lemma sim_get {A} (f : world → A) : (∀ w, f w = f (quiet w)) → sim (get f) (get f).
Proof. intros Hf w1 w2 H. unfold get. simpl. split; [|done]. by rewrite Hf, H, <- Hf. Qed.

Lemma sim_log f g :
  (∀ w, quiet (f w) = quiet w) → (∀ w, quiet (g w) = quiet w) → sim (modify f) (modify g).
Proof. intros Hf Hg w1 w2 H. unfold modify, alike. simpl. by rewrite Hf, Hg. Qed.

Lemma sim_log_left f :
  (∀ w, quiet (f w) = quiet w) → sim (modify f) (ret tt).
Proof. intros Hf w1 w2 H. unfold modify, alike. simpl. by rewrite Hf. Qed.

Lemma sim_log_right f :
  (∀ w, quiet (f w) = quiet w) → sim (ret tt) (modify f).
Proof. intros Hf w1 w2 H. unfold modify, alike. simpl. by rewrite Hf. Qed.

Lemma sim_bind {A B} (m m' : M A) (k k' : A → M B) :
  sim m m' → (∀ a, sim (k a) (k' a)) → sim (bind m k) (bind m' k').
Proof.
  intros Hm Hk w1 w2 H. unfold bind. destruct (Hm w1 w2 H) as [Ho Hw].
  destruct (m w1) as [[a|e] w1'], (m' w2) as [[a'|e'] w2']; simpl in *; simplify_eq.
  - by apply Hk.
  - done.
Qed.

Lemma sim_try_except {A} (m m' : M A) (h h' : exn → M A) :
  sim m m' → (∀ e, sim (h e) (h' e)) → sim (try_except m h) (try_except m' h').
Proof.
  intros Hm Hh w1 w2 H. unfold try_except. destruct (Hm w1 w2 H) as [Ho Hw].
  destruct (m w1) as [[a|e] w1'], (m' w2) as [[a'|e'] w2']; simpl in *; simplify_eq.
  - done.
  - by apply Hh.
Qed.

(** Printing, or not, makes no difference. *)
Lemma sim_say (v v' : bool) (s s' : string) : sim (when v (print s)) (when v' (print s')).
Proof. by destruct v, v'; intros w1 w2 H. Qed.

Lemma sim_print (s : string) : sim (print s) (print s).
Proof. by intros w1 w2 H. Qed.

Lemma sim_for_each {A S} (l : list A) (body body' : A → S → M S) (st : S) :
  (∀ x s, sim (body x s) (body' x s)) → sim (Cli.for_each l body st) (Cli.for_each l body' st).
Proof.
  intros Hb. revert st. induction l as [|x l IH]; intros st; simpl.
  - apply sim_ret.
  - apply sim_bind; [apply Hb | intros s; apply IH].
Qed.

Lemma sim_write_file p d : sim (write_file p d) (write_file p d).
Proof.
  intros w1 w2 H. unfold write_file, lookup_kind, raise.
  rewrite (alike_fs _ _ H).
  destruct (negb _); [done|].
  destruct (w_fs w2 !! p) as [[[|d0] a]|]; simpl; try done.
  - destruct (any_attr a); simpl; [done|]. split; [done | by apply alike_set_fs].
  - split; [done | by apply alike_set_fs].
Qed.

Lemma sim_Image_open p : sim (Image_open p) (Image_open p).
Proof.
  unfold Image_open.
  apply sim_bind; [by apply sim_get | intros pillow].
  destruct (negb pillow); [apply sim_raise|].
  apply sim_bind; [by apply sim_log | intros _].
  apply sim_bind; [by apply sim_get | intros n].
  destruct n as [[[|[]] ?]|]; first [apply sim_raise | apply sim_ret].
Qed.

Lemma sim_Image_save img p fmt sizes : sim (Image_save img p fmt sizes) (Image_save img p fmt sizes).
Proof.
  unfold Image_save. apply sim_bind; [by apply sim_log | intros _]. apply sim_write_file.
Qed.

Lemma sim_attrib flags p : sim (attrib flags p) (attrib flags p).
Proof.
  unfold attrib.
  apply sim_bind; [by apply sim_log | intros _].
  apply sim_bind; [by apply sim_get | intros found].
  destruct (negb found); [apply sim_raise|].
  intros w1 w2 H. unfold modify. simpl. split; [done | by apply alike_set_fs].
Qed.

Lemma sim_path_exists p : sim (path_exists p) (path_exists p).
Proof. by apply sim_get. Qed.

Lemma sim_is_dir p : sim (is_dir p) (is_dir p).
Proof. by apply sim_get. Qed.

Lemma sim_set_folder_icon f i a : sim (Cli.set_folder_icon f i a) (Cli.set_folder_icon f i a).
Proof.
  unfold Cli.set_folder_icon. apply sim_try_except.
  - apply sim_bind; [apply sim_path_exists | intros e].
    apply sim_bind; [destruct e; [apply sim_attrib | apply sim_ret] | intros _].
    apply sim_bind; [destruct a; [by apply sim_get | apply sim_ret] | intros ref].
    apply sim_bind; [apply sim_write_file | intros _].
    apply sim_bind; [apply sim_attrib | intros _].
    apply sim_bind; [apply sim_attrib | intros _].
    apply sim_ret.
  - intros e. destruct (e_class e); apply sim_ret.
Qed.

Lemma sim_get_ico_sizes p : sim (Cli.get_ico_sizes p) (Cli.get_ico_sizes p).
Proof.
  unfold Cli.get_ico_sizes.
  apply sim_bind; [by apply sim_get | intros pillow].
  destruct (negb pillow); [apply sim_ret|].
  apply sim_try_except; [|intros e; apply sim_ret].
  apply sim_bind; [apply sim_Image_open | intros img]. apply sim_ret.
Qed.

Lemma sim_Cli_psf f a v v' :
  sim (Cli.process_single_folder f a v) (Cli.process_single_folder f a v').
Proof.
  unfold Cli.process_single_folder.
  apply sim_bind; [by apply sim_get | intros pillow].
  destruct (negb pillow); [apply sim_ret|].
  apply sim_bind; [apply sim_path_exists | intros ico_exists].
  destruct ico_exists.
  - apply sim_bind; [apply sim_say | intros _].
    apply sim_bind; [apply sim_get_ico_sizes | intros sizes].
    apply sim_bind.
    { destruct (bool_decide _); [apply sim_path_exists | apply sim_ret]. }
    intros regenerate. apply sim_bind.
    { destruct regenerate; [|apply sim_ret].
      apply sim_bind.
      { destruct v, v'; simpl; unfold bind, print, modify; by intros w1 w2 H. }
      intros _. apply sim_try_except; [|intros e; apply sim_ret].
      apply sim_bind; [apply sim_Image_open | intros img].
      apply sim_bind; [apply sim_Image_save | intros _].
      apply sim_bind; [apply sim_say | intros _]. apply sim_ret. }
    intros [msg|]; [apply sim_ret|].
    apply sim_bind; [apply sim_set_folder_icon | intros r]. apply sim_ret.
  - apply sim_bind; [apply sim_path_exists | intros png_exists].
    destruct png_exists; [|apply sim_ret].
    apply sim_bind; [apply sim_say | intros _].
    apply sim_try_except; [|intros e; apply sim_ret].
    apply sim_bind; [apply sim_Image_open | intros img].
    apply sim_bind; [apply sim_Image_save | intros _].
    apply sim_bind; [apply sim_say | intros _].
    apply sim_bind; [apply sim_set_folder_icon | intros r]. apply sim_ret.
Qed.

Lemma sim_Cli_count_result f r v v' st :
  sim (Cli.count_result f r v st) (Cli.count_result f r v' st).
Proof.
  unfold Cli.count_result. destruct st as [processed errors], r.
  - apply sim_bind; [apply sim_say | intros _; apply sim_ret].
  - apply sim_bind; [apply sim_say | intros _; apply sim_ret].
  - apply sim_ret.
Qed.

Lemma sim_Cli_tally folder recursive a v v' :
  sim (Cli.tally folder recursive a v) (Cli.tally folder recursive a v').
Proof.
  unfold Cli.tally.
  apply sim_bind; [apply sim_say | intros _].
  apply sim_bind; [apply sim_Cli_psf | intros r].
  apply sim_bind; [apply sim_Cli_count_result | intros st].
  destruct recursive; [|apply sim_ret].
  apply sim_bind.
  { unfold iterdir. apply sim_bind; [apply sim_is_dir | intros d].
    destruct d; [by apply sim_get | apply sim_raise]. }
  intros subfolders. apply sim_for_each. intros x s.
  unfold Cli.process_subfolder.
  apply sim_bind; [apply sim_is_dir | intros d]. destruct d; [|apply sim_ret].
  apply sim_bind; [apply sim_say | intros _].
  apply sim_bind; [apply sim_Cli_psf | intros r']. apply sim_Cli_count_result.
Qed.

Lemma sim_Cli_summary st : sim (Cli.summary st) (Cli.summary st).
Proof.
  unfold Cli.summary. destruct st as [processed errors].
  apply sim_bind; [apply sim_print | intros _].
  destruct (_ && _).
  { apply sim_bind; [apply sim_print | intros _].
    apply sim_bind; [apply sim_print | intros _]. apply sim_ret. }
  destruct (0 <? processed)%nat.
  - apply sim_bind; [apply sim_print | intros _].
    apply sim_bind; [apply sim_for_each; intros x []; apply sim_print | intros _].
    apply sim_bind; [apply sim_say | intros _]. apply sim_ret.
  - apply sim_bind; [apply sim_print | intros _].
    apply sim_bind; [destruct errors; [apply sim_ret | apply sim_print] | intros _].
    apply sim_ret.
Qed.

Lemma alike_refl w : alike w w.
Proof. reflexivity. Qed.

(** X23.  [--verbose] is for the eye only: with it and without it
    [apply_folder_icon] returns the same verdict and leaves the same
    files, with the same contents and attributes. *)
Theorem verbose_is_cosmetic (folder : path) (recursive use_absolute_path v v' : bool)
    (w : world) :
  (Cli.apply_folder_icon folder recursive use_absolute_path v w).1
  = (Cli.apply_folder_icon folder recursive use_absolute_path v' w).1
  ∧ w_fs (Cli.apply_folder_icon folder recursive use_absolute_path v w).2
    = w_fs (Cli.apply_folder_icon folder recursive use_absolute_path v' w).2.
Proof.
  assert (H : sim (Cli.apply_folder_icon folder recursive use_absolute_path v)
                  (Cli.apply_folder_icon folder recursive use_absolute_path v')).
  { unfold Cli.apply_folder_icon.
    apply sim_bind; [by apply sim_get | intros platform].
    destruct (negb _).
    { apply sim_bind; [by apply sim_log | intros _; apply sim_ret]. }
    apply sim_bind; [by apply sim_get | intros pillow].
    destruct (negb _).
    { apply sim_bind; [by apply sim_log | intros _; apply sim_ret]. }
    apply sim_bind; [apply sim_path_exists | intros e].
    destruct (negb _).
    { apply sim_bind; [by apply sim_log | intros _; apply sim_ret]. }
    apply sim_bind; [apply sim_is_dir | intros d].
    destruct (negb _).
    { apply sim_bind; [by apply sim_log | intros _; apply sim_ret]. }
    apply sim_bind; [apply sim_Cli_tally | intros st]. apply sim_Cli_summary. }
  destruct (H w w (alike_refl w)) as [Ho Hw]. split; [exact Ho | by apply alike_fs].
Qed.

(** *** The two reconcilers *)

Lemma sim_skip_say {A} (m m' : M A) (v : bool) (s : string) :
  sim m m' → sim m (when v (print s) ;; m').
Proof. intros H w1 w2 Hw. unfold bind. destruct v; simpl; by apply H. Qed.

Lemma sim_lift_with_ico (ico : path) (x y : outcome pyval * world) :
  x.1 = y.1 → alike x.2 y.2 →
  (lift_with_ico ico x).1 = (lift_with_ico ico y).1
  ∧ alike (lift_with_ico ico x).2 (lift_with_ico ico y).2.
Proof.
  destruct x as [[r|e] w1], y as [[r'|e'] w2]; simpl; intros; by simplify_eq.
Qed.

(** What the GUI's reconciler does when there is no [folder.ico]. *)
Definition Gui_from_png (folder : path) : M verdict :=
  png_exists <- path_exists (folder // "folder.png") ;;
  if png_exists then
    try_except
      (img <- Image_open (folder // "folder.png") ;;
       Image_save img (folder // "folder.ico") "ICO"
         (Some [(16, 16); (32, 32); (48, 48); (64, 64); (128, 128); (256, 256)]) ;;
       result <- Gui.set_folder_icon folder (folder // "folder.ico") ;;
       ret (Cli.with_ico result (folder // "folder.ico")))
      (fun e => ret (PyStr ("Failed to convert PNG: " +:+ e_str e), None))
  else ret (PyStr "No folder.ico or folder.png found", None).

(** What the command-line reconciler does then. *)
Definition Cli_from_png (folder : path) (use_absolute_path verbose : bool) : M verdict :=
  png_exists <- path_exists (folder // "folder.png") ;;
  if png_exists then
    when verbose (print "  Found folder.png, converting to ICO...") ;;
    try_except
      (img <- Image_open (folder // "folder.png") ;;
       Image_save img (folder // "folder.ico") "ICO" (Some Cli.FOLDER_ICO_SIZES) ;;
       when verbose (print "  Created folder.ico") ;;
       result <- Cli.set_folder_icon folder (folder // "folder.ico") use_absolute_path ;;
       ret (Cli.with_ico result (folder // "folder.ico")))
      (fun e => ret (PyStr ("Failed to convert PNG: " +:+ e_str e), None))
  else ret (PyStr "No folder.ico or folder.png found", None).

Lemma Gui_psf_absent (folder : path) (w : world) :
  w_fs w !! (folder // "folder.ico") = None →
  Gui.process_single_folder folder w = Gui_from_png folder w.
Proof.
  intros Hi. unfold Gui.process_single_folder, Gui_from_png.
  unfold path_exists at 1. rewrite bind_get, Hi.
  by rewrite (bool_decide_eq_false_2 (is_Some None)) by (by intros [? ?]).
Qed.

Lemma Cli_psf_absent (folder : path) (a v : bool) (w : world) :
  w_pillow w = true →
  w_fs w !! (folder // "folder.ico") = None →
  Cli.process_single_folder folder a v w = Cli_from_png folder a v w.
Proof.
  intros Hp Hi. unfold Cli.process_single_folder, Cli_from_png.
  rewrite bind_get, Hp. cbn [negb].
  unfold path_exists at 1. rewrite bind_get, Hi.
  by rewrite (bool_decide_eq_false_2 (is_Some None)) by (by intros [? ?]).
Qed.

Lemma sim_from_png (folder : path) (verbose : bool) :
  sim (Gui_from_png folder) (Cli_from_png folder false verbose).
Proof.
  unfold Gui_from_png, Cli_from_png.
  apply sim_bind; [apply sim_path_exists | intros png_exists].
  destruct png_exists; [|apply sim_ret].
  apply sim_skip_say.
  apply sim_try_except; [|intros e; apply sim_ret].
  apply sim_bind; [apply sim_Image_open | intros img].
  apply sim_bind; [apply sim_Image_save | intros _].
  apply sim_skip_say.
  apply sim_bind; [|intros r; apply sim_ret].
  rewrite Gui_set_folder_icon_eq. apply sim_set_folder_icon.
Qed.

(** X24.  Where the command-line reconciler has nothing to regenerate, it
    and the GUI's agree: with Pillow installed, on a folder whose
    [folder.ico] is missing or has no [folder.png] beside it, both return
    the same result (the command-line one in relative mode) and leave the
    same files. *)
Theorem reconcilers_agree (folder : path) (verbose : bool) (w : world) :
  w_pillow w = true →
  w_fs w !! (folder // "folder.ico") = None
  ∨ w_fs w !! (folder // "folder.png") = None →
  (Gui.process_single_folder folder w).1 = (Cli.process_single_folder folder false verbose w).1
  ∧ w_fs (Gui.process_single_folder folder w).2
    = w_fs (Cli.process_single_folder folder false verbose w).2.
Proof.
  intros Hp Hcond.
  destruct (w_fs w !! (folder // "folder.ico")) as [n|] eqn:Hi.
  - assert (HiS : is_Some (w_fs w !! (folder // "folder.ico"))) by (by rewrite Hi).
    rewrite Gui_psf_keep by done.
    rewrite (Cli_psf_keep folder false verbose w) by (try done; destruct Hcond as [?|?]; auto; done).
    destruct (sim_lift_with_ico (folder // "folder.ico")
                (Cli.set_folder_icon folder (folder // "folder.ico") false w)
                (Cli.set_folder_icon folder (folder // "folder.ico") false
                   (log_call (Image_open_call (folder // "folder.ico"))
                      (say verbose "  Found existing folder.ico" w)))) as [Ho Hw].
    + apply sim_set_folder_icon. by destruct verbose.
    + apply sim_set_folder_icon. by destruct verbose.
    + split; [exact Ho | by apply alike_fs].
  - rewrite Gui_psf_absent, Cli_psf_absent by done.
    destruct (sim_from_png folder verbose w w (alike_refl w)) as [Ho Hw].
    split; [exact Ho | exact (alike_fs _ _ Hw)].
Qed.

Lemma reconcilers_agree_witness :
  (Gui.process_single_folder Examples.proj Examples.one_subfolder).1
  = (Cli.process_single_folder Examples.proj false true Examples.one_subfolder).1
  ∧ w_fs (Gui.process_single_folder Examples.proj Examples.one_subfolder).2
    = w_fs (Cli.process_single_folder Examples.proj false true Examples.one_subfolder).2.
Proof.
  apply (reconcilers_agree Examples.proj true Examples.one_subfolder).
  - reflexivity.
  - right. reflexivity.
Defined.


(** ** The dialog that closes a batch of the GUI *)

(** With the subfolder box unticked the batch is the target alone. *)
Lemma Gui_tally_single (folder : path) (w : world) :
  process_subfolders (w_gui w) = false →
  ∃ r w1 st,
    Gui.process_single_folder folder w = (Ret r, w1)
    ∧ r.1 ≠ PyNone
    ∧ Gui.tally folder w = (Ret st, w1)
    ∧ Gui.processed st = successes [(folder, r)]
    ∧ Gui.errors st = failures [(folder, r)].
Proof.
  intros Hsub.
  destruct (Gui_psf_returns_verdict folder w) as (r & w1 & Hr & Hn).
  assert (G1 : w_gui w1 = w_gui w).
  { pose proof (eff_gui _ _ _ _ _ (Gui_process_single_folder_effect folder w)) as H.
    by rewrite Hr in H. }
  eexists r, w1, _. split; [exact Hr|]. split; [exact Hn|]. split.
  - unfold Gui.tally. unfold bind at 1. rewrite Hr. rewrite bind_get, G1, Hsub. reflexivity.
  - unfold successes, failures, Gui.count_result. rewrite filter_cons.
    destruct r as [[| |] o]; case_decide; simpl in *; done.
Qed.

(** The dialog for a batch with these outcomes. *)
Definition closing_dialog (outs : list (path * verdict)) : ui :=
  if all_True outs then
    messagebox "info" "Success"
      ("Folder icon set for " +:+ pretty (successes outs) +:+ " folder(s)." +:+ nl +:+ nl
       +:+ "You may need to refresh Windows Explorer (F5) to see the changes.")
  else if (0 <? successes outs)%nat then
    messagebox "warning" "Partial Success"
      ("Set icon for " +:+ pretty (successes outs) +:+ " folder(s)." +:+ nl +:+ nl
       +:+ "Errors:" +:+ nl +:+ Gui.error_list (failures outs))
  else messagebox "error" "Error" (hd "" (failures outs)).

Lemma update_folder_icon_preview_run (ico : path) (folder_name : string) (w : world) :
  ∃ w' new,
    Gui.update_folder_icon_preview ico folder_name w = (Ret tt, w')
    ∧ w_fs w' = w_fs w
    ∧ w_ui w' = (w_ui w ++ new)%list.
Proof.
  unfold Gui.update_folder_icon_preview. rewrite bind_get.
  destruct (w_pillow w) eqn:Hp; cbn [negb].
  2: { exists w, []. by rewrite app_nil_r. }
  unfold try_except, bind at 1.
  destruct (image_at w ico) as [img|] eqn:Hi.
  - rewrite (Image_open_ok _ img) by done.
    eexists _, [_; _]. split; [reflexivity|]. split; [done|].
    cbn [w_ui log_ui log_call]. by rewrite <- app_assoc.
  - destruct (Image_open_fails _ w Hp Hi) as (e & ->).
    eexists _, [_]. split; [reflexivity|]. done.
Qed.

Lemma show_results_run (folder : path) (st : Gui.counts) (outs : list (path * verdict))
    (w : world) :
  Forall (λ o, o.2.1 ≠ PyNone) outs → outs ≠ [] →
  Gui.processed st = successes outs →
  Gui.errors st = failures outs →
  ∃ w',
    Gui.show_results folder st w = (Ret tt, w')
    ∧ w_fs w' = w_fs w
    ∧ last (w_ui w') = Some (closing_dialog outs).
Proof.
  intros Hall Hne Hp He. unfold Gui.show_results, closing_dialog.
  rewrite Hp, He.
  assert (Hb : (0 <? successes outs)%nat && bool_decide (failures outs = []) = all_True outs).
  { rewrite <- all_True_counts by done. f_equal.
    destruct (Nat.ltb_spec 0 (successes outs));
      [by rewrite bool_decide_eq_true_2 | by rewrite bool_decide_eq_false_2 by lia]. }
  rewrite Hb. destruct (all_True outs) eqn:Ha.
  - unfold bind at 1, modify at 1. unfold bind at 1, modify at 1. unfold bind at 1.
    destruct (Gui.last_ico_path st) as [ico|].
    + match goal with
      | |- context [Gui.update_folder_icon_preview ico ?n ?w0] =>
          destruct (update_folder_icon_preview_run ico n w0) as (w1 & new & -> & Hfs & Hui)
      end.
      eexists. split; [reflexivity|]. cbn [w_fs w_ui log_ui]. split; [by rewrite Hfs|].
      by rewrite last_snoc.
    + eexists. split; [reflexivity|]. cbn [w_fs w_ui log_ui]. split; [done|].
      by rewrite last_snoc.
  - destruct (0 <? successes outs)%nat eqn:Hs.
    + unfold bind at 1, modify at 1. unfold bind at 1.
      destruct (Gui.last_ico_path st) as [ico|].
      * match goal with
        | |- context [Gui.update_folder_icon_preview ico ?n ?w0] =>
            destruct (update_folder_icon_preview_run ico n w0) as (w1 & new & -> & Hfs & Hui)
        end.
        eexists. split; [reflexivity|]. cbn [w_fs w_ui log_ui]. split; [by rewrite Hfs|].
        by rewrite last_snoc.
      * eexists. split; [reflexivity|]. cbn [w_fs w_ui log_ui]. split; [done|].
        by rewrite last_snoc.
    + unfold bind at 1, modify at 1.
      assert (Hf : failures outs ≠ []).
      { intros Hf. apply Nat.ltb_ge in Hs.
        pose proof (successes_failures_length outs Hall) as Hl. rewrite Hf in Hl.
        simpl in Hl. destruct outs; [done|]. simpl in Hl. lia. }
      destruct (failures outs) as [|e errs]; [done|].
      eexists. split; [reflexivity|]. cbn [w_fs w_ui log_ui hd]. split; [done|].
      by rewrite last_snoc.
Qed.

(** X25.  With Pillow and a directory as target, the GUI's
    [apply_folder_icon] reconciles the target and, when the subfolder box
    is ticked, each directory directly in it, and closes with one dialog:
    "Success" when every one of them succeeded, "Partial Success" with
    the list of errors when some did, and an error dialog with the first
    error when none did. *)
Theorem Gui_apply_folder_icon_dialog (folder : path) (w : world) :
  w_pillow w = true →
  kind_is_dir (lookup_kind w folder) = true →
  ∃ r w1 subs outs w2 w',
    Gui.process_single_folder folder
      (log_ui (config "folder_status" "Processing..." "blue") w) = (Ret r, w1)
    ∧ subs ≡ₚ (if process_subfolders (w_gui w) then subdirs w folder else [])
    ∧ attempt_each Gui.process_single_folder subs w1 = (Ret outs, w2)
    ∧ outs.*1 = subs
    ∧ Gui.apply_folder_icon folder w = (Ret tt, w')
    ∧ w_fs w' = w_fs w2
    ∧ last (w_ui w') = Some (closing_dialog ((folder, r) :: outs)).
Proof.
  intros Hp Hdir.
  set (w0 := log_ui (config "folder_status" "Processing..." "blue") w).
  assert (Hex : bool_decide (is_Some (w_fs w !! folder)) = true).
  { apply bool_decide_eq_true_2. unfold lookup_kind in Hdir.
    destruct (w_fs w !! folder); [by eexists | done]. }
  assert (Htally : ∃ r w1 subs outs w2 st,
    Gui.process_single_folder folder w0 = (Ret r, w1)
    ∧ subs ≡ₚ (if process_subfolders (w_gui w) then subdirs w folder else [])
    ∧ attempt_each Gui.process_single_folder subs w1 = (Ret outs, w2)
    ∧ outs.*1 = subs
    ∧ Forall (λ o, o.2.1 ≠ PyNone) ((folder, r) :: outs)
    ∧ Gui.tally folder w0 = (Ret st, w2)
    ∧ Gui.processed st = successes ((folder, r) :: outs)
    ∧ Gui.errors st = failures ((folder, r) :: outs)).
  { destruct (process_subfolders (w_gui w)) eqn:Hsub.
    - destruct (Gui_tally_attempts folder w0 Hdir Hsub)
        as (r & w1 & subs & outs & w2 & st & H).
      by exists r, w1, subs, outs, w2, st.
    - destruct (Gui_tally_single folder w0 Hsub) as (r & w1 & st & Hr & Hn & Ht & H1 & H2).
      exists r, w1, [], [], w1, st. repeat (split; [done|]).
      split; [by constructor | done]. }
  destruct Htally as (r & w1 & subs & outs & w2 & st & Hr & Hperm & Hrun & Hfst & Hall & Ht & H1 & H2).
  destruct (show_results_run folder st ((folder, r) :: outs) w2 Hall ltac:(done) H1 H2)
    as (w' & Hshow & Hfs & Hlast).
  exists r, w1, subs, outs, w2, w'. repeat (split; [done|]).
  split; [|split; [exact Hfs | exact Hlast]].
  unfold Gui.apply_folder_icon. rewrite bind_get, Hp. cbn [negb].
  unfold path_exists. rewrite bind_get, Hex. cbn [negb].
  unfold is_dir. rewrite bind_get, Hdir. cbn [negb].
  unfold bind at 1, modify at 1. fold w0. unfold bind at 1. by rewrite Ht.
Qed.

Lemma Gui_apply_folder_icon_dialog_witness :
  ∃ r w1 subs outs w2 w',
    Gui.process_single_folder Examples.proj
      (log_ui (config "folder_status" "Processing..." "blue") Examples.one_subfolder)
    = (Ret r, w1)
    ∧ subs ≡ₚ subdirs Examples.one_subfolder Examples.proj
    ∧ attempt_each Gui.process_single_folder subs w1 = (Ret outs, w2)
    ∧ outs.*1 = subs
    ∧ Gui.apply_folder_icon Examples.proj Examples.one_subfolder = (Ret tt, w')
    ∧ w_fs w' = w_fs w2
    ∧ last (w_ui w') = Some (closing_dialog ((Examples.proj, r) :: outs)).
Proof.
  apply (Gui_apply_folder_icon_dialog Examples.proj Examples.one_subfolder); reflexivity.
Defined.
